(** * NoSmoke backend: the progress and statistics aggregator

    A shallow embedding of [backend/server.py] (the FastAPI handlers
    [get_progress_summary], [get_weekly_progress], [get_monthly_progress],
    [get_trigger_patterns], [register], [telegram_auth], [update_profile])
    together with the part of the Python runtime they rely on: strings and
    their ordering, [datetime] values, [isoformat]/[strftime] rendering and
    the exceptions that escape a handler. *)

From Stdlib Require Import ZArith QArith Qround List String Ascii Bool Lia.
From Stdlib Require Import Permutation Sorted DecimalString.
From Stdlib Require OrderedTypeEx.
Import ListNotations.

Local Open Scope string_scope.
Local Open Scope Z_scope.

(** ** Python runtime model *)

Module Py.

(** *** Exceptions and results

    A handler either returns a value or lets an exception escape.  The only
    error a handler of this program reports on purpose is [HTTPException];
    every other exception reaches the framework unhandled. *)

Inductive exn : Type :=
| ZeroDivisionError
| ValueError (arg : string)      (* [datetime.fromisoformat] rejecting [arg] *)
| TypeError
| HTTPException (status_code : Z) (detail : string).

Inductive result (A : Type) : Type :=
| Ok (a : A)
| Raise (e : exn).
Arguments Ok {A} a.
Arguments Raise {A} e.

Definition bind {A B : Type} (r : result A) (k : A -> result B) : result B :=
  match r with
  | Ok a => k a
  | Raise e => Raise e
  end.

Notation "x <- r ;; k" := (bind r (fun x => k))
  (at level 61, r at next level, right associativity).

Definition is_HTTPException (e : exn) : bool :=
  match e with
  | HTTPException _ _ => true
  | _ => false
  end.

(** An outcome is [reported] when it is a value or an [HTTPException]. *)
Definition reported {A : Type} (r : result A) : bool :=
  match r with
  | Ok _ => true
  | Raise e => is_HTTPException e
  end.

(** *** Strings *)

(** Truthiness of an optional string, as in [if quit_date:] and [x or y]. *)
Definition truthy (o : option string) : bool :=
  match o with
  | None => false
  | Some s => negb (s =? "")%string
  end.

(** ["Z" in s] *)
Fixpoint contains_Z (s : string) : bool :=
  match s with
  | EmptyString => false
  | String c s' => (c =? "Z")%char || contains_Z s'
  end.

(** [s.replace("Z", "+00:00")] *)
Fixpoint replace_Z (s : string) : string :=
  match s with
  | EmptyString => EmptyString
  | String c s' =>
      if (c =? "Z")%char then "+00:00" ++ replace_Z s'
      else String c (replace_Z s')
  end.

(** [s[:n]] *)
Definition slice_to (n : nat) (s : string) : string := substring 0 n s.

Definition digit (n : Z) : ascii := ascii_of_nat (48 + Z.to_nat n).

(** ["%02d"], ["%04d"] and ["%06d"] on the ranges the calendar produces. *)
Definition pad2 (n : Z) : string :=
  String (digit (n / 10)) (String (digit (n mod 10)) EmptyString).
Definition pad4 (n : Z) : string := pad2 (n / 100) ++ pad2 (n mod 100).
Definition pad6 (n : Z) : string := pad2 (n / 10000) ++ pad4 (n mod 10000).

(** *** The proleptic Gregorian calendar, as in CPython's [datetime] *)

Definition DI400Y : Z := 146097.
Definition DI100Y : Z := 36524.
Definition DI4Y : Z := 1461.
Definition MAXORDINAL : Z := 3652059.      (* date.max.toordinal() *)

Definition DAYS_IN_MONTH (m : Z) : Z :=
  match m with
  | 1 => 31 | 2 => 28 | 3 => 31 | 4 => 30 | 5 => 31 | 6 => 30
  | 7 => 31 | 8 => 31 | 9 => 30 | 10 => 31 | 11 => 30 | 12 => 31
  | _ => 0
  end.

Definition DAYS_BEFORE_MONTH (m : Z) : Z :=
  match m with
  | 1 => 0 | 2 => 31 | 3 => 59 | 4 => 90 | 5 => 120 | 6 => 151
  | 7 => 181 | 8 => 212 | 9 => 243 | 10 => 273 | 11 => 304 | 12 => 334
  | _ => 0
  end.

Definition b2z (b : bool) : Z := if b then 1 else 0.

(** [_ord2ymd] on [n0 = ordinal - 1]. *)
Definition ord2ymd0 (n0 : Z) : Z * Z * Z :=
  let n400 := n0 / DI400Y in
  let n := n0 mod DI400Y in
  let n100 := n / DI100Y in
  let n := n mod DI100Y in
  let n4 := n / DI4Y in
  let n := n mod DI4Y in
  let n1 := n / 365 in
  let n := n mod 365 in
  let year := n400 * 400 + 1 + n100 * 100 + n4 * 4 + n1 in
  if (n1 =? 4) || (n100 =? 4) then (year - 1, 12, 31)
  else
    let leapyear := (n1 =? 3) && (negb (n4 =? 24) || (n100 =? 3)) in
    let month := Z.shiftr (n + 50) 5 in
    let preceding :=
      DAYS_BEFORE_MONTH month + b2z ((2 <? month) && leapyear) in
    if n <? preceding then
      let month' := month - 1 in
      let preceding' :=
        preceding - (DAYS_IN_MONTH month' + b2z ((month' =? 2) && leapyear)) in
      (year, month', n - preceding' + 1)
    else (year, month, n - preceding + 1).

Definition ord2ymd (ordinal : Z) : Z * Z * Z := ord2ymd0 (ordinal - 1).

(** *** datetime and timedelta

    A [datetime] is kept as the number of microseconds its wall-clock fields
    lie after 0001-01-01T00:00:00, with the optional [tzinfo] as the UTC
    offset in microseconds.  The calendar fields are recovered through
    [ord2ymd]; a [timedelta] is a number of microseconds. *)

Definition US_PER_SECOND : Z := 1000000.
Definition US_PER_DAY : Z := 86400000000.

Record datetime : Type := mkdt { wall : Z; tzinfo : option Z }.

Definition timedelta : Type := Z.

Definition days (n : Z) : timedelta := n * US_PER_DAY.
Definition weeks (n : Z) : timedelta := n * 7 * US_PER_DAY.

(** [td.days]: [timedelta] is normalised with floor division. *)
Definition td_days (td : timedelta) : Z := td / US_PER_DAY.

(** [datetime.now(timezone.utc)] for a clock reading [t]. *)
Definition now_utc (t : Z) : datetime := {| wall := t; tzinfo := Some 0 |}.

(** [dt.replace(tzinfo=timezone.utc)] *)
Definition replace_tzinfo_utc (dt : datetime) : datetime :=
  {| wall := wall dt; tzinfo := Some 0 |}.

(** [dt - td] *)
Definition sub_td (dt : datetime) (td : timedelta) : datetime :=
  {| wall := wall dt - td; tzinfo := tzinfo dt |}.

(** [a - b]: mixing a naive and an aware datetime is a [TypeError]. *)
Definition sub_dt (a b : datetime) : result timedelta :=
  match tzinfo a, tzinfo b with
  | Some oa, Some ob => Ok ((wall a - oa) - (wall b - ob))
  | None, None => Ok (wall a - wall b)
  | _, _ => Raise TypeError
  end.

Definition toordinal (dt : datetime) : Z := wall dt / US_PER_DAY + 1.
Definition time_of_day (dt : datetime) : Z := wall dt mod US_PER_DAY.

Definition year (dt : datetime) : Z := fst (fst (ord2ymd (toordinal dt))).
Definition month (dt : datetime) : Z := snd (fst (ord2ymd (toordinal dt))).
Definition day (dt : datetime) : Z := snd (ord2ymd (toordinal dt)).
Definition hour (dt : datetime) : Z := time_of_day dt / 3600000000.
Definition minute (dt : datetime) : Z := (time_of_day dt / 60000000) mod 60.
Definition second (dt : datetime) : Z := (time_of_day dt / 1000000) mod 60.
Definition microsecond (dt : datetime) : Z := time_of_day dt mod 1000000.

(** [dt.replace(hour=0, minute=0, second=0, microsecond=0)] *)
Definition replace_midnight (dt : datetime) : datetime :=
  {| wall := wall dt - time_of_day dt; tzinfo := tzinfo dt |}.

(** [dt.replace(hour=23, minute=59, second=59, microsecond=999999)] *)
Definition replace_end_of_day (dt : datetime) : datetime :=
  {| wall := wall dt - time_of_day dt + (US_PER_DAY - 1); tzinfo := tzinfo dt |}.

(** [dt.strftime("%Y-%m-%d")], [dt.strftime("%m/%d")], [dt.strftime("%a")] *)
Definition strftime_Ymd (dt : datetime) : string :=
  pad4 (year dt) ++ "-" ++ pad2 (month dt) ++ "-" ++ pad2 (day dt).

Definition strftime_md (dt : datetime) : string :=
  pad2 (month dt) ++ "/" ++ pad2 (day dt).

Definition strftime_a (dt : datetime) : string :=
  match (toordinal dt + 6) mod 7 with
  | 0 => "Mon" | 1 => "Tue" | 2 => "Wed" | 3 => "Thu"
  | 4 => "Fri" | 5 => "Sat" | _ => "Sun"
  end.

(** The UTC offset suffix of [isoformat]: [+HH:MM], with [:SS] and
    [.ffffff] only when they are not zero. *)
Definition format_offset (off : Z) : string :=
  let a := Z.abs off in
  let sign := if off <? 0 then "-" else "+" in
  let hh := a / 3600000000 in
  let mm := (a / 60000000) mod 60 in
  let ss := (a / 1000000) mod 60 in
  let us := a mod 1000000 in
  sign ++ pad2 hh ++ ":" ++ pad2 mm ++
  (if (ss =? 0) && (us =? 0) then ""
   else ":" ++ pad2 ss ++ (if us =? 0 then "" else "." ++ pad6 us)).

Definition format_frac (us : Z) : string :=
  if us =? 0 then "" else "." ++ pad6 us.

Definition format_tz (tz : option Z) : string :=
  match tz with
  | None => ""
  | Some off => format_offset off
  end.

(** [dt.isoformat()] *)
Definition isoformat (dt : datetime) : string :=
  strftime_Ymd dt ++ "T" ++
  pad2 (hour dt) ++ ":" ++ pad2 (minute dt) ++ ":" ++ pad2 (second dt) ++
  format_frac (microsecond dt) ++ format_tz (tzinfo dt).

(** The UTC instant of a datetime, a naive one being read as UTC. *)
Definition utc_instant (dt : datetime) : Z :=
  wall dt - match tzinfo dt with Some off => off | None => 0 end.

(** Whole days from [dt] to the UTC clock reading [t], rounded down. *)
Definition whole_days_elapsed (dt : datetime) (t : Z) : Z :=
  (t - utc_instant dt) / US_PER_DAY.

(** *** Numbers

    [cost_per_pack] is a Python float.  Amounts are kept as exact rationals:
    the shape of each formula, its clamps and its division by zero are those
    of the program, binary64 rounding error is not represented. *)

(** [a / b] with [b] an int: dividing by zero raises. *)
Definition truediv (a : Q) (b : Z) : result Q :=
  if b =? 0 then Raise ZeroDivisionError else Ok (a / inject_Z b)%Q.

(** [max(0, x)]: [x] when [x > 0], otherwise the first argument. *)
Definition max0 (x : Q) : Q := if Qle_bool x 0 then 0%Q else x.

(** Rounding to the nearest integer, ties to even. *)
Definition round_half_even (q : Q) : Z :=
  let f := Qfloor q in
  match ((q - inject_Z f) ?= (1 # 2))%Q with
  | Lt => f
  | Gt => f + 1
  | Eq => if Z.even f then f else f + 1
  end.

(** [round(x, 2)] *)
Definition round2 (x : Q) : Q :=
  (inject_Z (round_half_even (x * 100)) / 100)%Q.

(** [sum(...)] over a list of ints. *)
Definition sum (l : list Z) : Z := fold_left Z.add l 0.

(** [str(n)] for an int. *)
Definition str (n : Z) : string := NilZero.string_of_int (Z.to_int n).

(** [range(n)] *)
Definition range (n : nat) : list Z := map Z.of_nat (seq 0 n).

(** [s.strip()] on ASCII text. *)
Definition is_space (c : ascii) : bool :=
  let n := nat_of_ascii c in
  ((9 <=? n)%nat && (n <=? 13)%nat) || ((28 <=? n)%nat && (n <=? 32)%nat).

Fixpoint lstrip (s : string) : string :=
  match s with
  | EmptyString => EmptyString
  | String c s' => if is_space c then lstrip s' else s
  end.

Fixpoint rstrip (s : string) : string :=
  match s with
  | EmptyString => EmptyString
  | String c s' =>
      match rstrip s' with
      | EmptyString => if is_space c then EmptyString else String c EmptyString
      | r => String c r
      end
  end.

Definition strip (s : string) : string := rstrip (lstrip s).

(** *** A reference reader for the two shapes this program writes

    [YYYY-MM-DD] (from [now[:10]]) and
    [YYYY-MM-DD?HH:MM:SS[.ffffff][+HH:MM]] (from [isoformat]); anything else
    is refused.  The handlers below are stated for an arbitrary
    [fromisoformat]; this one serves to run them on concrete records. *)

Definition is_leap (y : Z) : bool :=
  (y mod 4 =? 0) && (negb (y mod 100 =? 0) || (y mod 400 =? 0)).

Definition days_before_year (y : Z) : Z :=
  let y := y - 1 in y * 365 + y / 4 - y / 100 + y / 400.

Definition days_in_month (y m : Z) : Z :=
  if (m =? 2) && is_leap y then 29 else DAYS_IN_MONTH m.

Definition days_before_month (y m : Z) : Z :=
  DAYS_BEFORE_MONTH m + b2z ((2 <? m) && is_leap y).

Definition ymd2ord (y m d : Z) : Z :=
  days_before_year y + days_before_month y m + d.

Definition digit_val (c : ascii) : option Z :=
  let n := Z.of_nat (nat_of_ascii c) in
  if (48 <=? n) && (n <=? 57) then Some (n - 48) else None.

Fixpoint read_digits (k : nat) (acc : Z) (s : string) : option (Z * string) :=
  match k with
  | O => Some (acc, s)
  | S k' =>
      match s with
      | EmptyString => None
      | String c s' =>
          match digit_val c with
          | Some d => read_digits k' (acc * 10 + d) s'
          | None => None
          end
      end
  end.

Definition expect (c : ascii) (s : string) : option string :=
  match s with
  | String c' s' => if (c =? c')%char then Some s' else None
  | EmptyString => None
  end.

Definition obind {A B : Type} (o : option A) (k : A -> option B) : option B :=
  match o with
  | Some a => k a
  | None => None
  end.

Definition read_date (s : string) : option (Z * string) :=
  obind (read_digits 4 0 s) (fun '(y, s) =>
  obind (expect "-" s) (fun s =>
  obind (read_digits 2 0 s) (fun '(m, s) =>
  obind (expect "-" s) (fun s =>
  obind (read_digits 2 0 s) (fun '(d, s) =>
  if (1 <=? y) && (1 <=? m) && (m <=? 12) && (1 <=? d)
     && (d <=? days_in_month y m)
  then Some (ymd2ord y m d, s) else None))))).

Definition read_hms (s : string) : option (Z * string) :=
  obind (read_digits 2 0 s) (fun '(h, s) =>
  obind (expect ":" s) (fun s =>
  obind (read_digits 2 0 s) (fun '(mi, s) =>
  obind (expect ":" s) (fun s =>
  obind (read_digits 2 0 s) (fun '(sec, s) =>
  if (h <? 24) && (mi <? 60) && (sec <? 60)
  then Some (((h * 60 + mi) * 60 + sec) * US_PER_SECOND, s) else None))))).

Definition read_frac (s : string) : option (Z * string) :=
  match s with
  | String "." s' => read_digits 6 0 s'
  | _ => Some (0, s)
  end.

Definition read_tz (s : string) : option (option Z) :=
  match s with
  | EmptyString => Some None
  | String c s' =>
      obind (if (c =? "+")%char then Some 1
             else if (c =? "-")%char then Some (-1) else None) (fun sign =>
      obind (read_digits 2 0 s') (fun '(h, s) =>
      obind (expect ":" s) (fun s =>
      obind (read_digits 2 0 s) (fun '(mi, s) =>
      match s with
      | EmptyString =>
          if (h <? 24) && (mi <? 60)
          then Some (Some (sign * (h * 60 + mi) * 60 * US_PER_SECOND))
          else None
      | _ => None
      end))))
  end.

Definition fromisoformat_ref (s : string) : option datetime :=
  obind (read_date s) (fun '(ord, s) =>
  match s with
  | EmptyString => Some {| wall := (ord - 1) * US_PER_DAY; tzinfo := None |}
  | String _ s =>
      obind (read_hms s) (fun '(tod, s) =>
      obind (read_frac s) (fun '(us, s) =>
      obind (read_tz s) (fun tz =>
      Some {| wall := (ord - 1) * US_PER_DAY + tod + us; tzinfo := tz |})))
  end).

End Py.

Import Py.


(** ** The document store

    Collections are lists of documents in natural order.  A query filters,
    [sort(key, -1)] orders by descending key with the comparison the store
    applies to strings (code unit order), [to_list(n)] keeps at most [n]
    documents. *)

Module Db.

Module Event.
Record t : Type := mk {
  id : string;
  user_id : string;
  event_type : string;
  context : string;
  intensity : Z;
  created_at : string
}.
End Event.

Module Trigger.
Record t : Type := mk {
  id : string;
  user_id : string;
  trigger_type : string;
  description : string;
  location : string;
  created_at : string
}.
End Trigger.

(** A user document; a key that may be missing or null is an [option]. *)
Module User.
Record t : Type := mk {
  id : string;
  email : option string;
  password_hash : option string;
  name : string;
  telegram_id : option Z;
  username : option string;
  cigarettes_per_day : option Z;
  cost_per_pack : option Q;
  cigarettes_per_pack : option Z;
  quit_date : option string;
  subscription_status : option string;
  subscription_end : option string;
  created_at : string
}.
End User.

Definition find {A : Type} (query : A -> bool) (coll : list A) : list A :=
  filter query coll.

Definition find_one {A : Type} (query : A -> bool) (coll : list A) : option A :=
  List.find query coll.

Definition insert_one {A : Type} (doc : A) (coll : list A) : list A :=
  (coll ++ [doc])%list.

(** [update_one(query, {"$set": ...})]: the first match is rewritten. *)
Fixpoint update_one {A : Type} (query : A -> bool) (set : A -> A)
    (coll : list A) : list A :=
  match coll with
  | [] => []
  | d :: coll' =>
      if query d then set d :: coll' else d :: update_one query set coll'
  end.

Definition to_list {A : Type} (n : nat) (cursor : list A) : list A :=
  firstn n cursor.

(** [{"$gte": lo, "$lte": hi}] on a string field. *)
Definition gte_lte (lo hi s : string) : bool :=
  (lo <=? s)%string && (s <=? hi)%string.

Fixpoint insert_desc {A : Type} (key : A -> string) (x : A) (l : list A)
    : list A :=
  match l with
  | [] => [x]
  | y :: l' =>
      if (key y <=? key x)%string then x :: l
      else y :: insert_desc key x l'
  end.

(** [sort(key, -1)] *)
Definition sort_desc {A : Type} (key : A -> string) (l : list A) : list A :=
  fold_right (insert_desc key) [] l.

(** [a] does not come after [b] in a descending sort on [key]. *)
Definition ge_key {A : Type} (key : A -> string) (a b : A) : Prop :=
  (key b <=? key a)%string = true.

End Db.

(** ** backend/server.py *)

Module Server.

Import Db.

(** *** Request and response models *)

Record UserCreate : Type := {
  uc_email : string;
  uc_password : string;
  uc_name : string;
  uc_cigarettes_per_day : Z;
  uc_cost_per_pack : Q;
  uc_cigarettes_per_pack : Z;
  uc_quit_date : option string
}.

Record TelegramAuth : Type := {
  init_data : string;
  ta_telegram_id : Z;
  first_name : string;
  last_name : option string;
  ta_username : option string
}.

Record EventCreate : Type := {
  ec_event_type : string;
  ec_context : option string;
  ec_intensity : option Z
}.

Record ProfileUpdate : Type := {
  pu_name : option string;
  pu_cigarettes_per_day : option Z;
  pu_cost_per_pack : option Q;
  pu_cigarettes_per_pack : option Z;
  pu_quit_date : option string
}.

Record Summary : Type := {
  days_smoke_free : Z;
  current_streak : Z;
  cigarettes_avoided : Z;
  money_saved : Q;
  quit_date : option string
}.

Record DayBucket : Type := {
  date : string;
  day_name : string;
  d_cigarettes : Z;
  d_urges : Z;
  d_resisted : Z
}.

Record WeekBucket : Type := {
  week : string;
  start_date : string;
  end_date : string;
  w_cigarettes : Z;
  w_urges : Z;
  w_resisted : Z
}.

Record Patterns : Type := {
  total_triggers : Z;
  by_type : list (string * Z);
  most_common : option string;
  top_triggers : list (string * Z)
}.

(** [user.get(key, default)] *)
Definition get {A : Type} (field : option A) (default : A) : A :=
  match field with
  | Some a => a
  | None => default
  end.

(** [x or y] on optional strings. *)
Definition or_else (x : option string) (y : string) : string :=
  match x with
  | Some s => if (s =? "")%string then y else s
  | None => y
  end.

(** [sum(1 for e in events if e["event_type"] == ty)] *)
Definition count_type (ty : string) (events : list Event.t) : Z :=
  sum (map (fun _ => 1)
         (filter (fun e => (Event.event_type e =? ty)%string) events)).

(** *** Authentication routes *)

(** [register]: [uuid] is the fresh [uuid4()], [hashed] the bcrypt hash of
    the password, [t] the clock reading.  Returns the users collection after
    the insert and the stored document (the token is not modelled). *)
Definition register (user_data : UserCreate) (uuid hashed : string) (t : Z)
    (users : list User.t) : result (list User.t * User.t) :=
  let existing :=
    find_one (fun u => match User.email u with
                       | Some e => (e =? uc_email user_data)%string
                       | None => false
                       end) users in
  match existing with
  | Some _ => Raise (HTTPException 400 "Email already registered")
  | None =>
      let user_id := uuid in
      let now := isoformat (now_utc t) in
      let user := {|
        User.id := user_id;
        User.email := Some (uc_email user_data);
        User.password_hash := Some hashed;
        User.name := uc_name user_data;
        User.telegram_id := None;
        User.username := None;
        User.cigarettes_per_day := Some (uc_cigarettes_per_day user_data);
        User.cost_per_pack := Some (uc_cost_per_pack user_data);
        User.cigarettes_per_pack := Some (uc_cigarettes_per_pack user_data);
        User.quit_date := Some (or_else (uc_quit_date user_data) (slice_to 10 now));
        User.subscription_status := Some "free";
        User.subscription_end := None;
        User.created_at := now
      |} in
      Ok (insert_one user users, user)
  end.

(** [f"{x}"] of an optional string. *)
Definition fmt_opt (o : option string) : string :=
  match o with
  | Some s => s
  | None => "None"
  end.

(** [telegram_auth] *)
Definition telegram_auth (auth_data : TelegramAuth) (uuid : string) (t : Z)
    (users : list User.t) : list User.t * User.t :=
  let user :=
    find_one (fun u => match User.telegram_id u with
                       | Some i => i =? ta_telegram_id auth_data
                       | None => false
                       end) users in
  match user with
  | Some user => (users, user)
  | None =>
      let user_id := uuid in
      let now := isoformat (now_utc t) in
      let user := {|
        User.id := user_id;
        User.email := None;
        User.password_hash := None;
        User.name :=
          strip (first_name auth_data ++ " " ++ fmt_opt (last_name auth_data));
        User.telegram_id := Some (ta_telegram_id auth_data);
        User.username := ta_username auth_data;
        User.cigarettes_per_day := Some 10;
        User.cost_per_pack := Some 10%Q;
        User.cigarettes_per_pack := Some 20;
        User.quit_date := Some (slice_to 10 now);
        User.subscription_status := Some "free";
        User.subscription_end := None;
        User.created_at := now
      |} in
      (insert_one user users, user)
  end.

(** *** Events route *)

(** [create_event]: the only writer of the events collection.  [uuid] is the
    fresh [uuid4()], [t] the clock reading. *)
Definition create_event (event_data : EventCreate) (uuid : string) (t : Z)
    (user : User.t) (events : list Event.t) : list Event.t * Event.t :=
  let event_id := uuid in
  let now := isoformat (now_utc t) in
  let event := {|
    Event.id := event_id;
    Event.user_id := User.id user;
    Event.event_type := ec_event_type event_data;
    Event.context := or_else (ec_context event_data) "";
    Event.intensity :=
      match ec_intensity event_data with
      | Some n => if n =? 0 then 5 else n
      | None => 5
      end;
    Event.created_at := now
  |} in
  (insert_one event events, event).

(** *** Profile route *)

(** [user.update(update_dict)] where [update_dict] keeps the fields of
    [profile_data] that are not [None]. *)
Definition apply_update (profile_data : ProfileUpdate) (user : User.t)
    : User.t :=
  {|
    User.id := User.id user;
    User.email := User.email user;
    User.password_hash := User.password_hash user;
    User.name := get (pu_name profile_data) (User.name user);
    User.telegram_id := User.telegram_id user;
    User.username := User.username user;
    User.cigarettes_per_day :=
      match pu_cigarettes_per_day profile_data with
      | Some v => Some v
      | None => User.cigarettes_per_day user
      end;
    User.cost_per_pack :=
      match pu_cost_per_pack profile_data with
      | Some v => Some v
      | None => User.cost_per_pack user
      end;
    User.cigarettes_per_pack :=
      match pu_cigarettes_per_pack profile_data with
      | Some v => Some v
      | None => User.cigarettes_per_pack user
      end;
    User.quit_date :=
      match pu_quit_date profile_data with
      | Some v => Some v
      | None => User.quit_date user
      end;
    User.subscription_status := User.subscription_status user;
    User.subscription_end := User.subscription_end user;
    User.created_at := User.created_at user
  |}.

(** [update_profile]: the collection after the update and the response. *)
Definition update_profile (profile_data : ProfileUpdate) (user : User.t)
    (users : list User.t) : list User.t * User.t :=
  (update_one (fun u => (User.id u =? User.id user)%string)
     (apply_update profile_data) users,
   apply_update profile_data user).

(** *** Trigger route *)

(** [type_counts[k] = type_counts.get(k, 0) + 1] on an insertion-ordered
    dict. *)
Fixpoint incr (k : string) (type_counts : list (string * Z))
    : list (string * Z) :=
  match type_counts with
  | [] => [(k, 0 + 1)]
  | (k', v) :: rest =>
      if (k' =? k)%string then (k', v + 1) :: rest
      else (k', v) :: incr k rest
  end.

Fixpoint insert_by_count (x : string * Z) (l : list (string * Z))
    : list (string * Z) :=
  match l with
  | [] => [x]
  | y :: l' =>
      if snd y <=? snd x then x :: l else y :: insert_by_count x l'
  end.

(** [sorted(items, key=lambda x: x[1], reverse=True)]: stable, greatest
    count first. *)
Definition sorted_by_count_desc (items : list (string * Z))
    : list (string * Z) :=
  fold_right insert_by_count [] items.

(** [get_trigger_patterns] *)
Definition get_trigger_patterns (user : User.t) (db_triggers : list Trigger.t)
    : Patterns :=
  let triggers :=
    to_list 1000
      (find (fun t => (Trigger.user_id t =? User.id user)%string) db_triggers) in
  let type_counts :=
    fold_left (fun acc t => incr (Trigger.trigger_type t) acc) triggers [] in
  let sorted_types := sorted_by_count_desc type_counts in
  {|
    total_triggers := Z.of_nat (List.length triggers);
    by_type := type_counts;
    most_common :=
      match sorted_types with
      | [] => None
      | x :: _ => Some (fst x)
      end;
    top_triggers := firstn 5 sorted_types
  |}.

(** *** Progress routes *)

Section Progress.

(** [datetime.fromisoformat], [None] standing for its [ValueError]. *)
Variable fromisoformat : string -> option datetime.

Definition parse (s : string) : result datetime :=
  match fromisoformat s with
  | Some dt => Ok dt
  | None => Raise (ValueError s)
  end.

(** [if dt.tzinfo is None: dt = dt.replace(tzinfo=timezone.utc)] *)
Definition assume_utc (dt : datetime) : datetime :=
  match tzinfo dt with
  | None => replace_tzinfo_utc dt
  | Some _ => dt
  end.

(** The cigarette events the summary reads. *)
Definition last_cigarettes (user : User.t) (db_events : list Event.t)
    : list Event.t :=
  to_list 100
    (sort_desc Event.created_at
       (find (fun e => (Event.user_id e =? User.id user)%string
                       && (Event.event_type e =? "cigarette")%string)
          db_events)).

(** [get_progress_summary]; [t1] and [t2] are the two clock readings. *)
Definition get_progress_summary (t1 t2 : Z) (user : User.t)
    (db_events : list Event.t) : result Summary :=
  let quit_date := User.quit_date user in
  days_smoke_free <-
    (if truthy quit_date then
       let qd := get quit_date "" in
       quit_datetime <- parse (if contains_Z qd then replace_Z qd else qd) ;;
       let quit_datetime := assume_utc quit_datetime in
       td <- sub_dt (now_utc t1) quit_datetime ;;
       Ok (td_days td)
     else Ok 0) ;;
  let cigarettes_avoided :=
    days_smoke_free * get (User.cigarettes_per_day user) 10 in
  cost_per_cigarette <-
    truediv (get (User.cost_per_pack user) 10%Q)
            (get (User.cigarettes_per_pack user) 20) ;;
  let money_saved := (inject_Z cigarettes_avoided * cost_per_cigarette)%Q in
  let events := last_cigarettes user db_events in
  current_streak <-
    match events with
    | [] => Ok days_smoke_free
    | e0 :: _ =>
        last_smoke <- parse (replace_Z (Event.created_at e0)) ;;
        let last_smoke := assume_utc last_smoke in
        td <- sub_dt (now_utc t2) last_smoke ;;
        Ok (td_days td)
    end ;;
  Ok {|
    days_smoke_free := Z.max 0 days_smoke_free;
    current_streak := Z.max 0 current_streak;
    cigarettes_avoided := Z.max 0 cigarettes_avoided;
    money_saved := round2 (max0 money_saved);
    quit_date := quit_date
  |}.

End Progress.

(** The events of [user] whose [created_at] lies in [[lo, hi]]. *)
Definition events_between (user : User.t) (lo hi : string)
    (db_events : list Event.t) : list Event.t :=
  to_list 1000
    (find (fun e => (Event.user_id e =? User.id user)%string
                    && gte_lte lo hi (Event.created_at e))
       db_events).

Definition day_of (now : datetime) (i : Z) : datetime := sub_td now (days (6 - i)).

Definition day_bucket (now : datetime) (user : User.t)
    (db_events : list Event.t) (i : Z) : DayBucket :=
  let day := day_of now i in
  let day_start := isoformat (replace_midnight day) in
  let day_end := isoformat (replace_end_of_day day) in
  let events := events_between user day_start day_end db_events in
  {|
    date := strftime_Ymd day;
    day_name := strftime_a day;
    d_cigarettes := count_type "cigarette" events;
    d_urges := count_type "urge" events;
    d_resisted := count_type "resisted" events
  |}.

(** [get_weekly_progress]: the loop appends one bucket per [i]. *)
Definition get_weekly_progress (t : Z) (user : User.t)
    (db_events : list Event.t) : list DayBucket :=
  let now := now_utc t in
  fold_left (fun days i => (days ++ [day_bucket now user db_events i])%list)
    (range 7) [].

Definition week_end_of (now : datetime) (i : Z) : datetime :=
  sub_td now (weeks i).

Definition week_start_of (now : datetime) (i : Z) : datetime :=
  sub_td (week_end_of now i) (days 7).

Definition week_bucket (now : datetime) (user : User.t)
    (db_events : list Event.t) (i : Z) : WeekBucket :=
  let week_end := week_end_of now i in
  let week_start := week_start_of now i in
  let events :=
    events_between user (isoformat week_start) (isoformat week_end)
      db_events in
  {|
    week := "Week " ++ str (4 - i);
    start_date := strftime_md week_start;
    end_date := strftime_md week_end;
    w_cigarettes := count_type "cigarette" events;
    w_urges := count_type "urge" events;
    w_resisted := count_type "resisted" events
  |}.

(** [get_monthly_progress]: most recent week first, reversed on return. *)
Definition get_monthly_progress (t : Z) (user : User.t)
    (db_events : list Event.t) : list WeekBucket :=
  let now := now_utc t in
  let weeks :=
    fold_left (fun weeks i => (weeks ++ [week_bucket now user db_events i])%list)
      (range 4) [] in
  rev weeks.

End Server.

Import Db Server.

(** ** Vocabulary of the statements *)

Module Spec.

(** The string handed to [fromisoformat] for a [quit_date]. *)
Definition quit_arg (qd : string) : string :=
  if contains_Z qd then replace_Z qd else qd.

(** [e] is a cigarette event of [user]. *)
Definition is_cigarette_of (user : User.t) (e : Event.t) : bool :=
  (Event.user_id e =? User.id user)%string
  && (Event.event_type e =? "cigarette")%string.


Section SummaryVocabulary.

Variable fromisoformat : string -> option datetime.

(** What the days-smoke-free block computes. *)
Inductive quit_days (t1 : Z) (user : User.t) : Z -> Prop :=
| quit_days_absent :
    truthy (User.quit_date user) = false -> quit_days t1 user 0
| quit_days_parsed qd dt :
    User.quit_date user = Some qd ->
    qd <> "" ->
    fromisoformat (quit_arg qd) = Some dt ->
    quit_days t1 user (whole_days_elapsed dt t1).

(** What the streak block computes from the events it reads. *)
Definition streak_days (t2 dsf : Z) (events : list Event.t) (cs : Z) : Prop :=
  match events with
  | [] => cs = dsf
  | e0 :: _ =>
      exists dt, fromisoformat (replace_Z (Event.created_at e0)) = Some dt
                 /\ cs = whole_days_elapsed dt t2
  end.

(** The summary returned for raw day counts [dsf], [cs] and the cost of one
    cigarette [cpc]. *)
Definition summary_of (user : User.t) (dsf cs : Z) (cpc : Q) : Summary :=
  {|
    days_smoke_free := Z.max 0 dsf;
    current_streak := Z.max 0 cs;
    cigarettes_avoided := Z.max 0 (dsf * get (User.cigarettes_per_day user) 10);
    money_saved :=
      round2 (max0 (inject_Z (dsf * get (User.cigarettes_per_day user) 10) * cpc));
    quit_date := User.quit_date user
  |}.

(** The streak block as a computation. *)
Definition streak_block (t2 dsf : Z) (events : list Event.t) : result Z :=
  match events with
  | [] => Ok dsf
  | e0 :: _ =>
      match fromisoformat (replace_Z (Event.created_at e0)) with
      | Some dt => Ok (whole_days_elapsed dt t2)
      | None => Raise (ValueError (replace_Z (Event.created_at e0)))
      end
  end.




End SummaryVocabulary.

(** [u] is the document stored for a new account at clock reading [t], by
    [register] or by [telegram_auth]; [given] is the quit date the client
    sent, if any. *)
Inductive created_by (t : Z) (users : list User.t)
    : option string -> User.t -> Prop :=
| created_register user_data uuid hashed users' u :
    register user_data uuid hashed t users = Ok (users', u) ->
    created_by t users (uc_quit_date user_data) u
| created_telegram auth_data uuid :
    find_one (fun u => match User.telegram_id u with
                       | Some i => i =? ta_telegram_id auth_data
                       | None => false
                       end) users = None ->
    created_by t users None (snd (telegram_auth auth_data uuid t users)).

(** The trigger documents [get_trigger_patterns] reads. *)
Definition triggers_read (user : User.t) (db_triggers : list Trigger.t)
    : list Trigger.t :=
  to_list 1000
    (find (fun t => (Trigger.user_id t =? User.id user)%string) db_triggers).

(** All trigger documents of the user. *)
Definition triggers_of (user : User.t) (db_triggers : list Trigger.t)
    : list Trigger.t :=
  filter (fun t => (Trigger.user_id t =? User.id user)%string) db_triggers.

(** Number of documents of type [ty]. *)
Definition occurrences (ty : string) (triggers : list Trigger.t) : Z :=
  Z.of_nat (count_occ string_dec (map Trigger.trigger_type triggers) ty).

(** Lookup in an insertion-ordered dict. *)
Fixpoint assoc (k : string) (d : list (string * Z)) : option Z :=
  match d with
  | [] => None
  | (k', v) :: rest => if (k' =? k)%string then Some v else assoc k rest
  end.

(** The counting loop of [get_trigger_patterns], from the dict [acc]. *)
Definition count_types (triggers : list Trigger.t) (acc : list (string * Z))
    : list (string * Z) :=
  fold_left (fun acc t => incr (Trigger.trigger_type t) acc) triggers acc.

(** Greatest count first. *)
Definition ge_count (a b : string * Z) : Prop := snd b <= snd a.

(** *** Calendar order *)

(** [(y, m, d)] read as a date: earlier than. *)
Definition ymd_ltb (a b : Z * Z * Z) : bool :=
  let '(y, m, d) := a in
  let '(y', m', d') := b in
  (y <? y') || ((y =? y') && ((m <? m') || ((m =? m') && (d <? d')))).

(** Moving a date by [q] cycles of 400 years. *)
Definition shift_years (q : Z) (a : Z * Z * Z) : Z * Z * Z :=
  let '(y, m, d) := a in (y + 400 * q, m, d).

(** What is checked, by evaluation, on each day [r] of one 400-year cycle:
    the fields are in range and the next day is a later date. *)
Definition cycle_ok (r : Z) : bool :=
  let '(y, m, d) := ord2ymd0 r in
  (1 <=? y) && (y <=? 400) && (1 <=? m) && (m <=? 12)
  && (1 <=? d) && (d <=? 31)
  && ymd_ltb (y, m, d) (ord2ymd0 (r + 1))
  && ((145730 <? r) || (y <=? 399)).

Fixpoint forall_from (f : Z -> bool) (lo : Z) (n : nat) : bool :=
  match n with
  | O => true
  | S n' => f lo && forall_from f (lo + 1) n'
  end.

(** Lexicographic combination of two comparisons. *)
Definition lexc (c1 c2 : comparison) : comparison :=
  match c1 with
  | Eq => c2
  | _ => c1
  end.

Definition comparison_eqb (c1 c2 : comparison) : bool :=
  match c1, c2 with
  | Eq, Eq | Lt, Lt | Gt, Gt => true
  | _, _ => false
  end.

(** What is checked, by evaluation, on two-digit fields: the order of the
    rendered text is the order of the numbers. *)
Definition pad2_ok (a : Z) : bool :=
  forall_from
    (fun b => comparison_eqb (pad2 a ?= pad2 b)%string (a ?= b)) 0 100.

(** A UTC-aware datetime between 0001-01-01 and 9999-12-31: what
    [datetime.now(timezone.utc)] returns. *)
Definition utc_datetime (dt : datetime) : Prop :=
  tzinfo dt = Some 0 /\ 0 <= wall dt < MAXORDINAL * US_PER_DAY.

(** *** Bucket windows *)

(** The bounds the store compares [created_at] with for day [i]. *)
Definition day_lo (t i : Z) : string :=
  isoformat (replace_midnight (day_of (now_utc t) i)).
Definition day_hi (t i : Z) : string :=
  isoformat (replace_end_of_day (day_of (now_utc t) i)).

(** [e] is an event of [user] with [created_at] in [[lo, hi]]. *)
Definition in_window (user : User.t) (lo hi : string) (e : Event.t) : bool :=
  (Event.user_id e =? User.id user)%string
  && gte_lte lo hi (Event.created_at e).

(** [e] falls in the window of day [i]. *)
Definition in_day (t : Z) (user : User.t) (i : Z) (e : Event.t) : bool :=
  in_window user (day_lo t i) (day_hi t i) e.

(** [e] falls in the window of one of the seven days. *)
Definition in_some_day (t : Z) (user : User.t) (e : Event.t) : bool :=
  existsb (fun i => in_day t user i e) (range 7).

(** [e] falls between the start of the oldest day and the end of today. *)
Definition in_week (t : Z) (user : User.t) (e : Event.t) : bool :=
  in_window user (day_lo t 0) (day_hi t 6) e.

Definition has_type (ty : string) (e : Event.t) : bool :=
  (Event.event_type e =? ty)%string.

(** Number of events of type [ty] among [events]. *)
Definition tally (ty : string) (events : list Event.t) : Z :=
  Z.of_nat (List.length (filter (has_type ty) events)).

(** Every [created_at] was written as [datetime.now(timezone.utc).isoformat()],
    the way [create_event] writes it. *)
Definition well_formed_log (db_events : list Event.t) : Prop :=
  forall e, In e db_events ->
    exists dt, utc_datetime dt /\ Event.created_at e = isoformat dt.

(** The events collection as [create_event] builds it, from clock readings
    within the range of [datetime]. *)
Inductive event_log : list Event.t -> Prop :=
| log_empty : event_log []
| log_create event_data uuid t user events :
    event_log events ->
    0 <= t < MAXORDINAL * US_PER_DAY ->
    event_log (fst (create_event event_data uuid t user events)).

(** No day window holds more events of the user than one query returns. *)
Definition within_cap (t : Z) (user : User.t) (db_events : list Event.t)
    : Prop :=
  forall i, 0 <= i < 7 ->
    (List.length (filter (in_day t user i) db_events) <= 1000)%nat.

(** The bucket of day [i] as the statements describe it. *)
Definition day_bucket_spec (t : Z) (user : User.t) (db_events : list Event.t)
    (i : Z) : DayBucket :=
  let day := sub_td (now_utc t) (days (6 - i)) in
  let lo := strftime_Ymd day ++ "T00:00:00+00:00" in
  let hi := strftime_Ymd day ++ "T23:59:59.999999+00:00" in
  let events := firstn 1000 (filter (in_window user lo hi) db_events) in
  {|
    date := strftime_Ymd day;
    day_name := strftime_a day;
    d_cigarettes := tally "cigarette" events;
    d_urges := tally "urge" events;
    d_resisted := tally "resisted" events
  |}.

(** The bucket of the week that ends [i] weeks before the clock reading. *)
Definition week_bucket_spec (t : Z) (user : User.t)
    (db_events : list Event.t) (label : string) (i : Z) : WeekBucket :=
  let week_start := now_utc (t - (i + 1) * 7 * US_PER_DAY) in
  let week_end := now_utc (t - i * 7 * US_PER_DAY) in
  let events :=
    firstn 1000
      (filter (in_window user (isoformat week_start) (isoformat week_end))
         db_events) in
  {|
    week := label;
    start_date := strftime_md week_start;
    end_date := strftime_md week_end;
    w_cigarettes := tally "cigarette" events;
    w_urges := tally "urge" events;
    w_resisted := tally "resisted" events
  |}.

(** The clock reading is a date with [back] days before it, up to
    9999-12-31. *)
Definition clock_ok (back t : Z) : Prop :=
  back * US_PER_DAY <= t < MAXORDINAL * US_PER_DAY.

End Spec.

Import Spec.

(** ** Sample records *)

Module Sample.

(** 2024-03-15T12:30:05.000250 UTC *)
Definition clock : Z :=
  ((738960 - 1) * 86400 + 12 * 3600 + 30 * 60 + 5) * 1000000 + 250.

Definition user (pack : Z) (quit_date : option string) : User.t :=
  {|
    User.id := "u1";
    User.email := Some "ann@example.org";
    User.password_hash := Some "$2b$12$hash";
    User.name := "Ann";
    User.telegram_id := None;
    User.username := None;
    User.cigarettes_per_day := Some 10;
    User.cost_per_pack := Some 10%Q;
    User.cigarettes_per_pack := Some pack;
    User.quit_date := quit_date;
    User.subscription_status := Some "free";
    User.subscription_end := None;
    User.created_at := "2024-03-05T08:00:00+00:00"
  |}.

Definition event (ty ts : string) : Event.t :=
  {|
    Event.id := "e";
    Event.user_id := "u1";
    Event.event_type := ty;
    Event.context := "";
    Event.intensity := 5;
    Event.created_at := ts
  |}.

Definition trigger (ty : string) : Trigger.t :=
  {|
    Trigger.id := "t";
    Trigger.user_id := "u1";
    Trigger.trigger_type := ty;
    Trigger.description := "";
    Trigger.location := "";
    Trigger.created_at := "2024-03-10T09:00:00+00:00"
  |}.

Definition signup (quit_date : option string) : UserCreate :=
  {|
    uc_email := "ann@example.org";
    uc_password := "secret";
    uc_name := "Ann";
    uc_cigarettes_per_day := 10;
    uc_cost_per_pack := 10%Q;
    uc_cigarettes_per_pack := 20;
    uc_quit_date := quit_date
  |}.

Definition clear_quit_date : ProfileUpdate :=
  {|
    pu_name := None;
    pu_cigarettes_per_day := None;
    pu_cost_per_pack := None;
    pu_cigarettes_per_pack := None;
    pu_quit_date := Some ""
  |}.

(** The account registered at [clock] without a quit date. *)
Definition registered : User.t :=
  match register (signup None) "u1" "$2b$12$hash" clock [] with
  | Ok (_, u) => u
  | Raise _ => user 20 None
  end.

End Sample.


(** ** backend/server.py: the other routes

    Authentication, the events and triggers routes, profile statistics,
    subscriptions and insights.  The JWT and bcrypt libraries and the Stripe
    client are parameters; clock readings and fresh identifiers are
    arguments, as before. *)

Module Routes.

(** *** More of the Python runtime *)

(** What a handler can let escape: the exceptions of [Py.exn] and those the
    routes below can meet. *)
Inductive exception : Type :=
| Exn (e : exn)
| KeyError (key : string)
| IndexError
| OverflowError.

Definition HTTP (status_code : Z) (detail : string) : exception :=
  Exn (HTTPException status_code detail).

Inductive outcome (A : Type) : Type :=
| Return (a : A)
| Throw (e : exception).
Arguments Return {A} a.
Arguments Throw {A} e.

Definition and_then {A B : Type} (r : outcome A) (k : A -> outcome B)
    : outcome B :=
  match r with
  | Return a => k a
  | Throw e => Throw e
  end.

Notation "x <~ r ;; k" := (and_then r (fun x => k))
  (at level 61, r at next level, right associativity).

(** [s.split(" ")]: every single space separates, empty pieces are kept. *)
Fixpoint split_space (s : string) : list string :=
  match s with
  | EmptyString => [EmptyString]
  | String c s' =>
      if (c =? " ")%char then EmptyString :: split_space s'
      else
        match split_space s' with
        | w :: ws => String c w :: ws
        | [] => [String c EmptyString]
        end
  end.

(** [l[i]] *)
Definition index {A : Type} (l : list A) (i : nat) : outcome A :=
  match nth_error l i with
  | Some a => Return a
  | None => Throw IndexError
  end.

(** [l[-n:]] for [n > 0]. *)
Definition last_n {A : Type} (n : nat) (l : list A) : list A :=
  skipn (List.length l - n) l.

(** [sub in s] *)
Fixpoint contains (sub s : string) : bool :=
  prefix sub s
  || match s with
     | EmptyString => false
     | String _ s' => contains sub s'
     end.

(** [s.rstrip('/')] *)
Fixpoint rstrip_slash (s : string) : string :=
  match s with
  | EmptyString => EmptyString
  | String c s' =>
      match rstrip_slash s' with
      | EmptyString =>
          if (c =? "/")%char then EmptyString else String c EmptyString
      | r => String c r
      end
  end.

(** [timedelta(days=n)]: the magnitude is bounded. *)
Definition timedelta_days (n : Z) : outcome timedelta :=
  if Z.abs n <=? 999999999 then Return (days n) else Throw OverflowError.

(** The result of datetime arithmetic must lie between 0001-01-01 and
    9999-12-31. *)
Definition in_range (dt : datetime) : outcome datetime :=
  if (0 <=? wall dt) && (wall dt <? MAXORDINAL * US_PER_DAY) then Return dt
  else Throw OverflowError.

(** [dt - td] and [dt + td] *)
Definition minus (dt : datetime) (td : timedelta) : outcome datetime :=
  in_range (sub_td dt td).
Definition plus (dt : datetime) (td : timedelta) : outcome datetime :=
  in_range {| wall := wall dt + td; tzinfo := tzinfo dt |}.

(** *** Documents and models *)

Module Transaction.
Record t : Type := mk {
  id : string;
  session_id : string;
  user_id : string;
  plan_id : option string;
  amount : Q;
  currency : string;
  payment_status : option string;
  created_at : string;
  updated_at : option string
}.
End Transaction.


Record TriggerCreate : Type := {
  tc_trigger_type : string;
  tc_description : option string;
  tc_location : option string
}.

Record CheckoutCreate : Type := {
  cc_plan_id : string;
  cc_origin_url : string
}.

Record Plan : Type := {
  price : Q;
  plan_name : string;
  period : string
}.

Definition SUBSCRIPTION_PLANS : list (string * Plan) :=
  [("premium_monthly",
    {| price := 4.99; plan_name := "Premium Monthly"; period := "monthly" |});
   ("premium_yearly",
    {| price := 39.99; plan_name := "Premium Yearly"; period := "yearly" |})].

(** [SUBSCRIPTION_PLANS.get(key)] *)
Fixpoint plan_of (plans : list (string * Plan)) (key : string)
    : option Plan :=
  match plans with
  | [] => None
  | (k, p) :: rest => if (k =? key)%string then Some p else plan_of rest key
  end.

Record TodayStats : Type := {
  cigarettes_today : Z;
  urges_today : Z;
  resisted_today : Z;
  last_cigarette : option string;
  ts_events : list Event.t
}.

Record ProfileStats : Type := {
  total_events_logged : Z;
  total_triggers_logged : Z;
  ps_subscription_status : string;
  ps_subscription_end : option string;
  member_since : string
}.

(** The Stripe client, as the handlers use it. *)
Record CheckoutSessionRequest : Type := {
  req_amount : Q;
  req_currency : string;
  success_url : string;
  cancel_url : string;
  metadata : list (string * string)
}.

Record CheckoutSessionResponse : Type := {
  url : string;
  cs_session_id : string
}.

Record CheckoutStatusResponse : Type := {
  cs_status : string;
  cs_payment_status : string;
  amount_total : Z;
  cs_currency : string
}.

Record StripeCheckout : Type := {
  create_checkout_session :
    CheckoutSessionRequest -> outcome CheckoutSessionResponse;
  get_checkout_status_of : string -> outcome CheckoutStatusResponse
}.

Record CheckoutView : Type := {
  checkout_url : string;
  cv_session_id : string
}.

Record StatusView : Type := {
  sv_status : string;
  sv_payment_status : string;
  sv_amount : Q;
  sv_currency : string
}.

Record Insight : Type := {
  i_id : string;
  i_title : string;
  i_content : string;
  i_category : string;
  i_premium : bool
}.

Record Insights : Type := {
  insights : list Insight;
  daily_tip : string;
  is_premium : bool
}.

(** *** Authentication *)

(** [jwt.decode(token, JWT_SECRET, algorithms=[JWT_ALGORITHM])]: the payload
    with its [sub] entry, or one of the two errors the handler catches. *)
Inductive jwt_result : Type :=
| Payload (sub : option string)
| ExpiredSignatureError
| InvalidTokenError.

Section Authentication.

Variable jwt_decode : string -> jwt_result.

(** [bcrypt.checkpw(password.encode(), hashed.encode())] *)
Variable verify_password : string -> string -> bool.

(** The [try] block of [get_current_user]. *)
Definition user_of_token (token : string) (users : list User.t)
    : outcome User.t :=
  match jwt_decode token with
  | Payload user_id =>
      if negb (truthy user_id) then Throw (HTTP 401 "Invalid token")
      else
        match find_one (fun u => (User.id u =? get user_id "")%string) users
        with
        | None => Throw (HTTP 401 "User not found")
        | Some user => Return user
        end
  | ExpiredSignatureError => Throw (HTTP 401 "Token expired")
  | InvalidTokenError => Throw (HTTP 401 "Invalid token")
  end.

(** [get_current_user] *)
Definition get_current_user (authorization : option string)
    (users : list User.t) : outcome User.t :=
  if negb (truthy authorization)
     || negb (prefix "Bearer " (get authorization ""))
  then Throw (HTTP 401 "Not authenticated")
  else
    token <~ index (split_space (get authorization "")) 1 ;;
    user_of_token token users.



End Authentication.

(** *** Events *)

(** [get_events] *)
Definition get_events (event_type : option string) (days : Z) (t : Z)
    (user : User.t) (db_events : list Event.t) : outcome (list Event.t) :=
  td <~ timedelta_days days ;;
  start <~ minus (now_utc t) td ;;
  let start_date := isoformat start in
  let query e :=
    (Event.user_id e =? User.id user)%string
    && (start_date <=? Event.created_at e)%string
    && (if truthy event_type
        then (Event.event_type e =? get event_type "")%string
        else true) in
  let events :=
    to_list 1000 (sort_desc Event.created_at (find query db_events)) in
  Return events.

(** [get_today_stats] *)
Definition get_today_stats (t : Z) (user : User.t)
    (db_events : list Event.t) : TodayStats :=
  let today_start := isoformat (replace_midnight (now_utc t)) in
  let events :=
    to_list 1000
      (find (fun e => (Event.user_id e =? User.id user)%string
                      && (today_start <=? Event.created_at e)%string)
         db_events) in
  let cigarettes := count_type "cigarette" events in
  let urges := count_type "urge" events in
  let resisted := count_type "resisted" events in
  let last_cigarette :=
    hd_error
      (sort_desc Event.created_at
         (find (fun e => (Event.user_id e =? User.id user)%string
                         && (Event.event_type e =? "cigarette")%string)
            db_events)) in
  let last_cigarette_time :=
    match last_cigarette with
    | Some e => Some (Event.created_at e)
    | None => User.quit_date user
    end in
  {|
    cigarettes_today := cigarettes;
    urges_today := urges;
    resisted_today := resisted;
    last_cigarette := last_cigarette_time;
    ts_events := last_n 10 events
  |}.

(** *** Triggers *)

(** [create_trigger] *)
Definition create_trigger (trigger_data : TriggerCreate) (uuid : string)
    (t : Z) (user : User.t) (triggers : list Trigger.t)
    : list Trigger.t * Trigger.t :=
  let trigger_id := uuid in
  let now := isoformat (now_utc t) in
  let trigger := {|
    Trigger.id := trigger_id;
    Trigger.user_id := User.id user;
    Trigger.trigger_type := tc_trigger_type trigger_data;
    Trigger.description := or_else (tc_description trigger_data) "";
    Trigger.location := or_else (tc_location trigger_data) "";
    Trigger.created_at := now
  |} in
  (insert_one trigger triggers, trigger).

(** [get_triggers] *)
Definition get_triggers (days : Z) (t : Z) (user : User.t)
    (db_triggers : list Trigger.t) : outcome (list Trigger.t) :=
  td <~ timedelta_days days ;;
  start <~ minus (now_utc t) td ;;
  let start_date := isoformat start in
  let triggers :=
    to_list 1000
      (sort_desc Trigger.created_at
         (find (fun x => (Trigger.user_id x =? User.id user)%string
                         && (start_date <=? Trigger.created_at x)%string)
            db_triggers)) in
  Return triggers.

(** *** Profile statistics *)

(** [count_documents(query)] *)
Definition count_documents {A : Type} (query : A -> bool) (coll : list A)
    : Z :=
  Z.of_nat (List.length (filter query coll)).

(** [get_profile_stats] *)
Definition get_profile_stats (user : User.t) (db_events : list Event.t)
    (db_triggers : list Trigger.t) : ProfileStats :=
  let total_events :=
    count_documents (fun e => (Event.user_id e =? User.id user)%string)
      db_events in
  let total_triggers :=
    count_documents (fun x => (Trigger.user_id x =? User.id user)%string)
      db_triggers in
  {|
    total_events_logged := total_events;
    total_triggers_logged := total_triggers;
    ps_subscription_status := get (User.subscription_status user) "free";
    ps_subscription_end := User.subscription_end user;
    member_since := User.created_at user
  |}.

(** *** Subscriptions *)

Definition STRIPE_WEBHOOK_PATH : string := "/api/webhook/stripe".

(** [{"$set": {"payment_status": "paid", "updated_at": now}}] *)
Definition set_paid (now : string) (tx : Transaction.t) : Transaction.t :=
  {|
    Transaction.id := Transaction.id tx;
    Transaction.session_id := Transaction.session_id tx;
    Transaction.user_id := Transaction.user_id tx;
    Transaction.plan_id := Transaction.plan_id tx;
    Transaction.amount := Transaction.amount tx;
    Transaction.currency := Transaction.currency tx;
    Transaction.payment_status := Some "paid";
    Transaction.created_at := Transaction.created_at tx;
    Transaction.updated_at := Some now
  |}.

(** [{"$set": {"subscription_status": "premium", "subscription_end": e}}] *)
Definition set_premium (subscription_end : string) (u : User.t) : User.t :=
  {|
    User.id := User.id u;
    User.email := User.email u;
    User.password_hash := User.password_hash u;
    User.name := User.name u;
    User.telegram_id := User.telegram_id u;
    User.username := User.username u;
    User.cigarettes_per_day := User.cigarettes_per_day u;
    User.cost_per_pack := User.cost_per_pack u;
    User.cigarettes_per_pack := User.cigarettes_per_pack u;
    User.quit_date := User.quit_date u;
    User.subscription_status := Some "premium";
    User.subscription_end := Some subscription_end;
    User.created_at := User.created_at u
  |}.

Section Subscriptions.

(** [StripeCheckout(api_key=STRIPE_API_KEY, webhook_url=...)] *)
Variable new_StripeCheckout : string -> StripeCheckout.

(** [create_checkout]: [base_url] is [str(request.base_url)], [uuid] the
    fresh [uuid4()], [t] the clock reading.  Returns the transactions
    collection afterwards and the response. *)
Definition create_checkout (checkout_data : CheckoutCreate)
    (base_url uuid : string) (t : Z) (user : User.t)
    (transactions : list Transaction.t)
    : list Transaction.t * outcome CheckoutView :=
  match plan_of SUBSCRIPTION_PLANS (cc_plan_id checkout_data) with
  | None => (transactions, Throw (HTTP 400 "Invalid plan"))
  | Some plan =>
      let host_url := rstrip_slash base_url in
      let webhook_url := host_url ++ STRIPE_WEBHOOK_PATH in
      let stripe_checkout := new_StripeCheckout webhook_url in
      let success_url :=
        cc_origin_url checkout_data
        ++ "/profile?session_id={CHECKOUT_SESSION_ID}&status=success" in
      let cancel_url :=
        cc_origin_url checkout_data ++ "/profile?status=cancelled" in
      let checkout_request := {|
        req_amount := price plan;
        req_currency := "usd";
        success_url := success_url;
        cancel_url := cancel_url;
        metadata :=
          [("user_id", User.id user);
           ("plan_id", cc_plan_id checkout_data);
           ("plan_name", plan_name plan)]
      |} in
      match create_checkout_session stripe_checkout checkout_request with
      | Throw e => (transactions, Throw e)
      | Return session =>
          let transaction := {|
            Transaction.id := uuid;
            Transaction.session_id := cs_session_id session;
            Transaction.user_id := User.id user;
            Transaction.plan_id := Some (cc_plan_id checkout_data);
            Transaction.amount := price plan;
            Transaction.currency := "usd";
            Transaction.payment_status := Some "pending";
            Transaction.created_at := isoformat (now_utc t);
            Transaction.updated_at := None
          |} in
          (insert_one transaction transactions,
           Return {| checkout_url := url session;
                     cv_session_id := cs_session_id session |})
      end
  end.

Definition FETCH_FAILED : exception :=
  HTTP 400 "Could not fetch payment status".

(** [get_checkout_status]: [t1] and [t2] are the clock readings for
    [updated_at] and for the subscription end.  Returns both collections
    afterwards and the response; every exception inside the [try] block
    becomes the same [HTTPException]. *)
Definition get_checkout_status (session_id : string) (t1 t2 : Z)
    (user : User.t) (transactions : list Transaction.t)
    (users : list User.t)
    : list Transaction.t * list User.t * outcome StatusView :=
  let host_url := "https://example.com" in
  let webhook_url := host_url ++ STRIPE_WEBHOOK_PATH in
  let stripe_checkout := new_StripeCheckout webhook_url in
  match get_checkout_status_of stripe_checkout session_id with
  | Throw _ => (transactions, users, Throw FETCH_FAILED)
  | Return status =>
      let view := {|
        sv_status := cs_status status;
        sv_payment_status := cs_payment_status status;
        sv_amount := (inject_Z (amount_total status) / 100)%Q;
        sv_currency := cs_currency status
      |} in
      let transaction :=
        find_one (fun x => (Transaction.session_id x =? session_id)%string)
          transactions in
      match transaction with
      | None => (transactions, users, Return view)
      | Some transaction =>
          if negb (get (Transaction.payment_status transaction) ""
                   =? "paid")%string
             && (cs_payment_status status =? "paid")%string
          then
            let transactions' :=
              update_one
                (fun x => (Transaction.session_id x =? session_id)%string)
                (set_paid (isoformat (now_utc t1))) transactions in
            let plan_id :=
              get (Transaction.plan_id transaction) "premium_monthly" in
            let period_days := if contains "yearly" plan_id then 365 else 30 in
            match plus (now_utc t2) (days period_days) with
            | Throw _ => (transactions', users, Throw FETCH_FAILED)
            | Return subscription_end =>
                (transactions',
                 update_one (fun u => (User.id u =? User.id user)%string)
                   (set_premium (isoformat subscription_end)) users,
                 Return view)
            end
          else (transactions, users, Return view)
      end
  end.

End Subscriptions.

(** *** Insights *)

Definition MOCKED_INSIGHTS : list Insight := [
  {| i_id := "1";
     i_title := "Your Most Vulnerable Time";
     i_content :=
       "Based on your logging patterns, you experience the most cravings in the afternoon between 2-4 PM. Consider scheduling a short walk or activity during this time.";
     i_category := "pattern";
     i_premium := false |};
  {| i_id := "2";
     i_title := "Stress is Your Top Trigger";
     i_content :=
       "70% of your logged triggers are stress-related. Try deep breathing exercises or the 4-7-8 technique when feeling stressed.";
     i_category := "trigger";
     i_premium := false |};
  {| i_id := "3";
     i_title := "You're Getting Stronger";
     i_content :=
       "Your resistance rate has improved by 15% this week compared to last week. Keep up the great work!";
     i_category := "motivation";
     i_premium := false |};
  {| i_id := "4";
     i_title := "Advanced Craving Analysis";
     i_content :=
       "Your cravings peak on Mondays and decrease through the week. This pattern suggests work-related stress. Consider implementing Monday morning rituals.";
     i_category := "analysis";
     i_premium := true |};
  {| i_id := "5";
     i_title := "Personalized Quit Strategy";
     i_content :=
       "Based on your data, a gradual reduction approach might work better for you. We recommend reducing by 2 cigarettes per week.";
     i_category := "strategy";
     i_premium := true |}
].

Definition MOCKED_TIPS : list string := [
  "Drink a glass of water when you feel an urge - it helps reduce cravings";
  "Take 5 deep breaths: inhale for 4 seconds, hold for 4, exhale for 4";
  "Chew sugar-free gum or eat a healthy snack to keep your mouth busy";
  "Call or text a supportive friend when cravings hit";
  "Remember: cravings typically last only 3-5 minutes";
  "Go for a short walk - physical activity reduces cravings";
  "Brush your teeth when you feel the urge to smoke"
].

(** [get_insights]: [choice] is the position [random.choice] draws. *)
Definition get_insights (choice : nat) (user : User.t) : Insights :=
  let is_premium :=
    match User.subscription_status user with
    | Some s => (s =? "premium")%string
    | None => false
    end in
  {|
    insights :=
      filter (fun i => negb (i_premium i) || is_premium) MOCKED_INSIGHTS;
    daily_tip := nth choice MOCKED_TIPS "";
    is_premium := is_premium
  |}.

End Routes.

Import Routes.

(** ** Vocabulary of the further properties *)

Module Laws.

(** No character of [s] is a space. *)
Fixpoint no_space (s : string) : bool :=
  match s with
  | EmptyString => true
  | String c s' => negb (c =? " ")%char && no_space s'
  end.

(** The values a field takes over a collection, documents without the
    field left out. *)
Fixpoint present {A B : Type} (field : A -> option B) (coll : list A)
    : list B :=
  match coll with
  | [] => []
  | d :: coll' =>
      match field d with
      | Some b => b :: present field coll'
      | None => present field coll'
      end
  end.

(** [uuid] is not the id of a stored account. *)
Definition fresh (uuid : string) (users : list User.t) : Prop :=
  forall u, In u users -> User.id u <> uuid.

(** One request that writes the users collection. *)
Inductive step (new_StripeCheckout : string -> StripeCheckout)
    (users : list User.t) : list User.t -> Prop :=
| step_register user_data uuid hashed t users' u :
    fresh uuid users ->
    register user_data uuid hashed t users = Ok (users', u) ->
    step new_StripeCheckout users users'
| step_telegram auth_data uuid t :
    fresh uuid users ->
    step new_StripeCheckout users (fst (telegram_auth auth_data uuid t users))
| step_update profile_data u :
    In u users ->
    step new_StripeCheckout users (fst (update_profile profile_data u users))
| step_status session_id t1 t2 u transactions :
    In u users ->
    step new_StripeCheckout users
      (snd (fst (get_checkout_status new_StripeCheckout session_id t1 t2 u
                   transactions users))).

(** The users collections the routes can build from an empty one. *)
Inductive accounts (new_StripeCheckout : string -> StripeCheckout)
    : list User.t -> Prop :=
| accounts_empty : accounts new_StripeCheckout []
| accounts_step users users' :
    accounts new_StripeCheckout users ->
    step new_StripeCheckout users users' ->
    accounts new_StripeCheckout users'.

(** What every reachable users collection satisfies. *)
Definition accounts_invariant (users : list User.t) : Prop :=
  NoDup (map User.id users)
  /\ NoDup (present User.email users)
  /\ NoDup (present User.telegram_id users)
  /\ Forall (fun u => User.email u <> None -> User.password_hash u <> None)
       users.

Definition premium (u : User.t) : bool :=
  match User.subscription_status u with
  | Some s => (s =? "premium")%string
  | None => false
  end.

(** An account with every profile number and a quit date stored, which is
    either free without a subscription end or premium with one. *)
Definition complete (u : User.t) : Prop :=
  User.cigarettes_per_day u <> None
  /\ User.cost_per_pack u <> None
  /\ User.cigarettes_per_pack u <> None
  /\ User.quit_date u <> None
  /\ ((User.subscription_status u = Some "free"
       /\ User.subscription_end u = None)
      \/ (User.subscription_status u = Some "premium"
          /\ User.subscription_end u <> None)).

(** The events collection as [create_event] builds it from clock readings
    up to [t]. *)
Inductive event_log_until (t : Z) : list Event.t -> Prop :=
| log_until_empty : event_log_until t []
| log_until_create event_data uuid t0 user events :
    event_log_until t events ->
    0 <= t0 <= t ->
    event_log_until t (fst (create_event event_data uuid t0 user events)).

(** The query of [get_events]. *)
Definition events_query (event_type : option string) (start_date : string)
    (user : User.t) (e : Event.t) : bool :=
  (Event.user_id e =? User.id user)%string
  && (start_date <=? Event.created_at e)%string
  && (if truthy event_type
      then (Event.event_type e =? get event_type "")%string
      else true).

(** [e] is an event of [user] written at an instant not before [lo]
    (microseconds since 0001-01-01), of type [event_type] when one is asked
    for. *)
Definition listed (event_type : option string) (lo : Z) (user : User.t)
    (e : Event.t) : Prop :=
  Event.user_id e = User.id user
  /\ (exists t0, 0 <= t0 < MAXORDINAL * US_PER_DAY /\ lo <= t0
                 /\ Event.created_at e = isoformat (now_utc t0))
  /\ (truthy event_type = true -> Some (Event.event_type e) = event_type).

(** The triggers collection as [create_trigger] builds it. *)
Inductive trigger_log : list Trigger.t -> Prop :=
| trigger_log_empty : trigger_log []
| trigger_log_create trigger_data uuid t user triggers :
    trigger_log triggers ->
    0 <= t < MAXORDINAL * US_PER_DAY ->
    trigger_log (fst (create_trigger trigger_data uuid t user triggers)).

(** [x] is a trigger of [user] written at an instant not before [lo]. *)
Definition listed_trigger (lo : Z) (user : User.t) (x : Trigger.t) : Prop :=
  Trigger.user_id x = User.id user
  /\ exists t0, 0 <= t0 < MAXORDINAL * US_PER_DAY /\ lo <= t0
                /\ Trigger.created_at x = isoformat (now_utc t0).

End Laws.

Import Laws.

(** ** Sample data for the further properties *)

Module Demo.


Definition paid : CheckoutStatusResponse :=
  {| cs_status := "complete"; cs_payment_status := "paid";
     amount_total := 3999; cs_currency := "usd" |}.

(** A Stripe client that opens session [cs_1] and reports it paid. *)
Definition stripe (webhook_url : string) : StripeCheckout :=
  {|
    create_checkout_session := fun _ =>
      Return {| url := "https://checkout.stripe.com/c/pay/cs_1";
                cs_session_id := "cs_1" |};
    get_checkout_status_of := fun _ => Return paid
  |}.

Definition yearly : CheckoutCreate :=
  {| cc_plan_id := "premium_yearly";
     cc_origin_url := "https://app.example.org" |}.

Definition telegram (first : string) : TelegramAuth :=
  {| init_data := ""; ta_telegram_id := 4242; first_name := first;
     last_name := Some ""; ta_username := Some "ann" |}.

(** The collection after [Sample.registered] has signed up. *)
Definition users : list User.t := [Sample.registered].

Definition rename : ProfileUpdate :=
  {| pu_name := Some "Ann B."; pu_cigarettes_per_day := None;
     pu_cost_per_pack := None; pu_cigarettes_per_pack := None;
     pu_quit_date := None |}.

Definition logged (ty : string) : EventCreate :=
  {| ec_event_type := ty; ec_context := None; ec_intensity := Some 7 |}.

(** An urge two days before [Sample.clock] and a cigarette one hour before
    it, both logged by [Sample.registered]. *)
Definition log : list Event.t :=
  fst (create_event (logged "cigarette") "e2"
         (Sample.clock - 3600 * 1000000) Sample.registered
         (fst (create_event (logged "urge") "e1"
                 (Sample.clock - 2 * US_PER_DAY) Sample.registered []))).

Definition noted (ty : string) : TriggerCreate :=
  {| tc_trigger_type := ty; tc_description := None; tc_location := None |}.

Definition triggers : list Trigger.t :=
  fst (create_trigger (noted "stress") "t1" (Sample.clock - 2 * US_PER_DAY)
         Sample.registered []).


Definition subscriber : User.t :=
  set_premium "2025-03-15T12:30:05.000250+00:00" Sample.registered.

(** The transactions after [Sample.registered] has opened a checkout for
    the yearly plan. *)
Definition pending : list Transaction.t :=
  fst (create_checkout stripe yearly "https://api.example.org/" "tx1"
         Sample.clock Sample.registered []).

End Demo.
(** ** The order of the store on strings *)

Lemma str_leb_iff (a b : string) :
  (a <=? b)%string = true <-> a = b \/ OrderedTypeEx.String_as_OT.lt a b.
Proof.
  unfold String.leb. split.
  - destruct (a ?= b)%string eqn:Hc; try discriminate; intros _.
    + left. apply String.compare_eq_iff. assumption.
    + right. apply OrderedTypeEx.String_as_OT.cmp_lt. assumption.
  - intros [-> | Hlt].
    + assert (Hc : (b ?= b)%string = Eq)
        by (apply OrderedTypeEx.String_as_OT.cmp_eq; reflexivity).
      rewrite Hc. reflexivity.
    + apply OrderedTypeEx.String_as_OT.cmp_lt in Hlt.
      unfold OrderedTypeEx.String_as_OT.cmp in Hlt. rewrite Hlt. reflexivity.
Qed.

Lemma str_leb_refl (a : string) : (a <=? a)%string = true.
Proof. apply str_leb_iff. left. reflexivity. Qed.

Lemma str_leb_trans (a b c : string) :
  (a <=? b)%string = true -> (b <=? c)%string = true ->
  (a <=? c)%string = true.
Proof.
  rewrite !str_leb_iff. intros [-> | Hab] [-> | Hbc]; auto.
  right. eapply OrderedTypeEx.String_as_OT.lt_trans; eassumption.
Qed.

Lemma str_leb_false_iff (a b : string) :
  (a <=? b)%string = false <-> (b <? a)%string = true.
Proof.
  unfold String.leb, String.ltb. rewrite (String.compare_antisym b a).
  destruct (a ?= b)%string; cbn; split; congruence.
Qed.

(** Nothing lies between [hi] and [lo] when [hi] is below [lo]. *)
Lemma str_between_absurd (lo hi s : string) :
  (hi <? lo)%string = true ->
  (lo <=? s)%string = true -> (s <=? hi)%string = true -> False.
Proof.
  intros Hlt H1 H2.
  pose proof (str_leb_trans _ _ _ H1 H2) as H.
  apply str_leb_false_iff in Hlt. congruence.
Qed.

(** ** Sorting and reading the cigarette events *)

Section SortDesc.

Context {A : Type} (key : A -> string).

Lemma insert_desc_perm (x : A) (l : list A) :
  Permutation (insert_desc key x l) (x :: l).
Proof.
  induction l as [|y l IH]; cbn.
  - apply Permutation_refl.
  - destruct (key y <=? key x)%string.
    + apply Permutation_refl.
    + eapply perm_trans; [apply perm_skip, IH|apply perm_swap].
Qed.

Lemma sort_desc_perm (l : list A) : Permutation (sort_desc key l) l.
Proof.
  induction l as [|x l IH]; cbn.
  - apply perm_nil.
  - eapply perm_trans; [apply insert_desc_perm|apply perm_skip, IH].
Qed.

Lemma insert_desc_sorted (x : A) (l : list A) :
  StronglySorted (ge_key key) l -> StronglySorted (ge_key key) (insert_desc key x l).
Proof.
  induction 1 as [|y l Hs IH Hall]; cbn.
  - constructor; constructor.
  - destruct (key y <=? key x)%string eqn:Hyx.
    + constructor; [constructor; assumption|].
      constructor; [exact Hyx|].
      eapply Forall_impl; [|exact Hall].
      intros z Hz. unfold Db.ge_key in *. eapply str_leb_trans; eassumption.
    + constructor; [assumption|].
      assert (Hxy : ge_key key y x).
      { unfold Db.ge_key. destruct (String.leb_total (key x) (key y)) as [H|H];
          [assumption|congruence]. }
      eapply Permutation_Forall;
        [apply Permutation_sym, insert_desc_perm|].
      constructor; assumption.
Qed.

Lemma sort_desc_sorted (l : list A) : StronglySorted (ge_key key) (sort_desc key l).
Proof.
  induction l as [|x l IH]; cbn.
  - constructor.
  - apply insert_desc_sorted, IH.
Qed.

(** The first document after [sort(key, -1)] has the greatest key. *)
Lemma sort_desc_head (l : list A) (x : A) (rest : list A) :
  sort_desc key l = x :: rest ->
  In x l /\ forall y, In y l -> (key y <=? key x)%string = true.
Proof.
  intros H.
  pose proof (sort_desc_perm l) as Hp.
  pose proof (sort_desc_sorted l) as Hs.
  rewrite H in Hp, Hs. split.
  - eapply Permutation_in; [exact Hp|left; reflexivity].
  - intros y Hy.
    apply (Permutation_in _ (Permutation_sym Hp)) in Hy.
    destruct Hy as [<- | Hy]; [apply str_leb_refl|].
    inversion Hs as [|? ? _ Hall]; subst.
    rewrite Forall_forall in Hall. apply Hall, Hy.
Qed.

Lemma sort_desc_nil (l : list A) : sort_desc key l = [] -> l = [].
Proof.
  intros H. pose proof (sort_desc_perm l) as Hp. rewrite H in Hp.
  apply Permutation_nil. assumption.
Qed.

End SortDesc.

Lemma last_cigarettes_nil (user : User.t) (db_events : list Event.t) :
  last_cigarettes user db_events = [] <->
  forall e, In e db_events -> is_cigarette_of user e = false.
Proof.
  unfold last_cigarettes, to_list, find. split.
  - intros H e He.
    destruct (is_cigarette_of user e) eqn:Hc; [|reflexivity].
    assert (Hin : In e (filter (is_cigarette_of user) db_events))
      by (apply filter_In; split; assumption).
    destruct (sort_desc Event.created_at
                (filter (is_cigarette_of user) db_events)) as [|x l] eqn:Hs.
    + apply sort_desc_nil in Hs. unfold is_cigarette_of in Hs at 1.
      change (filter (is_cigarette_of user) db_events = []) in Hs.
      rewrite Hs in Hin. destruct Hin.
    + change (filter _ db_events)
        with (filter (is_cigarette_of user) db_events) in H.
      rewrite Hs in H. discriminate H.
  - intros H.
    change (filter _ db_events) with (filter (is_cigarette_of user) db_events).
    assert (Hf : filter (is_cigarette_of user) db_events = []).
    { destruct (filter (is_cigarette_of user) db_events) as [|x l] eqn:Hf;
        [reflexivity|].
      assert (Hin : In x (filter (is_cigarette_of user) db_events))
        by (rewrite Hf; left; reflexivity).
      apply filter_In in Hin. destruct Hin as [Hin Hc].
      rewrite (H x Hin) in Hc. discriminate. }
    rewrite Hf. reflexivity.
Qed.

(** The event the streak is computed from is a cigarette event of the user
    whose [created_at] is the greatest among them. *)
Lemma last_cigarettes_head (user : User.t) (db_events : list Event.t)
    (e0 : Event.t) (rest : list Event.t) :
  last_cigarettes user db_events = e0 :: rest ->
  In e0 db_events
  /\ is_cigarette_of user e0 = true
  /\ forall e, In e db_events -> is_cigarette_of user e = true ->
               (Event.created_at e <=? Event.created_at e0)%string = true.
Proof.
  unfold last_cigarettes, to_list, find.
  change (filter _ db_events) with (filter (is_cigarette_of user) db_events).
  destruct (sort_desc Event.created_at
              (filter (is_cigarette_of user) db_events)) as [|x l] eqn:Hs;
    [discriminate|].
  cbn [firstn]. intros [= -> _].
  destruct (sort_desc_head _ _ _ _ Hs) as (Hin & Hmax).
  apply filter_In in Hin. destruct Hin as (Hin & Hc).
  repeat split; try assumption.
  intros e He Hce. apply Hmax. apply filter_In. split; assumption.
Qed.

(** ** The summary *)

Section SummaryFacts.

Variable fromisoformat : string -> option datetime.

Lemma sub_dt_assume_utc (t : Z) (dt : datetime) :
  sub_dt (now_utc t) (assume_utc dt) = Ok (t - utc_instant dt).
Proof.
  unfold sub_dt, assume_utc, utc_instant.
  destruct (tzinfo dt) as [off|] eqn:Htz; simpl; try rewrite Htz;
    f_equal; lia.
Qed.

Lemma truthy_Some_inv (o : option string) :
  truthy o = true -> exists s, o = Some s /\ s <> "".
Proof.
  destruct o as [s|]; simpl; [|discriminate].
  intros H. exists s. split; [reflexivity|].
  intros ->. discriminate.
Qed.

Lemma truthy_Some (s : string) : s <> "" -> truthy (Some s) = true.
Proof.
  intros H. simpl. destruct (String.eqb_spec s ""); [contradiction|reflexivity].
Qed.

Lemma summary_Ok_inv (t1 t2 : Z) (user : User.t) (db_events : list Event.t)
    (s : Summary) :
  get_progress_summary fromisoformat t1 t2 user db_events = Ok s ->
  exists dsf cs cpc,
    quit_days fromisoformat t1 user dsf
    /\ get (User.cigarettes_per_pack user) 20 <> 0
    /\ cpc = (get (User.cost_per_pack user) 10%Q
              / inject_Z (get (User.cigarettes_per_pack user) 20%Z))%Q
    /\ streak_days fromisoformat t2 dsf (last_cigarettes user db_events) cs
    /\ s = summary_of user dsf cs cpc.
Proof.
  unfold get_progress_summary.
  destruct (truthy (User.quit_date user)) eqn:Hq.
  - destruct (truthy_Some_inv _ Hq) as (qd & Hqd & Hne).
    rewrite Hqd. cbn [get]. unfold parse at 1. fold (quit_arg qd).
    destruct (fromisoformat (quit_arg qd)) as [dt|] eqn:Hp;
      [|cbn; discriminate].
    cbn [bind]. rewrite sub_dt_assume_utc. cbn [bind].
    fold (whole_days_elapsed dt t1).
    unfold truediv.
    destruct (get (User.cigarettes_per_pack user) 20 =? 0) eqn:Hz;
      [cbn; discriminate|].
    cbn [bind]. apply Z.eqb_neq in Hz.
    destruct (last_cigarettes user db_events) as [|e0 rest] eqn:Hev.
    + cbn [bind]. intros [= <-].
      eexists _, _, _. split; [eapply quit_days_parsed; eassumption|].
      repeat split; try eassumption; try reflexivity.
      unfold summary_of. rewrite Hqd. reflexivity.
    + unfold parse.
      destruct (fromisoformat (replace_Z (Event.created_at e0))) as [d2|] eqn:Hp2;
        [|cbn; discriminate].
      cbn [bind]. rewrite sub_dt_assume_utc. cbn [bind].
      intros [= <-].
      eexists _, (whole_days_elapsed d2 t2), _.
      split; [eapply quit_days_parsed; eassumption|].
      repeat split; try eassumption; try reflexivity.
      * exists d2. split; [assumption|reflexivity].
      * unfold summary_of. rewrite Hqd. reflexivity.
  - cbn [bind]. unfold truediv.
    destruct (get (User.cigarettes_per_pack user) 20 =? 0) eqn:Hz;
      [cbn; discriminate|].
    cbn [bind]. apply Z.eqb_neq in Hz.
    destruct (last_cigarettes user db_events) as [|e0 rest] eqn:Hev.
    + cbn [bind]. intros [= <-].
      eexists 0, 0, _. split; [apply quit_days_absent; assumption|].
      repeat split; try eassumption; reflexivity.
    + unfold parse.
      destruct (fromisoformat (replace_Z (Event.created_at e0))) as [d2|] eqn:Hp2;
        [|cbn; discriminate].
      cbn [bind]. rewrite sub_dt_assume_utc. cbn [bind].
      intros [= <-].
      eexists 0, (whole_days_elapsed d2 t2), _.
      split; [apply quit_days_absent; assumption|].
      repeat split; try eassumption; try reflexivity.
      exists d2. split; [assumption|reflexivity].
Qed.

Lemma summary_after_quit (t1 t2 : Z) (user : User.t)
    (db_events : list Event.t) (dsf : Z) :
  quit_days fromisoformat t1 user dsf ->
  get_progress_summary fromisoformat t1 t2 user db_events =
  (cpc <- truediv (get (User.cost_per_pack user) 10%Q)
                  (get (User.cigarettes_per_pack user) 20) ;;
   cs <- streak_block fromisoformat t2 dsf (last_cigarettes user db_events) ;;
   Ok (summary_of user dsf cs cpc)).
Proof.
  assert (Htail : forall d,
    (cost_per_cigarette <-
       truediv (get (User.cost_per_pack user) 10%Q)
               (get (User.cigarettes_per_pack user) 20) ;;
     current_streak <-
       match last_cigarettes user db_events with
       | [] => Ok d
       | e0 :: _ =>
           last_smoke <- parse fromisoformat (replace_Z (Event.created_at e0)) ;;
           td <- sub_dt (now_utc t2) (assume_utc last_smoke) ;;
           Ok (td_days td)
       end ;;
     Ok {|
       days_smoke_free := Z.max 0 d;
       current_streak := Z.max 0 current_streak;
       cigarettes_avoided :=
         Z.max 0 (d * get (User.cigarettes_per_day user) 10);
       money_saved :=
         round2 (max0 (inject_Z (d * get (User.cigarettes_per_day user) 10)
                       * cost_per_cigarette));
       quit_date := User.quit_date user
     |}) =
    (cpc <- truediv (get (User.cost_per_pack user) 10%Q)
                    (get (User.cigarettes_per_pack user) 20) ;;
     cs <- streak_block fromisoformat t2 d (last_cigarettes user db_events) ;;
     Ok (summary_of user d cs cpc))).
  { intros d. destruct (truediv _ _) as [cpc|e]; [|reflexivity]. cbn [bind].
    unfold streak_block.
    destruct (last_cigarettes user db_events) as [|e0 rest]; [reflexivity|].
    unfold parse.
    destruct (fromisoformat (replace_Z (Event.created_at e0))) as [dt|];
      [|reflexivity].
    cbn [bind]. rewrite sub_dt_assume_utc. reflexivity. }
  intros [Hq | qd dt Hqd Hne Hp]; unfold get_progress_summary; cbv zeta.
  - rewrite Hq. cbn [bind]. apply Htail.
  - rewrite Hqd, (truthy_Some _ Hne). cbn [get]. unfold parse at 1.
    fold (quit_arg qd). rewrite Hp. cbn [bind].
    rewrite sub_dt_assume_utc. cbn [bind].
    fold (whole_days_elapsed dt t1). rewrite <- Hqd. apply Htail.
Qed.



End SummaryFacts.

(** *** Rational arithmetic of the money formula *)




Lemma max0_nonneg (x : Q) : (0 <= max0 x)%Q.
Proof.
  unfold max0. destruct (Qle_bool x 0) eqn:Hx.
  - apply Qle_refl.
  - destruct (Qlt_le_dec 0 x) as [Hlt | Hle].
    + apply Qlt_le_weak. assumption.
    + apply Qle_bool_iff in Hle. congruence.
Qed.

Lemma round_half_even_nonneg (q : Q) : (0 <= q)%Q -> 0 <= round_half_even q.
Proof.
  intros H. unfold round_half_even.
  assert (Hf : 0 <= Qfloor q).
  { change 0 with (Qfloor 0). apply Qfloor_resp_le. assumption. }
  destruct (_ ?= _)%Q; [destruct (Z.even (Qfloor q))| |]; lia.
Qed.

Lemma round2_nonneg (x : Q) : (0 <= x)%Q -> (0 <= round2 x)%Q.
Proof.
  intros H. unfold round2.
  assert (Hn : 0 <= round_half_even (x * 100)).
  { apply round_half_even_nonneg.
    apply Qmult_le_0_compat; [assumption|]. discriminate. }
  apply Qle_shift_div_l; [reflexivity|].
  rewrite Qmult_0_l. change 0%Q with (inject_Z 0).
  rewrite <- Zle_Qle. assumption.
Qed.


(** ** Accounts *)

Lemma slice_isoformat (dt : datetime) :
  slice_to 10 (isoformat dt) = strftime_Ymd dt.
Proof.
  unfold slice_to, isoformat, strftime_Ymd, pad4, pad2.
  cbn [append substring]. reflexivity.
Qed.

Lemma strftime_Ymd_nonempty (dt : datetime) : strftime_Ymd dt <> "".
Proof.
  unfold strftime_Ymd, pad4, pad2. cbn [append]. discriminate.
Qed.

Lemma or_else_truthy (x : option string) (y : string) :
  y <> "" ->
  or_else x y = (if truthy x then get x "" else y) /\ or_else x y <> "".
Proof.
  intros Hy. destruct x as [s|]; cbn; [|split; [reflexivity|assumption]].
  destruct (String.eqb_spec s ""); cbn; split;
    try reflexivity; assumption.
Qed.

(** ** Trigger patterns *)

Lemma assoc_incr (k k' : string) (d : list (string * Z)) :
  assoc k' (incr k d)
  = if (k =? k')%string then Some (get (assoc k d) 0 + 1) else assoc k' d.
Proof.
  induction d as [|[k0 v] d IH]; cbn.
  - destruct (k =? k')%string; reflexivity.
  - destruct (String.eqb_spec k0 k) as [-> | Hk0]; cbn.
    + destruct (String.eqb_spec k k'); reflexivity.
    + destruct (String.eqb_spec k0 k') as [-> | Hk0'].
      * destruct (String.eqb_spec k k'); [congruence|reflexivity].
      * exact IH.
Qed.

Lemma assoc_In (k : string) (d : list (string * Z)) :
  In k (map fst d) <-> assoc k d <> None.
Proof.
  induction d as [|[k0 v] d IH]; cbn.
  - split; [intros []|congruence].
  - destruct (String.eqb_spec k0 k) as [-> | Hne].
    + split; [discriminate|auto].
    + rewrite <- IH. split; [intros [?|?]; [contradiction|assumption]|auto].
Qed.

Lemma assoc_In_pair (k : string) (n : Z) (d : list (string * Z)) :
  NoDup (map fst d) -> (In (k, n) d <-> assoc k d = Some n).
Proof.
  induction d as [|[k0 v] d IH]; cbn; intros Hnd.
  - split; [intros []|discriminate].
  - inversion Hnd as [|? ? Hnotin Hnd']; subst.
    destruct (String.eqb_spec k0 k) as [-> | Hne].
    + split.
      * intros [[= ->] | Hin]; [reflexivity|].
        exfalso. apply Hnotin. apply in_map_iff. exists (k, n). auto.
      * intros [= ->]. left. reflexivity.
    + rewrite <- (IH Hnd'). split.
      * intros [[= -> _] | Hin]; [contradiction|assumption].
      * auto.
Qed.

Lemma incr_keys (k : string) (d : list (string * Z)) :
  NoDup (map fst d) -> NoDup (map fst (incr k d)).
Proof.
  induction d as [|[k0 v] d IH]; cbn; intros Hnd.
  - constructor; [intros []|constructor].
  - inversion Hnd as [|? ? Hnotin Hnd']; subst.
    destruct (String.eqb_spec k0 k) as [-> | Hne]; cbn.
    + constructor; assumption.
    + constructor; [|apply IH; assumption].
      intros Hin. apply assoc_In in Hin. rewrite assoc_incr in Hin.
      destruct (String.eqb_spec k k0); [congruence|].
      apply Hnotin, assoc_In, Hin.
Qed.

Lemma count_types_assoc (ty : string) (triggers : list Trigger.t)
    (acc : list (string * Z)) :
  assoc ty (count_types triggers acc)
  = if occurrences ty triggers =? 0 then assoc ty acc
    else Some (get (assoc ty acc) 0 + occurrences ty triggers).
Proof.
  revert acc. induction triggers as [|t ts IH]; intros acc.
  - reflexivity.
  - cbn [count_types fold_left]. fold (count_types ts (incr (Trigger.trigger_type t) acc)).
    rewrite IH, assoc_incr. unfold occurrences. cbn [map].
    destruct (String.eqb_spec (Trigger.trigger_type t) ty) as [He | Hne].
    + rewrite (count_occ_cons_eq string_dec _ He). subst ty.
      destruct (Z.eqb_spec (Z.of_nat (count_occ string_dec
                  (map Trigger.trigger_type ts) (Trigger.trigger_type t))) 0)
        as [Hz | Hnz].
      * rewrite Nat2Z.inj_succ, Hz. cbn. reflexivity.
      * destruct (Z.eqb_spec (Z.of_nat (S (count_occ string_dec
                  (map Trigger.trigger_type ts) (Trigger.trigger_type t)))) 0)
          as [Hz' | _]; [lia|].
        cbn [get]. f_equal. lia.
    + rewrite (count_occ_cons_neq string_dec _ Hne). reflexivity.
Qed.

Lemma count_types_keys (triggers : list Trigger.t) (acc : list (string * Z)) :
  NoDup (map fst acc) -> NoDup (map fst (count_types triggers acc)).
Proof.
  revert acc. induction triggers as [|t ts IH]; intros acc Hnd.
  - exact Hnd.
  - apply IH, incr_keys, Hnd.
Qed.

Lemma occurrences_nonneg (ty : string) (triggers : list Trigger.t) :
  0 <= occurrences ty triggers.
Proof. unfold occurrences. lia. Qed.

Lemma count_types_In (ty : string) (n : Z) (triggers : list Trigger.t) :
  In (ty, n) (count_types triggers [])
  <-> 0 < n /\ n = occurrences ty triggers.
Proof.
  rewrite (assoc_In_pair _ _ _ (count_types_keys triggers [] (NoDup_nil _))).
  rewrite count_types_assoc. cbn [assoc get].
  pose proof (occurrences_nonneg ty triggers).
  destruct (Z.eqb_spec (occurrences ty triggers) 0) as [Hz | Hnz].
  - split; [discriminate|lia].
  - split; [intros [= <-]; lia|intros [_ ->]; f_equal; lia].
Qed.

Lemma insert_by_count_perm (x : string * Z) (l : list (string * Z)) :
  Permutation (insert_by_count x l) (x :: l).
Proof.
  induction l as [|y l IH]; cbn.
  - apply Permutation_refl.
  - destruct (snd y <=? snd x).
    + apply Permutation_refl.
    + eapply perm_trans; [apply perm_skip, IH|apply perm_swap].
Qed.

Lemma sorted_by_count_perm (l : list (string * Z)) :
  Permutation (sorted_by_count_desc l) l.
Proof.
  induction l as [|x l IH]; cbn.
  - apply perm_nil.
  - eapply perm_trans; [apply insert_by_count_perm|apply perm_skip, IH].
Qed.

Lemma insert_by_count_sorted (x : string * Z) (l : list (string * Z)) :
  StronglySorted ge_count l -> StronglySorted ge_count (insert_by_count x l).
Proof.
  induction 1 as [|y l Hs IH Hall]; cbn.
  - constructor; constructor.
  - destruct (Z.leb_spec (snd y) (snd x)) as [Hyx | Hxy].
    + constructor; [constructor; assumption|].
      constructor; [exact Hyx|].
      eapply Forall_impl; [|exact Hall].
      unfold ge_count. intros z Hz. lia.
    + constructor; [assumption|].
      eapply Permutation_Forall;
        [apply Permutation_sym, insert_by_count_perm|].
      constructor; [unfold ge_count; lia|assumption].
Qed.

Lemma sorted_by_count_sorted (l : list (string * Z)) :
  StronglySorted ge_count (sorted_by_count_desc l).
Proof.
  induction l as [|x l IH]; cbn.
  - constructor.
  - apply insert_by_count_sorted, IH.
Qed.

(** ** The calendar *)

Lemma forall_from_spec (f : Z -> bool) (n : nat) (lo : Z) :
  forall_from f lo n = true ->
  forall r, lo <= r < lo + Z.of_nat n -> f r = true.
Proof.
  revert lo. induction n as [|n IH]; intros lo H r Hr.
  - lia.
  - cbn [forall_from] in H. apply andb_true_iff in H. destruct H as [H0 H1].
    destruct (Z.eq_dec r lo) as [-> | Hne]; [assumption|].
    apply (IH (lo + 1) H1). lia.
Qed.

Lemma cycle_checked : forall_from cycle_ok 0 (Z.to_nat DI400Y) = true.
Proof. vm_compute. reflexivity. Qed.

Lemma cycle_ok_all (r : Z) : 0 <= r < DI400Y -> cycle_ok r = true.
Proof.
  intros Hr. apply (forall_from_spec cycle_ok _ 0 cycle_checked).
  rewrite Z2Nat.id by (unfold DI400Y; lia). lia.
Qed.

Lemma ord2ymd0_shift (q x : Z) :
  ord2ymd0 (DI400Y * q + x) = shift_years q (ord2ymd0 x).
Proof.
  unfold ord2ymd0.
  assert (Hd : (DI400Y * q + x) / DI400Y = q + x / DI400Y).
  { rewrite Z.add_comm, Z.mul_comm, Z.div_add by (unfold DI400Y; lia). lia. }
  assert (Hm : (DI400Y * q + x) mod DI400Y = x mod DI400Y).
  { rewrite Z.add_comm, Z.mul_comm, Z.mod_add by (unfold DI400Y; lia).
    reflexivity. }
  rewrite Hd, Hm. cbv zeta.
  set (r := x mod DI400Y).
  set (n100 := r / DI100Y).
  set (n4 := (r mod DI100Y) / DI4Y).
  set (n1 := ((r mod DI100Y) mod DI4Y) / 365).
  set (n := ((r mod DI100Y) mod DI4Y) mod 365).
  destruct ((n1 =? 4) || (n100 =? 4)).
  - unfold shift_years. f_equal. f_equal. lia.
  - match goal with
    | |- context [if ?c then _ else _] => destruct c
    end; unfold shift_years; f_equal; f_equal; lia.
Qed.

Ltac boolean_facts H :=
  repeat rewrite andb_true_iff in H;
  repeat rewrite orb_true_iff in H;
  repeat rewrite Z.leb_le in H;
  repeat rewrite Z.ltb_lt in H;
  repeat rewrite Z.eqb_eq in H.

Lemma ymd_ltb_spec (y m d y' m' d' : Z) :
  ymd_ltb (y, m, d) (y', m', d') = true
  <-> y < y' \/ (y = y' /\ (m < m' \/ (m = m' /\ d < d'))).
Proof.
  unfold ymd_ltb.
  rewrite !orb_true_iff, !andb_true_iff, !orb_true_iff, !andb_true_iff.
  rewrite !Z.ltb_lt, !Z.eqb_eq. reflexivity.
Qed.

Lemma ymd_ltb_trans (a b c : Z * Z * Z) :
  ymd_ltb a b = true -> ymd_ltb b c = true -> ymd_ltb a c = true.
Proof.
  destruct a as [[y1 m1] d1], b as [[y2 m2] d2], c as [[y3 m3] d3].
  rewrite !ymd_ltb_spec. lia.
Qed.

Lemma ymd_ltb_shift (q : Z) (a b : Z * Z * Z) :
  ymd_ltb a b = true -> ymd_ltb (shift_years q a) (shift_years q b) = true.
Proof.
  destruct a as [[y1 m1] d1], b as [[y2 m2] d2]. unfold shift_years.
  rewrite !ymd_ltb_spec. lia.
Qed.

Lemma split_cycle (n : Z) :
  n = DI400Y * (n / DI400Y) + n mod DI400Y /\ 0 <= n mod DI400Y < DI400Y.
Proof.
  split.
  - apply Z_div_mod_eq_full.
  - apply Z.mod_pos_bound. unfold DI400Y. lia.
Qed.

(** The day after is a later date. *)
Lemma ymd_next (n : Z) : ymd_ltb (ord2ymd0 n) (ord2ymd0 (n + 1)) = true.
Proof.
  destruct (split_cycle n) as (Hn & Hr).
  rewrite Hn at 2. rewrite <- Z.add_assoc. rewrite Hn at 1.
  rewrite !ord2ymd0_shift. apply ymd_ltb_shift.
  pose proof (cycle_ok_all _ Hr) as Hc. unfold cycle_ok in Hc.
  destruct (ord2ymd0 (n mod DI400Y)) as [[y m] d].
  repeat (apply andb_true_iff in Hc; destruct Hc as [Hc ?]).
  assumption.
Qed.

Lemma ymd_mono (n m : Z) :
  n < m -> ymd_ltb (ord2ymd0 n) (ord2ymd0 m) = true.
Proof.
  intros H. replace m with (n + 1 + Z.of_nat (Z.to_nat (m - n - 1))) by lia.
  induction (Z.to_nat (m - n - 1)) as [|k IH].
  - rewrite Z.add_0_r. apply ymd_next.
  - eapply ymd_ltb_trans; [exact IH|].
    replace (n + 1 + Z.of_nat (S k)) with (n + 1 + Z.of_nat k + 1) by lia.
    apply ymd_next.
Qed.

(** The fields of a date between 0001-01-01 and 9999-12-31. *)
Lemma ymd_range (n : Z) :
  0 <= n < MAXORDINAL ->
  let '(y, m, d) := ord2ymd0 n in
  1 <= y <= 9999 /\ 1 <= m <= 12 /\ 1 <= d <= 31.
Proof.
  intros Hn. destruct (split_cycle n) as (Hs & Hr).
  rewrite Hs, ord2ymd0_shift.
  pose proof (cycle_ok_all _ Hr) as Hc. unfold cycle_ok in Hc.
  destruct (ord2ymd0 (n mod DI400Y)) as [[y m] d]. unfold shift_years.
  boolean_facts Hc.
  unfold MAXORDINAL, DI400Y in *.
  assert (0 <= n / 146097 <= 24).
  { split; [apply Z.div_pos; lia|].
    apply Z.lt_succ_r. apply Z.div_lt_upper_bound; lia. }
  lia.
Qed.

(** ** Rendered fields compare like numbers *)

Lemma ascii_compare_refl (c : ascii) : (c ?= c)%char = Eq.
Proof. unfold Ascii.compare. apply N.compare_refl. Qed.

Lemma str_compare_refl (s : string) : (s ?= s)%string = Eq.
Proof.
  induction s as [|c s IH]; cbn; [reflexivity|].
  rewrite ascii_compare_refl. exact IH.
Qed.

Lemma str_compare_app (a b x y : string) :
  String.length a = String.length b ->
  (a ++ x ?= b ++ y)%string = lexc (a ?= b)%string (x ?= y)%string.
Proof.
  revert b. induction a as [|c a IH]; intros [|c' b] Hlen;
    try discriminate Hlen; cbn.
  - reflexivity.
  - destruct (c ?= c')%char; try reflexivity.
    apply IH. cbn in Hlen. congruence.
Qed.

Lemma comparison_eqb_eq (c1 c2 : comparison) :
  comparison_eqb c1 c2 = true -> c1 = c2.
Proof. destruct c1, c2; cbn; congruence. Qed.

Lemma pad2_checked : forall_from pad2_ok 0 100 = true.
Proof. vm_compute. reflexivity. Qed.

Lemma pad2_order (a b : Z) :
  0 <= a < 100 -> 0 <= b < 100 -> (pad2 a ?= pad2 b)%string = (a ?= b).
Proof.
  intros Ha Hb. apply comparison_eqb_eq.
  pose proof (forall_from_spec pad2_ok _ 0 pad2_checked a) as H.
  specialize (H ltac:(cbn; lia)). unfold pad2_ok in H.
  apply (forall_from_spec _ _ 0 H b). cbn. lia.
Qed.

Lemma pad2_compare (a b : Z) (s s' : string) :
  0 <= a < 100 -> 0 <= b < 100 ->
  (pad2 a ++ s ?= pad2 b ++ s')%string = lexc (a ?= b) (s ?= s')%string.
Proof.
  intros Ha Hb. rewrite str_compare_app by reflexivity.
  rewrite pad2_order by assumption. reflexivity.
Qed.

Lemma lexc_divmod (k a b : Z) :
  0 < k ->
  lexc (a / k ?= b / k) (a mod k ?= b mod k) = (a ?= b).
Proof.
  intros Hk.
  pose proof (Z.div_mod a k ltac:(lia)) as Ha.
  pose proof (Z.div_mod b k ltac:(lia)) as Hb.
  pose proof (Z.mod_pos_bound a k Hk) as Ha'.
  pose proof (Z.mod_pos_bound b k Hk) as Hb'.
  unfold lexc.
  destruct (Z.compare_spec (a / k) (b / k)) as [He | Hl | Hg].
  - rewrite He in Ha.
    destruct (Z.compare_spec (a mod k) (b mod k)); symmetry;
      [apply Z.compare_eq_iff|apply Z.compare_lt_iff|apply Z.compare_gt_iff];
      lia.
  - symmetry. apply Z.compare_lt_iff. nia.
  - symmetry. apply Z.compare_gt_iff. nia.
Qed.

Lemma append_assoc (a b c : string) : ((a ++ b) ++ c = a ++ (b ++ c))%string.
Proof.
  induction a as [|x a IH]; cbn; [reflexivity|]. rewrite IH. reflexivity.
Qed.

Lemma lexc_assoc (c1 c2 c3 : comparison) :
  lexc (lexc c1 c2) c3 = lexc c1 (lexc c2 c3).
Proof. destruct c1; reflexivity. Qed.

Lemma pad4_compare (a b : Z) (s s' : string) :
  0 <= a < 10000 -> 0 <= b < 10000 ->
  (pad4 a ++ s ?= pad4 b ++ s')%string = lexc (a ?= b) (s ?= s')%string.
Proof.
  intros Ha Hb. unfold pad4. rewrite !append_assoc.
  rewrite pad2_compare
    by (split; [apply Z.div_pos|apply Z.div_lt_upper_bound]; lia).
  rewrite pad2_compare by (apply Z.mod_pos_bound; lia).
  rewrite <- lexc_assoc, lexc_divmod by lia. reflexivity.
Qed.

Lemma pad6_compare (a b : Z) (s s' : string) :
  0 <= a < 1000000 -> 0 <= b < 1000000 ->
  (pad6 a ++ s ?= pad6 b ++ s')%string = lexc (a ?= b) (s ?= s')%string.
Proof.
  intros Ha Hb. unfold pad6. rewrite !append_assoc.
  rewrite pad2_compare
    by (split; [apply Z.div_pos|apply Z.div_lt_upper_bound]; lia).
  rewrite pad4_compare by (apply Z.mod_pos_bound; lia).
  rewrite <- lexc_assoc, lexc_divmod by lia. reflexivity.
Qed.

Lemma str_compare_cons (c : ascii) (s s' : string) :
  (String c s ?= String c s')%string = (s ?= s')%string.
Proof. cbn. rewrite ascii_compare_refl. reflexivity. Qed.

Lemma frac_compare (u u' : Z) :
  0 <= u < 1000000 -> 0 <= u' < 1000000 ->
  (format_frac u ++ "+00:00" ?= format_frac u' ++ "+00:00")%string = (u ?= u').
Proof.
  intros Hu Hu'. unfold format_frac.
  destruct (Z.eqb_spec u 0) as [-> | Hn]; destruct (Z.eqb_spec u' 0) as [-> | Hn'].
  - reflexivity.
  - rewrite (proj2 (Z.compare_lt_iff 0 u')) by lia. reflexivity.
  - rewrite (proj2 (Z.compare_gt_iff u 0)) by lia. reflexivity.
  - cbn [append]. rewrite str_compare_cons, pad6_compare by assumption.
    rewrite str_compare_refl. destruct (u ?= u'); reflexivity.
Qed.

Lemma ymd_compare (n n' : Z) :
  let '(y, m, d) := ord2ymd0 n in
  let '(y', m', d') := ord2ymd0 n' in
  lexc (y ?= y') (lexc (m ?= m') (d ?= d')) = (n ?= n').
Proof.
  destruct (Z.compare_spec n n') as [-> | Hlt | Hgt].
  - destruct (ord2ymd0 n') as [[y m] d].
    rewrite !Z.compare_refl. reflexivity.
  - pose proof (ymd_mono _ _ Hlt) as H.
    destruct (ord2ymd0 n) as [[y m] d], (ord2ymd0 n') as [[y' m'] d'].
    apply ymd_ltb_spec in H. unfold lexc.
    destruct (Z.compare_spec y y'); try lia; try reflexivity.
    destruct (Z.compare_spec m m'); try lia; try reflexivity.
    apply Z.compare_lt_iff. lia.
  - pose proof (ymd_mono _ _ Hgt) as H.
    destruct (ord2ymd0 n) as [[y m] d], (ord2ymd0 n') as [[y' m'] d'].
    apply ymd_ltb_spec in H. unfold lexc.
    destruct (Z.compare_spec y y'); try lia; try reflexivity.
    destruct (Z.compare_spec m m'); try lia; try reflexivity.
    apply Z.compare_gt_iff. lia.
Qed.

Lemma time_compare (a b : Z) :
  lexc (a / 3600000000 ?= b / 3600000000)
    (lexc ((a / 60000000) mod 60 ?= (b / 60000000) mod 60)
       (lexc ((a / 1000000) mod 60 ?= (b / 1000000) mod 60)
          (a mod 1000000 ?= b mod 1000000)))
  = (a ?= b).
Proof.
  rewrite <- (lexc_divmod 1000000 a b) by lia.
  rewrite <- (lexc_divmod 60 (a / 1000000) (b / 1000000)) by lia.
  rewrite !Z.div_div by lia.
  rewrite <- (lexc_divmod 60 (a / (1000000 * 60)) (b / (1000000 * 60))) by lia.
  rewrite !Z.div_div by lia.
  rewrite !lexc_assoc. reflexivity.
Qed.

Lemma ord2ymd_toordinal (dt : datetime) :
  ord2ymd (toordinal dt) = ord2ymd0 (wall dt / US_PER_DAY).
Proof. unfold ord2ymd, toordinal. f_equal. lia. Qed.

Lemma day_number_range (w : Z) :
  0 <= w < MAXORDINAL * US_PER_DAY -> 0 <= w / US_PER_DAY < MAXORDINAL.
Proof.
  intros H. unfold US_PER_DAY, MAXORDINAL in *. split.
  - apply Z.div_pos; lia.
  - apply Z.div_lt_upper_bound; lia.
Qed.

Lemma time_fields_range (dt : datetime) :
  0 <= hour dt < 100 /\ 0 <= minute dt < 100 /\ 0 <= second dt < 100
  /\ 0 <= microsecond dt < 1000000.
Proof.
  unfold hour, minute, second, microsecond, time_of_day.
  pose proof (Z.mod_pos_bound (wall dt) US_PER_DAY ltac:(unfold US_PER_DAY; lia)) as H.
  unfold US_PER_DAY in *.
  repeat split; try (apply Z.mod_pos_bound; lia);
    try (apply Z.div_pos; lia);
    try (apply Z.div_lt_upper_bound; lia);
    pose proof (Z.mod_pos_bound (wall dt mod 86400000000 / 60000000) 60 ltac:(lia));
    pose proof (Z.mod_pos_bound (wall dt mod 86400000000 / 1000000) 60 ltac:(lia));
    lia.
Qed.

(** On UTC-aware datetimes the order of the rendered text is the order of
    the instants. *)
Lemma isoformat_order (a b : datetime) :
  utc_datetime a -> utc_datetime b ->
  (isoformat a ?= isoformat b)%string = (wall a ?= wall b).
Proof.
  intros (Hza & Ha) (Hzb & Hb).
  unfold isoformat, strftime_Ymd. rewrite Hza, Hzb.
  change (format_tz (Some 0)) with "+00:00".
  rewrite !append_assoc. cbn [append].
  pose proof (ymd_range _ (day_number_range _ Ha)) as Hra.
  pose proof (ymd_range _ (day_number_range _ Hb)) as Hrb.
  pose proof (ymd_compare (wall a / US_PER_DAY) (wall b / US_PER_DAY)) as Hc.
  unfold year, month, day. rewrite !ord2ymd_toordinal.
  destruct (ord2ymd0 (wall a / US_PER_DAY)) as [[ya ma] da].
  destruct (ord2ymd0 (wall b / US_PER_DAY)) as [[yb mb] db].
  cbn [fst snd].
  destruct (time_fields_range a) as (Hha & Hma & Hsa & Hua).
  destruct (time_fields_range b) as (Hhb & Hmb & Hsb & Hub).
  rewrite pad4_compare, str_compare_cons by lia.
  rewrite pad2_compare, str_compare_cons by lia.
  rewrite pad2_compare, str_compare_cons by lia.
  rewrite pad2_compare, str_compare_cons by lia.
  rewrite pad2_compare, str_compare_cons by lia.
  rewrite pad2_compare by lia.
  rewrite frac_compare by assumption.
  unfold hour, minute, second, microsecond, time_of_day.
  rewrite time_compare.
  rewrite <- (lexc_divmod US_PER_DAY (wall a) (wall b))
    by (unfold US_PER_DAY; lia).
  rewrite <- Hc, !lexc_assoc. reflexivity.
Qed.

Lemma isoformat_leb (a b : datetime) :
  utc_datetime a -> utc_datetime b ->
  (isoformat a <=? isoformat b)%string = (wall a <=? wall b).
Proof.
  intros Ha Hb. unfold String.leb, Z.leb.
  rewrite (isoformat_order a b Ha Hb). reflexivity.
Qed.

Lemma isoformat_ltb (a b : datetime) :
  utc_datetime a -> utc_datetime b ->
  (isoformat a <? isoformat b)%string = (wall a <? wall b).
Proof.
  intros Ha Hb. unfold String.ltb, Z.ltb.
  rewrite (isoformat_order a b Ha Hb). reflexivity.
Qed.

(** ** Buckets *)

Lemma fold_append_map {A B : Type} (f : A -> B) (l : list A) (acc : list B) :
  fold_left (fun acc x => (acc ++ [f x])%list) l acc = (acc ++ map f l)%list.
Proof.
  revert acc. induction l as [|x l IH]; intros acc; cbn.
  - rewrite app_nil_r. reflexivity.
  - rewrite IH, <- app_assoc. reflexivity.
Qed.

Lemma sum_from (l : list Z) (a : Z) : fold_left Z.add l a = a + sum l.
Proof.
  unfold sum. revert a. induction l as [|x l IH]; intros a; cbn.
  - lia.
  - rewrite IH, (IH x). lia.
Qed.

Lemma sum_cons (x : Z) (l : list Z) : sum (x :: l) = x + sum l.
Proof. unfold sum at 1. cbn. apply sum_from. Qed.

Lemma count_type_tally (ty : string) (events : list Event.t) :
  count_type ty events = tally ty events.
Proof.
  unfold count_type, tally. fold (has_type ty).
  induction (filter (has_type ty) events) as [|e l IH].
  - reflexivity.
  - cbn [map]. rewrite sum_cons, IH. cbn [List.length]. lia.
Qed.

Lemma events_between_eq (user : User.t) (lo hi : string)
    (db_events : list Event.t) :
  events_between user lo hi db_events
  = firstn 1000 (filter (in_window user lo hi) db_events).
Proof. reflexivity. Qed.

Lemma midnight_render (dt : datetime) :
  tzinfo dt = Some 0 ->
  isoformat (replace_midnight dt) = strftime_Ymd dt ++ "T00:00:00+00:00".
Proof.
  intros Hz.
  assert (Hw : wall (replace_midnight dt)
               = US_PER_DAY * (wall dt / US_PER_DAY)).
  { cbn [wall replace_midnight]. unfold time_of_day.
    pose proof (Z_div_mod_eq_full (wall dt) US_PER_DAY). lia. }
  assert (Hord : toordinal (replace_midnight dt) = toordinal dt).
  { unfold toordinal. rewrite Hw.
    rewrite Z.mul_comm, Z.div_mul by (unfold US_PER_DAY; lia). reflexivity. }
  assert (Htod : time_of_day (replace_midnight dt) = 0).
  { unfold time_of_day. rewrite Hw.
    rewrite Z.mul_comm. apply Z.mod_mul. unfold US_PER_DAY. lia. }
  unfold isoformat, strftime_Ymd, year, month, day, hour, minute, second,
    microsecond.
  rewrite Hord, Htod. cbn [tzinfo replace_midnight]. rewrite Hz.
  reflexivity.
Qed.

Lemma end_of_day_render (dt : datetime) :
  tzinfo dt = Some 0 ->
  isoformat (replace_end_of_day dt)
  = strftime_Ymd dt ++ "T23:59:59.999999+00:00".
Proof.
  intros Hz.
  assert (Hw : wall (replace_end_of_day dt)
               = (US_PER_DAY - 1) + (wall dt / US_PER_DAY) * US_PER_DAY).
  { cbn [wall replace_end_of_day]. unfold time_of_day.
    pose proof (Z_div_mod_eq_full (wall dt) US_PER_DAY). lia. }
  assert (Hord : toordinal (replace_end_of_day dt) = toordinal dt).
  { unfold toordinal. rewrite Hw.
    rewrite Z.div_add by (unfold US_PER_DAY; lia).
    rewrite Z.div_small by (unfold US_PER_DAY; lia). reflexivity. }
  assert (Htod : time_of_day (replace_end_of_day dt) = US_PER_DAY - 1).
  { unfold time_of_day. rewrite Hw.
    rewrite Z.mod_add by (unfold US_PER_DAY; lia).
    apply Z.mod_small. unfold US_PER_DAY. lia. }
  unfold isoformat, strftime_Ymd, year, month, day, hour, minute, second,
    microsecond.
  rewrite Hord, Htod. cbn [tzinfo replace_end_of_day]. rewrite Hz.
  reflexivity.
Qed.

Lemma day_bucket_eq (t : Z) (user : User.t) (db_events : list Event.t)
    (i : Z) :
  day_bucket (now_utc t) user db_events i = day_bucket_spec t user db_events i.
Proof.
  unfold day_bucket, day_bucket_spec, day_of. cbv zeta.
  rewrite midnight_render, end_of_day_render by reflexivity.
  rewrite !count_type_tally, events_between_eq. reflexivity.
Qed.

Lemma toordinal_sub_days (dt : datetime) (k : Z) :
  toordinal (sub_td dt (days k)) = toordinal dt - k.
Proof.
  unfold toordinal, sub_td, days. cbn [wall].
  replace (wall dt - k * US_PER_DAY) with (wall dt + (- k) * US_PER_DAY)
    by lia.
  rewrite Z.div_add by (unfold US_PER_DAY; lia). lia.
Qed.

Lemma week_bucket_eq (t : Z) (user : User.t) (db_events : list Event.t)
    (i : Z) :
  week_bucket (now_utc t) user db_events i
  = week_bucket_spec t user db_events ("Week " ++ str (4 - i)) i.
Proof.
  unfold week_bucket, week_bucket_spec. cbv zeta.
  assert (He : week_end_of (now_utc t) i = now_utc (t - i * 7 * US_PER_DAY))
    by reflexivity.
  assert (Hs : week_start_of (now_utc t) i
               = now_utc (t - (i + 1) * 7 * US_PER_DAY)).
  { unfold week_start_of, week_end_of, sub_td, weeks, days, now_utc.
    cbn [wall tzinfo]. f_equal. lia. }
  rewrite He, Hs, !count_type_tally, events_between_eq. reflexivity.
Qed.

(** ** The seven day windows *)

Lemma day_lo_wall (t i : Z) :
  wall (replace_midnight (day_of (now_utc t) i))
  = (t / US_PER_DAY - (6 - i)) * US_PER_DAY.
Proof.
  unfold replace_midnight, day_of, sub_td, days, time_of_day, now_utc.
  cbn [wall tzinfo].
  replace (t - (6 - i) * US_PER_DAY) with (t + (- (6 - i)) * US_PER_DAY)
    by lia.
  rewrite Z.mod_add by (unfold US_PER_DAY; lia).
  pose proof (Z_div_mod_eq_full t US_PER_DAY). lia.
Qed.

Lemma day_hi_wall (t i : Z) :
  wall (replace_end_of_day (day_of (now_utc t) i))
  = (t / US_PER_DAY - (6 - i)) * US_PER_DAY + (US_PER_DAY - 1).
Proof.
  unfold replace_end_of_day, day_of, sub_td, days, time_of_day, now_utc.
  cbn [wall tzinfo].
  replace (t - (6 - i) * US_PER_DAY) with (t + (- (6 - i)) * US_PER_DAY)
    by lia.
  rewrite Z.mod_add by (unfold US_PER_DAY; lia).
  pose proof (Z_div_mod_eq_full t US_PER_DAY). lia.
Qed.

Lemma clock_day_range (t : Z) :
  clock_ok 6 t -> 6 <= t / US_PER_DAY < MAXORDINAL.
Proof.
  unfold clock_ok, US_PER_DAY, MAXORDINAL. intros H. split.
  - apply Z.div_le_lower_bound; lia.
  - apply Z.div_lt_upper_bound; lia.
Qed.

Lemma day_lo_utc (t i : Z) :
  clock_ok 6 t -> 0 <= i < 7 ->
  utc_datetime (replace_midnight (day_of (now_utc t) i)).
Proof.
  intros Ht Hi. split; [reflexivity|]. rewrite day_lo_wall.
  pose proof (clock_day_range t Ht). unfold US_PER_DAY, MAXORDINAL in *. nia.
Qed.

Lemma day_hi_utc (t i : Z) :
  clock_ok 6 t -> 0 <= i < 7 ->
  utc_datetime (replace_end_of_day (day_of (now_utc t) i)).
Proof.
  intros Ht Hi. split; [reflexivity|]. rewrite day_hi_wall.
  pose proof (clock_day_range t Ht). unfold US_PER_DAY, MAXORDINAL in *. nia.
Qed.

(** The end of a day is rendered below the start of any later day. *)
Lemma days_apart (t i j : Z) :
  clock_ok 6 t -> 0 <= i -> i < j -> j < 7 ->
  (day_hi t i <? day_lo t j)%string = true.
Proof.
  intros Ht Hi Hij Hj. unfold day_hi, day_lo.
  rewrite isoformat_ltb
    by (first [apply day_hi_utc|apply day_lo_utc]; (assumption || lia)).
  rewrite day_hi_wall, day_lo_wall. apply Z.ltb_lt.
  unfold US_PER_DAY. nia.
Qed.

(** No string lies in the windows of two different days. *)
Lemma in_day_unique (t : Z) (user : User.t) (e : Event.t) (i j : Z) :
  clock_ok 6 t -> 0 <= i < 7 -> 0 <= j < 7 ->
  in_day t user i e = true -> in_day t user j e = true -> i = j.
Proof.
  intros Ht Hi Hj Hie Hje.
  unfold in_day, in_window, gte_lte in Hie, Hje.
  rewrite !andb_true_iff in Hie, Hje.
  destruct Hie as (_ & Hi1 & Hi2). destruct Hje as (_ & Hj1 & Hj2).
  destruct (Z.lt_trichotomy i j) as [Hlt | [Heq | Hgt]]; [|assumption|];
    exfalso.
  - apply (str_between_absurd (day_lo t j) (day_hi t i) (Event.created_at e));
      try assumption.
    apply days_apart; (assumption || lia).
  - apply (str_between_absurd (day_lo t i) (day_hi t j) (Event.created_at e));
      try assumption.
    apply days_apart; (assumption || lia).
Qed.

Lemma in_window_wf (user : User.t) (lo hi dt : datetime) (e : Event.t) :
  utc_datetime lo -> utc_datetime hi -> utc_datetime dt ->
  Event.created_at e = isoformat dt ->
  in_window user (isoformat lo) (isoformat hi) e
  = (Event.user_id e =? User.id user)%string
    && ((wall lo <=? wall dt) && (wall dt <=? wall hi)).
Proof.
  intros Hlo Hhi Hdt He. unfold in_window, gte_lte. rewrite He.
  rewrite !isoformat_leb by assumption. reflexivity.
Qed.

(** On a well-formed timestamp the window of day [i] selects the events
    dated that calendar day. *)
Lemma in_day_wf (t : Z) (user : User.t) (i : Z) (dt : datetime) (e : Event.t) :
  clock_ok 6 t -> 0 <= i < 7 -> utc_datetime dt ->
  Event.created_at e = isoformat dt ->
  in_day t user i e
  = (Event.user_id e =? User.id user)%string
    && (wall dt / US_PER_DAY =? t / US_PER_DAY - (6 - i)).
Proof.
  intros Ht Hi Hdt He. unfold in_day, day_lo, day_hi.
  rewrite (in_window_wf _ _ _ dt) by
    (first [apply day_lo_utc|apply day_hi_utc|assumption]; (assumption || lia)).
  rewrite day_lo_wall, day_hi_wall. f_equal.
  pose proof (Z_div_mod_eq_full (wall dt) US_PER_DAY) as Hdm.
  pose proof (Z.mod_pos_bound (wall dt) US_PER_DAY
                ltac:(unfold US_PER_DAY; lia)) as Hmod.
  destruct (Z.eqb_spec (wall dt / US_PER_DAY) (t / US_PER_DAY - (6 - i)))
    as [Heq | Hne].
  - rewrite <- Heq. apply andb_true_iff. split; apply Z.leb_le; nia.
  - apply andb_false_iff.
    destruct (Z.lt_trichotomy (wall dt / US_PER_DAY)
                (t / US_PER_DAY - (6 - i))) as [Hlt | [Heq | Hgt]];
      [left|contradiction|right]; apply Z.leb_gt; unfold US_PER_DAY in *; nia.
Qed.

Lemma in_week_wf (t : Z) (user : User.t) (dt : datetime) (e : Event.t) :
  clock_ok 6 t -> utc_datetime dt ->
  Event.created_at e = isoformat dt ->
  in_week t user e
  = (Event.user_id e =? User.id user)%string
    && ((t / US_PER_DAY - 6 <=? wall dt / US_PER_DAY)
        && (wall dt / US_PER_DAY <=? t / US_PER_DAY)).
Proof.
  intros Ht Hdt He. unfold in_week, day_lo, day_hi.
  rewrite (in_window_wf _ _ _ dt) by
    (first [apply day_lo_utc|apply day_hi_utc|assumption]; (assumption || lia)).
  rewrite day_lo_wall, day_hi_wall. f_equal.
  pose proof (Z_div_mod_eq_full (wall dt) US_PER_DAY) as Hdm.
  pose proof (Z.mod_pos_bound (wall dt) US_PER_DAY
                ltac:(unfold US_PER_DAY; lia)) as Hmod.
  f_equal.
  - destruct (Z.leb_spec (t / US_PER_DAY - 6) (wall dt / US_PER_DAY));
      [apply Z.leb_le|apply Z.leb_gt]; unfold US_PER_DAY in *; nia.
  - destruct (Z.leb_spec (wall dt / US_PER_DAY) (t / US_PER_DAY));
      [apply Z.leb_le|apply Z.leb_gt]; unfold US_PER_DAY in *; nia.
Qed.

Lemma in_some_day_wf (t : Z) (user : User.t) (dt : datetime) (e : Event.t) :
  clock_ok 6 t -> utc_datetime dt ->
  Event.created_at e = isoformat dt ->
  in_some_day t user e = in_week t user e.
Proof.
  intros Ht Hdt He. rewrite (in_week_wf t user dt e Ht Hdt He).
  unfold in_some_day. change (range 7) with [0; 1; 2; 3; 4; 5; 6].
  cbn [existsb].
  rewrite !(in_day_wf t user _ dt e Ht) by (assumption || lia).
  destruct (Event.user_id e =? User.id user)%string; cbn [andb orb];
    [|reflexivity].
  repeat match goal with
         | |- context [?a =? ?b] => destruct (Z.eqb_spec a b)
         end; cbn [orb];
    symmetry; first [apply andb_true_iff; split; apply Z.leb_le; lia
                    |apply andb_false_iff;
                     destruct (Z.leb_spec (t / US_PER_DAY - 6)
                                 (wall dt / US_PER_DAY));
                     [right; apply Z.leb_gt; lia|left; reflexivity]].
Qed.

(** Every log written through [create_event] is well formed. *)
Lemma event_log_well_formed (db_events : list Event.t) :
  event_log db_events -> well_formed_log db_events.
Proof.
  induction 1 as [|ed uuid t u events Hlog IH Ht]; intros e He.
  - destruct He.
  - cbn [fst create_event insert_one] in He. apply in_app_or in He.
    destruct He as [He | [<- | []]]; [apply IH, He|].
    exists (now_utc t). split; [|reflexivity].
    split; [reflexivity|exact Ht].
Qed.

(** ** Counting over disjoint windows *)

Lemma sum_map_add {A : Type} (a b : A -> Z) (l : list A) :
  sum (map (fun i => a i + b i) l) = sum (map a l) + sum (map b l).
Proof.
  induction l as [|x l IH]; cbn [map].
  - reflexivity.
  - rewrite !sum_cons, IH. lia.
Qed.

Lemma indicator_sum (g : Z -> bool) (idx : list Z) :
  (forall i j, In i idx -> In j idx -> g i = true -> g j = true -> i = j) ->
  NoDup idx ->
  sum (map (fun i => b2z (g i)) idx) = b2z (existsb g idx).
Proof.
  induction idx as [|i idx IH]; intros Huniq Hnd.
  - reflexivity.
  - inversion Hnd as [|? ? Hnotin Hnd']; subst.
    cbn [map existsb]. rewrite sum_cons.
    rewrite IH; [|intros; apply Huniq; auto using in_cons|assumption].
    destruct (g i) eqn:Hgi; [|reflexivity].
    destruct (existsb g idx) eqn:Hex; [|reflexivity].
    apply existsb_exists in Hex. destruct Hex as (j & Hj & Hgj).
    exfalso. apply Hnotin.
    rewrite (Huniq i j (in_eq _ _) (in_cons _ _ _ Hj) Hgi Hgj). assumption.
Qed.

(** Counts taken over pairwise disjoint selections add up to the count over
    their union. *)
Lemma count_partition {A : Type} (f : Z -> A -> bool) (idx : list Z)
    (l : list A) :
  (forall e i j, In i idx -> In j idx ->
                 f i e = true -> f j e = true -> i = j) ->
  NoDup idx ->
  sum (map (fun i => Z.of_nat (List.length (filter (f i) l))) idx)
  = Z.of_nat (List.length (filter (fun e => existsb (fun i => f i e) idx) l)).
Proof.
  intros Huniq Hnd. induction l as [|e l IH].
  - cbn [filter List.length]. induction idx as [|i idx IHi]; [reflexivity|].
    cbn [map]. rewrite sum_cons, IHi.
    + reflexivity.
    + intros; eapply Huniq; eauto using in_cons.
    + inversion Hnd; assumption.
  - transitivity
      (sum (map (fun i => b2z (f i e)
                          + Z.of_nat (List.length (filter (f i) l))) idx)).
    + f_equal. apply map_ext. intros i. cbn [filter].
      destruct (f i e); cbn [List.length b2z]; lia.
    + rewrite sum_map_add, IH, (indicator_sum (fun i => f i e));
        [|intros; eapply Huniq; eauto|assumption].
      cbn [filter]. destruct (existsb (fun i => f i e) idx);
        cbn [List.length b2z]; lia.
Qed.

Lemma filter_filter {A : Type} (f g : A -> bool) (l : list A) :
  filter f (filter g l) = filter (fun x => g x && f x) l.
Proof.
  induction l as [|x l IH]; cbn; [reflexivity|].
  destruct (g x); cbn; [destruct (f x)|]; rewrite IH; reflexivity.
Qed.

Lemma existsb_andb_r (g : Z -> bool) (b : bool) (l : list Z) :
  existsb (fun i => g i && b) l = existsb g l && b.
Proof.
  induction l as [|i l IH]; cbn [existsb]; [reflexivity|].
  rewrite IH. destruct (g i), b, (existsb g l); reflexivity.
Qed.

Lemma range7_In (i : Z) : In i (range 7) <-> 0 <= i < 7.
Proof.
  change (range 7) with [0; 1; 2; 3; 4; 5; 6]. cbn [In]. lia.
Qed.

Lemma range7_NoDup : NoDup (range 7).
Proof.
  change (range 7) with [0; 1; 2; 3; 4; 5; 6].
  repeat (constructor; [cbn [In]; lia|]). constructor.
Qed.

(** ** The claims *)

(** C1 (as amended). With [cigarettes_per_pack = 0] no summary is returned,
    so no infinite or NaN [money_saved] either: the division raises
    [ZeroDivisionError], or the quit date is refused first and its
    [ValueError] is raised; in both cases the exception leaves the handler
    unhandled instead of being reported as a configuration error. *)
Theorem C1_zero_pack_raises_unhandled
    (fromisoformat : string -> option datetime) (t1 t2 : Z) (user : User.t)
    (db_events : list Event.t) :
  User.cigarettes_per_pack user = Some 0 ->
  let r := get_progress_summary fromisoformat t1 t2 user db_events in
  reported r = false
  /\ (r = Raise ZeroDivisionError
      \/ exists qd, User.quit_date user = Some qd
                    /\ fromisoformat (quit_arg qd) = None
                    /\ r = Raise (ValueError (quit_arg qd))).
Proof.
  intros Hpack r. subst r.
  destruct (truthy (User.quit_date user)) eqn:Hq.
  - destruct (truthy_Some_inv _ Hq) as (qd & Hqd & Hne).
    destruct (fromisoformat (quit_arg qd)) as [dt|] eqn:Hp.
    + rewrite (summary_after_quit fromisoformat t1 t2 user db_events _
                 (quit_days_parsed fromisoformat t1 user qd dt Hqd Hne Hp)).
      rewrite Hpack. cbn. split; [reflexivity|left; reflexivity].
    + assert (Hr : get_progress_summary fromisoformat t1 t2 user db_events
                   = Raise (ValueError (quit_arg qd))).
      { unfold get_progress_summary. cbv zeta. rewrite Hq, Hqd. cbn [get].
        unfold parse at 1. fold (quit_arg qd). rewrite Hp. reflexivity. }
      rewrite Hr. split; [reflexivity|].
      right. exists qd. repeat split; assumption.
  - rewrite (summary_after_quit fromisoformat t1 t2 user db_events _
               (quit_days_absent fromisoformat t1 user Hq)).
    rewrite Hpack. cbn. split; [reflexivity|left; reflexivity].
Qed.

Lemma C1_zero_pack_raises_unhandled_witness :
  let r := get_progress_summary fromisoformat_ref Sample.clock Sample.clock
             (Sample.user 0 (Some "2024-03-05")) [] in
  reported r = false
  /\ (r = Raise ZeroDivisionError
      \/ exists qd, User.quit_date (Sample.user 0 (Some "2024-03-05")) = Some qd
                    /\ fromisoformat_ref (quit_arg qd) = None
                    /\ r = Raise (ValueError (quit_arg qd))).
Proof.
  exact (C1_zero_pack_raises_unhandled fromisoformat_ref Sample.clock
           Sample.clock (Sample.user 0 (Some "2024-03-05")) [] eq_refl).
Defined.

(** C1 as stated fails: for a user with [cigarettes_per_pack = 0] the
    handler does not end in a reported error but in an unhandled
    [ZeroDivisionError]. *)
Lemma C1_counterexample :
  User.cigarettes_per_pack (Sample.user 0 (Some "2024-03-05")) = Some 0
  /\ get_progress_summary fromisoformat_ref Sample.clock Sample.clock
       (Sample.user 0 (Some "2024-03-05")) [] = Raise ZeroDivisionError
  /\ ~ (exists status detail,
          get_progress_summary fromisoformat_ref Sample.clock Sample.clock
            (Sample.user 0 (Some "2024-03-05")) []
          = Raise (HTTPException status detail)).
Proof.
  split; [reflexivity|]. split; [reflexivity|].
  intros (status & detail & H). vm_compute in H. discriminate H.
Qed.

(** C2 (as amended). When the summary is returned: without any cigarette
    event of the user, [current_streak] equals [days_smoke_free]; with one,
    it is the whole days from the most recent cigarette event to the clock,
    rounded down and floored at 0, whatever the quit date is.  The most
    recent event is the one the store ranks first, the cigarette event with
    the greatest [created_at]; among timestamps written as aware-UTC
    [isoformat] it is the latest instant. *)
Theorem C2_current_streak
    (fromisoformat : string -> option datetime) (t1 t2 : Z) (user : User.t)
    (db_events : list Event.t) (s : Summary) :
  get_progress_summary fromisoformat t1 t2 user db_events = Ok s ->
  ((forall e, In e db_events -> is_cigarette_of user e = false) ->
   current_streak s = days_smoke_free s)
  /\ ((exists e, In e db_events /\ is_cigarette_of user e = true) ->
      exists e0 dt,
        In e0 db_events
        /\ is_cigarette_of user e0 = true
        /\ (forall e, In e db_events -> is_cigarette_of user e = true ->
              (Event.created_at e <=? Event.created_at e0)%string = true)
        /\ (forall e d d0,
              In e db_events -> is_cigarette_of user e = true ->
              utc_datetime d -> utc_datetime d0 ->
              Event.created_at e = isoformat d ->
              Event.created_at e0 = isoformat d0 ->
              wall d <= wall d0)
        /\ fromisoformat (replace_Z (Event.created_at e0)) = Some dt
        /\ current_streak s = Z.max 0 (whole_days_elapsed dt t2)).
Proof.
  intros H.
  destruct (summary_Ok_inv _ _ _ _ _ _ H)
    as (dsf & cs & cpc & _ & _ & _ & Hst & ->).
  unfold streak_days in Hst. split.
  - intros Hnone. rewrite (proj2 (last_cigarettes_nil _ _) Hnone) in Hst.
    subst cs. reflexivity.
  - intros (e & He & Hc).
    destruct (last_cigarettes user db_events) as [|e0 rest] eqn:Hl.
    + pose proof (proj1 (last_cigarettes_nil _ _) Hl) as Hn.
      rewrite (Hn e He) in Hc. discriminate.
    + destruct Hst as (dt & Hp & ->).
      destruct (last_cigarettes_head _ _ _ _ Hl) as (Hin & Hc0 & Hmax).
      exists e0, dt. repeat split; try assumption.
      intros e' d d0 He' Hc' Hd Hd0 Hed Hed0.
      specialize (Hmax e' He' Hc'). rewrite Hed, Hed0 in Hmax.
      rewrite (isoformat_leb d d0 Hd Hd0) in Hmax.
      apply Z.leb_le. assumption.
Qed.

(** C2 on a log with two cigarette events, the later one two days old. *)
Lemma C2_current_streak_witness :
  exists s e0 dt,
    get_progress_summary fromisoformat_ref Sample.clock Sample.clock
      (Sample.user 20 (Some "2024-03-05"))
      [Sample.event "cigarette" "2024-03-11T10:00:00+00:00";
       Sample.event "urge" "2024-03-15T09:00:00+00:00";
       Sample.event "cigarette" "2024-03-13T10:00:00+00:00"] = Ok s
    /\ fromisoformat_ref (replace_Z (Event.created_at e0)) = Some dt
    /\ current_streak s = Z.max 0 (whole_days_elapsed dt Sample.clock).
Proof.
  eexists.
  destruct (C2_current_streak fromisoformat_ref Sample.clock Sample.clock
              (Sample.user 20 (Some "2024-03-05"))
              [Sample.event "cigarette" "2024-03-11T10:00:00+00:00";
               Sample.event "urge" "2024-03-15T09:00:00+00:00";
               Sample.event "cigarette" "2024-03-13T10:00:00+00:00"]
              _ eq_refl) as (_ & Hsome).
  destruct Hsome as (e0 & dt & _ & _ & _ & _ & Hp & Hs).
  - exists (Sample.event "cigarette" "2024-03-11T10:00:00+00:00").
    split; [left; reflexivity|reflexivity].
  - exists e0, dt. split; [reflexivity|]. split; assumption.
Defined.

(** C2 as stated fails: the only cigarette event is dated two days after
    the clock reading, the whole days from it to the clock are [-2], the
    handler returns a streak of [0]. *)
Lemma C2_counterexample :
  fromisoformat_ref (replace_Z "2024-03-17T10:00:00+00:00")
    = Some {| wall := 63846266400000000; tzinfo := Some 0 |}
  /\ whole_days_elapsed {| wall := 63846266400000000; tzinfo := Some 0 |}
       Sample.clock = -2
  /\ exists s,
       get_progress_summary fromisoformat_ref Sample.clock Sample.clock
         (Sample.user 20 (Some "2024-03-05"))
         [Sample.event "cigarette" "2024-03-17T10:00:00+00:00"] = Ok s
       /\ current_streak s = 0
       /\ current_streak s <> -2.
Proof.
  split; [reflexivity|]. split; [reflexivity|].
  eexists. split; [reflexivity|]. split; [reflexivity|]. discriminate.
Qed.




(** C4. Whenever [get_progress_summary] returns, each of [days_smoke_free],
    [current_streak], [cigarettes_avoided] and [money_saved] is at least 0,
    whatever the quit date and the events (a quit date in the future and
    events newer than the clock included): negative intermediate values are
    clamped. *)
Theorem C4_counters_nonnegative
    (fromisoformat : string -> option datetime) (t1 t2 : Z) (user : User.t)
    (db_events : list Event.t) (s : Summary) :
  get_progress_summary fromisoformat t1 t2 user db_events = Ok s ->
  0 <= days_smoke_free s
  /\ 0 <= current_streak s
  /\ 0 <= cigarettes_avoided s
  /\ (0 <= money_saved s)%Q.
Proof.
  intros H.
  destruct (summary_Ok_inv _ _ _ _ _ _ H) as (dsf & cs & cpc & _ & _ & _ & _ & ->).
  unfold summary_of; cbn.
  repeat split; try apply Z.le_max_l.
  apply round2_nonneg, max0_nonneg.
Qed.

(** C4 on a user whose quit date lies five days ahead of the clock and
    whose last cigarette is dated two days ahead. *)
Lemma C4_counters_nonnegative_witness :
  exists s,
    get_progress_summary fromisoformat_ref Sample.clock Sample.clock
      (Sample.user 20 (Some "2024-03-20"))
      [Sample.event "cigarette" "2024-03-17T10:00:00+00:00"] = Ok s
    /\ 0 <= days_smoke_free s /\ 0 <= current_streak s
    /\ 0 <= cigarettes_avoided s /\ (0 <= money_saved s)%Q.
Proof.
  eexists. split; [reflexivity|].
  exact (C4_counters_nonnegative fromisoformat_ref Sample.clock Sample.clock
           (Sample.user 20 (Some "2024-03-20"))
           [Sample.event "cigarette" "2024-03-17T10:00:00+00:00"]
           _ eq_refl).
Defined.

(** C5 (as amended). When no day window holds more than 1000 events of the
    user, the [cigarettes] counts of the 7 buckets add up to the number of
    cigarette events of the user that fall in one of the 7 day windows, each
    counted once; on a log whose [created_at] were written the way
    [create_event] writes them, these are the events from the start of the
    oldest day to the end of today. *)
Theorem C5_daily_cigarettes_sum (t : Z) (user : User.t)
    (db_events : list Event.t) :
  clock_ok 6 t ->
  within_cap t user db_events ->
  sum (map d_cigarettes (get_weekly_progress t user db_events))
    = tally "cigarette" (filter (in_some_day t user) db_events)
  /\ (well_formed_log db_events ->
      filter (in_some_day t user) db_events
      = filter (in_week t user) db_events).
Proof.
  intros Ht Hcap. split.
  - enough (Hm : map d_cigarettes (get_weekly_progress t user db_events)
                 = map (fun i =>
                          Z.of_nat (List.length
                            (filter (fun e => in_day t user i e
                                              && has_type "cigarette" e)
                               db_events))) (range 7)).
    { rewrite Hm.
      rewrite (count_partition
                 (fun i e => in_day t user i e && has_type "cigarette" e)).
      - unfold tally. rewrite filter_filter. f_equal. f_equal.
        apply filter_ext. intros e. unfold in_some_day.
        apply existsb_andb_r.
      - intros e i j Hi Hj Hie Hje.
        apply andb_true_iff in Hie, Hje.
        apply range7_In in Hi, Hj.
        apply (in_day_unique t user e i j Ht Hi Hj); tauto.
      - apply range7_NoDup. }
    unfold get_weekly_progress. cbv zeta. rewrite fold_append_map.
    cbn [app]. rewrite map_map. apply map_ext_in. intros i Hi.
    apply range7_In in Hi.
    unfold day_bucket. cbn [d_cigarettes].
    rewrite count_type_tally, events_between_eq. unfold tally.
    fold (day_lo t i) (day_hi t i). fold (in_day t user i).
    unfold to_list. rewrite firstn_all2 by (apply Hcap; assumption).
    rewrite filter_filter. reflexivity.
  - intros Hwf. apply filter_ext_in. intros e He.
    destruct (Hwf e He) as (dt & Hdt & Hc).
    apply (in_some_day_wf t user dt e Ht Hdt Hc).
Qed.

Lemma C5_daily_cigarettes_sum_witness :
  let db :=
    [Sample.event "cigarette" "2024-03-09T00:00:00+00:00";
     Sample.event "urge" "2024-03-12T09:00:00+00:00";
     Sample.event "cigarette" "2024-03-12T23:59:59.999999+00:00";
     Sample.event "cigarette" "2024-03-08T23:59:59.999999+00:00";
     Sample.event "cigarette" "2024-03-15T12:30:05.000250+00:00"] in
  let u := Sample.user 20 (Some "2024-03-05") in
  sum (map d_cigarettes (get_weekly_progress Sample.clock u db))
    = tally "cigarette" (filter (in_some_day Sample.clock u) db)
  /\ (well_formed_log db ->
      filter (in_some_day Sample.clock u) db
      = filter (in_week Sample.clock u) db).
Proof.
  apply (C5_daily_cigarettes_sum Sample.clock
           (Sample.user 20 (Some "2024-03-05"))).
  - unfold clock_ok. vm_compute. split; [discriminate|reflexivity].
  - intros i Hi.
    assert (Hc : i = 0 \/ i = 1 \/ i = 2 \/ i = 3 \/ i = 4 \/ i = 5 \/ i = 6)
      by lia.
    apply Nat.leb_le.
    destruct Hc as [-> | [-> | [-> | [-> | [-> | [-> | ->]]]]]];
      vm_compute; reflexivity.
Defined.

(** C5 as stated fails: on a well-formed log with 1001 cigarette events of
    the user logged today, the 7 buckets add up to 1000. *)
Lemma C5_counterexample :
  let db :=
    repeat (Sample.event "cigarette" "2024-03-15T08:00:00+00:00") 1001 in
  let u := Sample.user 20 (Some "2024-03-05") in
  well_formed_log db
  /\ sum (map d_cigarettes (get_weekly_progress Sample.clock u db)) = 1000
  /\ tally "cigarette" (filter (in_week Sample.clock u) db) = 1001
  /\ tally "cigarette" (filter (in_some_day Sample.clock u) db) = 1001.
Proof.
  cbv zeta. split.
  - intros e He. apply repeat_spec in He. subst e.
    exists {| wall := 63846086400000000; tzinfo := Some 0 |}.
    split; [|reflexivity]. split; [reflexivity|].
    vm_compute. split; [discriminate|reflexivity].
  - vm_compute. repeat split; reflexivity.
Qed.

(** C6 (as amended). [get_weekly_progress] returns exactly 7 buckets, oldest
    first: bucket [i] (from 0) is that of the calendar day [6 - i] days
    before today, so the dates are 7 consecutive days ending today; its
    window goes from that day's [T00:00:00+00:00] to its
    [T23:59:59.999999+00:00], both ends included, and its three counts are
    taken over the first 1000 events of the user the store returns for that
    window. *)
Theorem C6_daily_buckets (t : Z) (user : User.t) (db_events : list Event.t) :
  get_weekly_progress t user db_events
    = map (day_bucket_spec t user db_events) [0; 1; 2; 3; 4; 5; 6]
  /\ List.length (get_weekly_progress t user db_events) = 7%nat
  /\ forall i,
       toordinal (sub_td (now_utc t) (days (6 - i)))
       = toordinal (now_utc t) - 6 + i.
Proof.
  assert (H : get_weekly_progress t user db_events
              = map (day_bucket_spec t user db_events) [0; 1; 2; 3; 4; 5; 6]).
  { unfold get_weekly_progress. cbv zeta. rewrite fold_append_map.
    cbn [app]. change (range 7) with [0; 1; 2; 3; 4; 5; 6].
    apply map_ext. intros i. apply day_bucket_eq. }
  split; [exact H|]. split.
  - rewrite H. reflexivity.
  - intros i. rewrite toordinal_sub_days. lia.
Qed.

(** C6 as stated fails: with 1001 cigarette events of the user logged
    today, today's bucket reports 1000. *)
Lemma C6_counterexample :
  let db :=
    repeat (Sample.event "cigarette" "2024-03-15T08:00:00+00:00") 1001 in
  let u := Sample.user 20 (Some "2024-03-05") in
  map d_cigarettes (get_weekly_progress Sample.clock u db)
    = [0; 0; 0; 0; 0; 0; 1000]
  /\ tally "cigarette" (filter (in_day Sample.clock u 6) db) = 1001.
Proof. vm_compute. split; reflexivity. Qed.

(** C7 (as amended). [get_monthly_progress] returns exactly 4 buckets,
    oldest first, labelled [Week 1] to [Week 4]; the bucket labelled
    [Week (4 - i)] has the window from [now - (i+1)*7 days] to
    [now - i*7 days], both ends included, and its three counts are taken
    over the first 1000 events of the user the store returns for that
    window. *)
Theorem C7_weekly_buckets (t : Z) (user : User.t) (db_events : list Event.t) :
  get_monthly_progress t user db_events
    = [week_bucket_spec t user db_events "Week 1" 3;
       week_bucket_spec t user db_events "Week 2" 2;
       week_bucket_spec t user db_events "Week 3" 1;
       week_bucket_spec t user db_events "Week 4" 0]
  /\ List.length (get_monthly_progress t user db_events) = 4%nat.
Proof.
  assert (H : get_monthly_progress t user db_events
    = [week_bucket_spec t user db_events "Week 1" 3;
       week_bucket_spec t user db_events "Week 2" 2;
       week_bucket_spec t user db_events "Week 3" 1;
       week_bucket_spec t user db_events "Week 4" 0]).
  { unfold get_monthly_progress. cbv zeta. rewrite fold_append_map.
    cbn [app]. change (range 4) with [0; 1; 2; 3].
    cbn [map rev app]. rewrite !week_bucket_eq. reflexivity. }
  split; [exact H|]. rewrite H. reflexivity.
Qed.

(** C7 as stated fails: with 1001 cigarette events of the user in the last
    seven days, the bucket of the most recent week reports 1000. *)
Lemma C7_counterexample :
  let db :=
    repeat (Sample.event "cigarette" "2024-03-12T08:00:00+00:00") 1001 in
  let u := Sample.user 20 (Some "2024-03-05") in
  map w_cigarettes (get_monthly_progress Sample.clock u db) = [0; 0; 0; 1000]
  /\ tally "cigarette"
       (filter (in_window u
                  (isoformat (now_utc (Sample.clock - 7 * US_PER_DAY)))
                  (isoformat (now_utc Sample.clock))) db) = 1001.
Proof. vm_compute. split; reflexivity. Qed.




(** C9 (as amended). [get_trigger_patterns] reads at most the first 1000
    trigger documents of the user, without any time filter, and on those:
    [total_triggers] is their number; [by_type] holds each type that occurs
    once, with its number of occurrences; the types are ranked by
    descending count, [most_common] being the first of the ranking (none
    exactly when nothing was read) and a type of greatest count,
    [top_triggers] its first five entries. *)
Theorem C9_trigger_patterns (user : User.t) (db_triggers : list Trigger.t) :
  let triggers := triggers_read user db_triggers in
  let p := get_trigger_patterns user db_triggers in
  (List.length triggers <= 1000)%nat
  /\ (exists others, triggers_of user db_triggers = (triggers ++ others)%list)
  /\ total_triggers p = Z.of_nat (List.length triggers)
  /\ NoDup (map fst (by_type p))
  /\ (forall ty n,
        In (ty, n) (by_type p) <-> 0 < n /\ n = occurrences ty triggers)
  /\ (exists ranking,
        Permutation ranking (by_type p)
        /\ StronglySorted ge_count ranking
        /\ most_common p = hd_error (map fst ranking)
        /\ top_triggers p = firstn 5 ranking)
  /\ (forall ty, most_common p = Some ty ->
        forall ty', occurrences ty' triggers <= occurrences ty triggers)
  /\ (most_common p = None <-> triggers = [])
  /\ (triggers = [] ->
        total_triggers p = 0 /\ by_type p = [] /\ top_triggers p = []).
Proof.
  intros triggers p.
  assert (Hby : by_type p = count_types triggers []) by reflexivity.
  assert (Hrank : exists ranking,
            ranking = sorted_by_count_desc (by_type p)
            /\ most_common p = hd_error (map fst ranking)
            /\ top_triggers p = firstn 5 ranking).
  { eexists. split; [reflexivity|]. split; [|reflexivity].
    subst p. unfold get_trigger_patterns. cbn [most_common by_type].
    destruct (sorted_by_count_desc _); reflexivity. }
  destruct Hrank as (ranking & Hr & Hmc & Htop).
  pose proof (sorted_by_count_perm (by_type p)) as Hperm.
  pose proof (sorted_by_count_sorted (by_type p)) as Hsorted.
  rewrite <- Hr in Hperm, Hsorted.
  assert (HIn : forall ty n,
            In (ty, n) (by_type p) <-> 0 < n /\ n = occurrences ty triggers).
  { intros ty n. rewrite Hby. apply count_types_In. }
  split.
  { subst triggers. unfold triggers_read, to_list. apply firstn_le_length. }
  split.
  { exists (skipn 1000 (triggers_of user db_triggers)).
    subst triggers. unfold triggers_read, to_list, find, triggers_of.
    symmetry. apply firstn_skipn. }
  split; [reflexivity|].
  split; [rewrite Hby; apply count_types_keys; constructor|].
  split; [exact HIn|].
  split; [exists ranking; repeat split; assumption|].
  split.
  { intros ty Hty ty'. rewrite Hmc in Hty.
    destruct ranking as [|[k n] rest]; [discriminate|].
    cbn [map hd_error fst] in Hty. injection Hty as ->.
    assert (Hhead : In (ty, n) (by_type p))
      by (eapply Permutation_in; [exact Hperm|left; reflexivity]).
    apply HIn in Hhead. destruct Hhead as (Hpos & Hn).
    pose proof (occurrences_nonneg ty' triggers) as Hnn.
    destruct (Z.eq_dec (occurrences ty' triggers) 0) as [Hz | Hnz]; [lia|].
    assert (Hin' : In (ty', occurrences ty' triggers) (by_type p))
      by (apply HIn; split; [lia|reflexivity]).
    apply (Permutation_in _ (Permutation_sym Hperm)) in Hin'.
    destruct Hin' as [[= _ <-] | Hin']; [lia|].
    inversion Hsorted as [|? ? _ Hall]; subst.
    rewrite Forall_forall in Hall. specialize (Hall _ Hin').
    unfold ge_count in Hall. cbn [snd] in Hall. lia. }
  assert (Hnil : triggers = [] -> by_type p = []).
  { intros Ht. rewrite Hby, Ht. reflexivity. }
  split.
  { rewrite Hmc. split.
    - intros Hnone.
      destruct ranking as [|x rest]; [|discriminate].
      apply Permutation_nil in Hperm.
      destruct triggers as [|t ts] eqn:Ht; [reflexivity|exfalso].
      assert (Hin : In (Trigger.trigger_type t,
                        occurrences (Trigger.trigger_type t) (t :: ts))
                      (by_type p)).
      { apply HIn. split; [|reflexivity].
        unfold occurrences. cbn [map].
        rewrite (count_occ_cons_eq string_dec _ eq_refl). lia. }
      rewrite Hperm in Hin. destruct Hin.
    - intros Ht. apply Hnil in Ht. rewrite Ht in Hperm.
      apply Permutation_sym, Permutation_nil in Hperm. rewrite Hperm.
      reflexivity. }
  intros Ht. split; [|split].
  - change (total_triggers p) with (Z.of_nat (List.length triggers)).
    rewrite Ht. reflexivity.
  - apply Hnil, Ht.
  - rewrite Htop. pose proof (Hnil Ht) as Hb. rewrite Hb in Hperm.
    apply Permutation_sym, Permutation_nil in Hperm. rewrite Hperm.
    reflexivity.
Qed.

(** C9 as stated fails: with 1001 trigger documents of the user the
    handler reports [total_triggers = 1000] and a count of 1000 for the
    type. *)
Lemma C9_counterexample :
  let db := repeat (Sample.trigger "stress") 1001 in
  List.length (triggers_of (Sample.user 20 None) db) = 1001%nat
  /\ total_triggers (get_trigger_patterns (Sample.user 20 None) db) = 1000
  /\ by_type (get_trigger_patterns (Sample.user 20 None) db)
     = [("stress", 1000)].
Proof. vm_compute. repeat split; reflexivity. Qed.

(** C10 (as amended). The document stored for a new account, by [register]
    or by [telegram_auth], carries a quit date that is neither absent nor
    empty: the one the client sent, or the UTC calendar date of the clock
    when none (or an empty one) was sent.  A later [update_profile] never
    makes it absent; it can make it empty. *)
Theorem C10_created_account_has_quit_date
    (t : Z) (users : list User.t) (given : option string) (u : User.t) :
  created_by t users given u ->
  User.quit_date u
    = Some (if truthy given then get given "" else strftime_Ymd (now_utc t))
  /\ truthy (User.quit_date u) = true
  /\ forall profile_data,
       User.quit_date (snd (update_profile profile_data u users)) <> None.
Proof.
  intros Hc.
  assert (Hq : User.quit_date u
               = Some (if truthy given then get given ""
                       else strftime_Ymd (now_utc t))
               /\ truthy (User.quit_date u) = true).
  { destruct Hc as [ud uuid hashed users' u Hr | ad uuid Hnone].
    - unfold register in Hr.
      destruct (find_one _ users); [discriminate|].
      injection Hr as _ <-. cbn [User.quit_date].
      rewrite slice_isoformat.
      destruct (or_else_truthy (uc_quit_date ud) (strftime_Ymd (now_utc t))
                  (strftime_Ymd_nonempty _)) as (-> & Hne).
      split; [reflexivity|].
      apply truthy_Some.
      destruct (or_else_truthy (uc_quit_date ud) (strftime_Ymd (now_utc t))
                  (strftime_Ymd_nonempty _)) as (<- & Hne').
      assumption.
    - unfold telegram_auth. rewrite Hnone. cbn [snd User.quit_date truthy].
      rewrite slice_isoformat. split; [reflexivity|].
      apply truthy_Some, strftime_Ymd_nonempty. }
  destruct Hq as (Hq & Ht). repeat split; try assumption.
  intros pd. cbn [snd update_profile apply_update User.quit_date].
  destruct (pu_quit_date pd); [discriminate|]. rewrite Hq. discriminate.
Qed.

Lemma C10_created_account_has_quit_date_witness :
  User.quit_date Sample.registered = Some (strftime_Ymd (now_utc Sample.clock))
  /\ truthy (User.quit_date Sample.registered) = true
  /\ forall profile_data,
       User.quit_date (snd (update_profile profile_data Sample.registered []))
       <> None.
Proof.
  exact (C10_created_account_has_quit_date Sample.clock [] None
           Sample.registered
           (created_register Sample.clock [] (Sample.signup None) "u1"
              "$2b$12$hash" [Sample.registered] Sample.registered eq_refl)).
Defined.

(** C10 as stated fails: an account made by [register] whose profile is
    then updated with an empty quit date reaches the fallback; a month later
    its summary reports [days_smoke_free = 0]. *)
Lemma C10_counterexample :
  created_by Sample.clock [] None Sample.registered
  /\ let u := snd (update_profile Sample.clear_quit_date Sample.registered
                     [Sample.registered]) in
     User.quit_date u = Some ""
     /\ truthy (User.quit_date u) = false
     /\ exists s,
          get_progress_summary fromisoformat_ref
            (Sample.clock + days 30) (Sample.clock + days 30) u [] = Ok s
          /\ days_smoke_free s = 0.
Proof.
  split.
  - exact (created_register Sample.clock [] (Sample.signup None) "u1"
             "$2b$12$hash" [Sample.registered] Sample.registered eq_refl).
  - cbv zeta. split; [reflexivity|]. split; [reflexivity|].
    eexists. split; reflexivity.
Qed.

(** ** Further properties: authentication *)

Lemma prefix_app (p s : string) :
  prefix p s = true -> exists r, s = (p ++ r)%string.
Proof.
  revert s. induction p as [|a p IH]; intros s H.
  - exists s. reflexivity.
  - destruct s as [|b s]; cbn in H; [discriminate|].
    destruct (ascii_dec a b) as [<- | _]; [|discriminate].
    destruct (IH s H) as (r & ->). exists r. reflexivity.
Qed.

Lemma prefix_append (p r : string) : prefix p (p ++ r) = true.
Proof.
  induction p as [|a p IH]; cbn.
  - destruct r; reflexivity.
  - destruct (ascii_dec a a) as [_|Hn]; [exact IH|contradiction].
Qed.

Lemma split_space_nonempty (s : string) : split_space s <> [].
Proof.
  induction s as [|c s IH]; cbn; [discriminate|].
  destruct (c =? " ")%char; [discriminate|].
  destruct (split_space s); discriminate.
Qed.

Lemma split_space_cons (c : ascii) (s : string) :
  (c =? " ")%char = false ->
  split_space (String c s)
  = String c (hd "" (split_space s)) :: tl (split_space s).
Proof.
  intros Hc. cbn [split_space]. rewrite Hc.
  pose proof (split_space_nonempty s) as Hn.
  destruct (split_space s); [contradiction|reflexivity].
Qed.

(** After the [startswith] test, [split(" ")[1]] is the text between the
    first space and the next one. *)
Lemma bearer_split (r : string) :
  split_space ("Bearer " ++ r) = "Bearer" :: split_space r.
Proof.
  cbn [append].
  rewrite !split_space_cons by reflexivity.
  cbn [split_space]. cbn. reflexivity.
Qed.

Lemma split_space_head (tok rest : string) :
  no_space tok = true ->
  rest = "" \/ (exists junk, rest = String " " junk) ->
  hd "" (split_space (tok ++ rest)) = tok.
Proof.
  intros Hns Hrest. induction tok as [|c tok IH].
  - cbn [append]. destruct Hrest as [-> | (junk & ->)]; reflexivity.
  - cbn [no_space] in Hns. apply andb_true_iff in Hns.
    destruct Hns as [Hc Hns]. apply negb_true_iff in Hc.
    cbn [append]. rewrite split_space_cons by exact Hc.
    cbn [hd]. rewrite (IH Hns). reflexivity.
Qed.

Section AuthenticationFacts.

Variable jwt_decode : string -> jwt_result.
Variable verify_password : string -> string -> bool.

Lemma user_of_token_outcome (token : string) (users : list User.t) :
  match user_of_token jwt_decode token users with
  | Return u => In u users /\ jwt_decode token = Payload (Some (User.id u))
  | Throw e => exists detail, e = HTTP 401 detail
  end.
Proof.
  unfold user_of_token.
  destruct (jwt_decode token) as [sub| |] eqn:Hj;
    try (eexists; reflexivity).
  destruct sub as [sub|]; cbn [truthy negb]; [|eexists; reflexivity].
  destruct (String.eqb_spec sub ""); cbn [negb]; [eexists; reflexivity|].
  cbn [get].
  destruct (find_one _ users) as [u|] eqn:Hf; [|eexists; reflexivity].
  apply find_some in Hf. destruct Hf as (Hin & Hid).
  apply String.eqb_eq in Hid. subst sub. split; [assumption|reflexivity].
Qed.

End AuthenticationFacts.

(** X1. [get_current_user] lets nothing escape but an [HTTPException] with
    status 401, whatever the header and whatever the JWT library answers
    (the index into the split header never fails); when it returns, the
    account is a stored one and its id is the [sub] of the token that
    follows [Bearer ]. *)
Theorem get_current_user_outcome (jwt_decode : string -> jwt_result)
    (authorization : option string) (users : list User.t) :
  match get_current_user jwt_decode authorization users with
  | Return u =>
      In u users
      /\ exists rest token,
           authorization = Some ("Bearer " ++ rest)
           /\ hd_error (split_space rest) = Some token
           /\ jwt_decode token = Payload (Some (User.id u))
  | Throw e => exists detail, e = HTTP 401 detail
  end.
Proof.
  unfold get_current_user.
  destruct authorization as [h|]; cbn [truthy negb orb get];
    [|eexists; reflexivity].
  destruct (String.eqb_spec h ""); cbn [negb orb]; [eexists; reflexivity|].
  destruct (prefix "Bearer " h) eqn:Hp; cbn [negb]; [|eexists; reflexivity].
  destruct (prefix_app _ _ Hp) as (rest & ->).
  rewrite bearer_split. unfold index. cbn [nth_error].
  pose proof (split_space_nonempty rest) as Hne.
  destruct (split_space rest) as [|token ws] eqn:Hs; [contradiction|].
  cbn [and_then].
  pose proof (user_of_token_outcome jwt_decode token users) as H.
  destruct (user_of_token jwt_decode token users) as [u|e]; [|exact H].
  destruct H as (Hin & Hj). split; [assumption|].
  exists rest, token. rewrite Hs. repeat split; assumption.
Qed.

(** X2. The token handed to the JWT library is the text between [Bearer ]
    and the next space: whatever follows a second space is ignored. *)
Theorem get_current_user_token (jwt_decode : string -> jwt_result)
    (tok rest : string) (users : list User.t) :
  no_space tok = true ->
  rest = "" \/ (exists junk, rest = String " " junk) ->
  get_current_user jwt_decode (Some ("Bearer " ++ tok ++ rest)) users
  = user_of_token jwt_decode tok users.
Proof.
  intros Hns Hrest. unfold get_current_user.
  cbn [truthy get]. rewrite prefix_append.
  replace (("Bearer " ++ tok ++ rest) =? "")%string with false by reflexivity.
  cbn [negb orb].
  rewrite bearer_split. unfold index. cbn [nth_error].
  pose proof (split_space_head tok rest Hns Hrest) as Hh.
  pose proof (split_space_nonempty (tok ++ rest)) as Hne.
  destruct (split_space (tok ++ rest)) as [|w ws]; [contradiction|].
  cbn [hd] in Hh. subst w. reflexivity.
Qed.

Lemma get_current_user_token_witness :
  get_current_user
    (fun token => if (token =? "abc.def.ghi")%string
                  then Payload (Some "u1") else InvalidTokenError)
    (Some ("Bearer " ++ "abc.def.ghi" ++ " trailing text"))
    [Sample.user 20 None]
  = user_of_token
      (fun token => if (token =? "abc.def.ghi")%string
                    then Payload (Some "u1") else InvalidTokenError)
      "abc.def.ghi" [Sample.user 20 None].
Proof.
  apply get_current_user_token.
  - reflexivity.
  - right. eexists. reflexivity.
Defined.

(** ** Further properties: accounts *)

Lemma present_app {A B : Type} (field : A -> option B) (l1 l2 : list A) :
  present field (l1 ++ l2) = (present field l1 ++ present field l2)%list.
Proof.
  induction l1 as [|d l1 IH]; cbn; [reflexivity|].
  destruct (field d); cbn; rewrite IH; reflexivity.
Qed.

Lemma present_In {A B : Type} (field : A -> option B) (l : list A) (b : B) :
  In b (present field l) <-> exists d, In d l /\ field d = Some b.
Proof.
  induction l as [|d l IH]; cbn.
  - split; [intros []|intros (d & [] & _)].
  - destruct (field d) as [b'|] eqn:Hf; cbn; rewrite IH; split.
    + intros [-> | (d' & Hin & Hd')]; [exists d; auto|exists d'; auto].
    + intros (d' & [<- | Hin] & Hd'); [left; congruence|right; exists d'; auto].
    + intros (d' & Hin & Hd'). exists d'. auto.
    + intros (d' & [<- | Hin] & Hd'); [congruence|exists d'; auto].
Qed.

Lemma update_one_map {A B : Type} (f : A -> B) (query : A -> bool)
    (set : A -> A) (l : list A) :
  (forall d, f (set d) = f d) ->
  map f (update_one query set l) = map f l.
Proof.
  intros Hf. induction l as [|d l IH]; cbn; [reflexivity|].
  destruct (query d); cbn; [rewrite Hf|rewrite IH]; reflexivity.
Qed.

Lemma update_one_present {A B : Type} (f : A -> option B) (query : A -> bool)
    (set : A -> A) (l : list A) :
  (forall d, f (set d) = f d) ->
  present f (update_one query set l) = present f l.
Proof.
  intros Hf. induction l as [|d l IH]; cbn; [reflexivity|].
  destruct (query d); cbn; [rewrite Hf; reflexivity|].
  rewrite IH. reflexivity.
Qed.

Lemma update_one_Forall {A : Type} (P : A -> Prop) (query : A -> bool)
    (set : A -> A) (l : list A) :
  (forall d, P d -> P (set d)) ->
  Forall P l -> Forall P (update_one query set l).
Proof.
  intros HP. induction 1 as [|d l Hd Hl IH]; cbn; [constructor|].
  destruct (query d); constructor; auto.
Qed.

Lemma update_one_In {A : Type} (query : A -> bool) (set : A -> A)
    (l : list A) (d : A) :
  In d l -> In d (update_one query set l) \/ In (set d) (update_one query set l).
Proof.
  induction l as [|x l IH]; cbn; [intros []|].
  intros [<- | Hin]; destruct (query x) eqn:Hq; cbn; auto.
  destruct (IH Hin); auto.
Qed.

(** With distinct keys, the first match is the only one. *)
Lemma update_one_unique {A : Type} (key : A -> string) (set : A -> A)
    (l : list A) (d : A) :
  NoDup (map key l) -> In d l ->
  (forall x, key (set x) = key x) ->
  find_one (fun x => (key x =? key d)%string)
    (update_one (fun x => (key x =? key d)%string) set l) = Some (set d)
  /\ forall x, In x l -> key x <> key d ->
       In x (update_one (fun x => (key x =? key d)%string) set l).
Proof.
  intros Hnd Hin Hset. induction l as [|x l IH]; [destruct Hin|].
  cbn [map] in Hnd. inversion Hnd as [|? ? Hnotin Hnd']; subst.
  cbn [update_one]. destruct (String.eqb_spec (key x) (key d)) as [He | Hne].
  - assert (x = d) as ->.
    { destruct Hin as [-> | Hin]; [reflexivity|].
      exfalso. apply Hnotin. rewrite He. apply in_map. assumption. }
    split.
    + unfold find_one. cbn [List.find]. rewrite Hset, String.eqb_refl.
      reflexivity.
    + intros y [<- | Hy] Hk; [contradiction|right; assumption].
  - destruct Hin as [-> | Hin]; [contradiction|].
    destruct (IH Hnd' Hin) as (Hf & Hothers). split.
    + unfold find_one. cbn [List.find].
      destruct (String.eqb_spec (key x) (key d)); [contradiction|exact Hf].
    + intros y [<- | Hy] Hk; [left; reflexivity|right; auto].
Qed.

Lemma find_one_app_new {A : Type} (query : A -> bool) (l : list A) (d : A) :
  find_one query l = None -> query d = true ->
  find_one query (l ++ [d]) = Some d.
Proof.
  unfold find_one. induction l as [|x l IH]; cbn; intros Hn Hq.
  - rewrite Hq. reflexivity.
  - destruct (query x); [discriminate|]. apply IH; assumption.
Qed.

Lemma find_one_app_old {A : Type} (query : A -> bool) (l1 l2 : list A) (d : A) :
  find_one query l1 = Some d -> find_one query (l1 ++ l2) = Some d.
Proof.
  unfold find_one. induction l1 as [|x l IH]; cbn; [discriminate|].
  destruct (query x); auto.
Qed.

Section AccountsFacts.

Variable new_StripeCheckout : string -> StripeCheckout.

(** What a status check does to the users collection. *)
Lemma status_users (session_id : string) (t1 t2 : Z) (u : User.t)
    (transactions : list Transaction.t) (users : list User.t) :
  let users' :=
    snd (fst (get_checkout_status new_StripeCheckout session_id t1 t2 u
                transactions users)) in
  users' = users
  \/ exists e,
       users' = update_one (fun x => (User.id x =? User.id u)%string)
                  (set_premium e) users.
Proof.
  unfold get_checkout_status. cbv zeta.
  destruct (get_checkout_status_of _ session_id) as [status|e];
    [|left; reflexivity].
  destruct (find_one _ transactions) as [tx|]; [|left; reflexivity].
  destruct (_ && _); [|left; reflexivity].
  destruct (plus _ _) as [e|]; [|left; reflexivity].
  right. eexists. reflexivity.
Qed.

Lemma step_invariant (users users' : list User.t) :
  step new_StripeCheckout users users' ->
  accounts_invariant users -> accounts_invariant users'.
Proof.
  intros Hstep (Hid & Hem & Htg & Hpw).
  assert (Hupd : forall query set,
            (forall d, User.id (set d) = User.id d) ->
            (forall d, User.email (set d) = User.email d) ->
            (forall d, User.telegram_id (set d) = User.telegram_id d) ->
            (forall d, User.password_hash (set d) = User.password_hash d) ->
            accounts_invariant (update_one query set users)).
  { intros query set H1 H2 H3 H4. unfold accounts_invariant.
    rewrite (update_one_map User.id), !update_one_present by assumption.
    repeat split; try assumption.
    apply update_one_Forall; [|assumption].
    intros d Hd. rewrite H2, H4. assumption. }
  destruct Hstep as [ud uuid hashed t users' u Hfresh Hreg
                    | ad uuid t Hfresh | pd u Hin | sid t1 t2 u txs Hin].
  - unfold register in Hreg.
    destruct (find_one _ users) eqn:Hfind; [discriminate|].
    injection Hreg as <- <-. unfold insert_one, accounts_invariant.
    rewrite map_app, !present_app. cbn [map present User.id User.email
      User.telegram_id app]. rewrite app_nil_r.
    repeat split.
    + apply Permutation_NoDup with (l := uuid :: map User.id users);
        [apply Permutation_cons_append|].
      constructor; [|assumption].
      intros Hi. apply in_map_iff in Hi. destruct Hi as (v & Hv & Hvin).
      apply (Hfresh v Hvin Hv).
    + apply Permutation_NoDup
        with (l := uc_email ud :: present User.email users);
        [apply Permutation_cons_append|].
      constructor; [|assumption].
      intros Hi. apply present_In in Hi. destruct Hi as (v & Hvin & Hv).
      pose proof (find_none _ _ Hfind v Hvin) as Hq. cbn in Hq.
      rewrite Hv, String.eqb_refl in Hq. discriminate.
    + assumption.
    + apply Forall_app. split; [assumption|].
      constructor; [|constructor]. cbn. discriminate.
  - unfold telegram_auth.
    destruct (find_one _ users) eqn:Hfind; cbn [fst];
      [repeat split; assumption|].
    unfold insert_one, accounts_invariant.
    rewrite map_app, !present_app. cbn [map present User.id User.email
      User.telegram_id app]. rewrite app_nil_r.
    repeat split.
    + apply Permutation_NoDup with (l := uuid :: map User.id users);
        [apply Permutation_cons_append|].
      constructor; [|assumption].
      intros Hi. apply in_map_iff in Hi. destruct Hi as (v & Hv & Hvin).
      apply (Hfresh v Hvin Hv).
    + assumption.
    + apply Permutation_NoDup
        with (l := ta_telegram_id ad :: present User.telegram_id users);
        [apply Permutation_cons_append|].
      constructor; [|assumption].
      intros Hi. apply present_In in Hi. destruct Hi as (v & Hvin & Hv).
      pose proof (find_none _ _ Hfind v Hvin) as Hq. cbn in Hq.
      rewrite Hv, Z.eqb_refl in Hq. discriminate.
    + apply Forall_app. split; [assumption|].
      constructor; [|constructor]. cbn. congruence.
  - cbn [fst update_profile]. apply Hupd; reflexivity.
  - destruct (status_users sid t1 t2 u txs users) as [-> | (e & ->)].
    + repeat split; assumption.
    + apply Hupd; reflexivity.
Qed.

End AccountsFacts.

Lemma update_one_id {A : Type} (query : A -> bool) (set : A -> A)
    (l : list A) :
  (forall d, set d = d) -> update_one query set l = l.
Proof.
  intros Hs. induction l as [|d l IH]; cbn; [reflexivity|].
  destruct (query d); [rewrite Hs|rewrite IH]; reflexivity.
Qed.

(** Every reachable users collection satisfies the invariant. *)
Lemma accounts_invariant_holds
    (new_StripeCheckout : string -> StripeCheckout) (users : list User.t) :
  accounts new_StripeCheckout users -> accounts_invariant users.
Proof.
  induction 1 as [|users users' _ IH Hstep].
  - repeat split; constructor.
  - exact (step_invariant new_StripeCheckout users users' Hstep IH).
Qed.

(** With distinct values of an optional field, a document is the only one
    carrying its value. *)
Lemma find_one_present {A B : Type} (field : A -> option B)
    (eqb : B -> B -> bool) (l : list A) (d : A) (b : B) :
  (forall x y, eqb x y = true <-> x = y) ->
  NoDup (present field l) -> In d l -> field d = Some b ->
  find_one (fun x => match field x with
                     | Some b' => eqb b' b
                     | None => false
                     end) l = Some d.
Proof.
  intros Heqb Hnd Hin Hd. unfold find_one.
  induction l as [|x l IH]; [destruct Hin|].
  cbn [List.find]. cbn [present] in Hnd.
  destruct (field x) as [bx|] eqn:Hx.
  - inversion Hnd as [|? ? Hnotin Hnd']; subst.
    destruct (eqb bx b) eqn:He.
    + apply Heqb in He. subst bx.
      destruct Hin as [-> | Hin]; [reflexivity|].
      exfalso. apply Hnotin. apply present_In. exists d. split; assumption.
    + destruct Hin as [-> | Hin]; [|apply IH; assumption].
      rewrite Hd in Hx. injection Hx as Hx.
      assert (eqb bx b = true) by (apply Heqb; symmetry; exact Hx).
      congruence.
  - destruct Hin as [-> | Hin]; [congruence|apply IH; assumption].
Qed.

(** X3. In a users collection the routes have built, every key identifies
    its account: looking a stored account up by its id, by its email or by
    its Telegram id finds that account and no other, and an account with an
    email has a password hash. *)
Theorem accounts_keys_identify
    (new_StripeCheckout : string -> StripeCheckout) (users : list User.t)
    (u : User.t) :
  accounts new_StripeCheckout users ->
  In u users ->
  find_one (fun x => (User.id x =? User.id u)%string) users = Some u
  /\ (forall e, User.email u = Some e ->
        User.password_hash u <> None
        /\ find_one (fun x => match User.email x with
                              | Some e' => (e' =? e)%string
                              | None => false
                              end) users = Some u)
  /\ (forall n, User.telegram_id u = Some n ->
        find_one (fun x => match User.telegram_id x with
                           | Some i => i =? n
                           | None => false
                           end) users = Some u).
Proof.
  intros Hacc Hin.
  destruct (accounts_invariant_holds _ _ Hacc) as (Hid & Hem & Htg & Hpw).
  split; [|split].
  - destruct (update_one_unique User.id (fun x => x) users u Hid Hin
                ltac:(reflexivity)) as (Hf & _).
    rewrite update_one_id in Hf by reflexivity. exact Hf.
  - intros e He. split.
    + rewrite Forall_forall in Hpw. apply (Hpw u Hin). rewrite He.
      discriminate.
    + apply (find_one_present User.email String.eqb users u e);
        try assumption.
      intros x y. apply String.eqb_eq.
  - intros n Hn.
    apply (find_one_present User.telegram_id Z.eqb users u n);
      try assumption.
    intros x y. apply Z.eqb_eq.
Qed.



(** X6. Telegram sign-in is idempotent: signing in again with the same
    [telegram_id], whatever the other fields, the clock and the fresh
    identifier, returns the same account and leaves the collection as the
    first sign-in left it. *)
Theorem telegram_auth_again (auth_data auth_data' : TelegramAuth)
    (uuid uuid' : string) (t t' : Z) (users : list User.t) :
  ta_telegram_id auth_data' = ta_telegram_id auth_data ->
  telegram_auth auth_data' uuid' t' (fst (telegram_auth auth_data uuid t users))
  = telegram_auth auth_data uuid t users.
Proof.
  intros Hid. unfold telegram_auth at 2 3. rewrite <- Hid.
  destruct (find_one _ users) as [u|] eqn:Hfind; cbn [fst].
  - unfold telegram_auth. rewrite Hfind. reflexivity.
  - unfold telegram_auth, insert_one.
    erewrite find_one_app_new;
      [reflexivity|exact Hfind|cbn; apply Z.eqb_refl].
Qed.

Lemma apply_update_nothing (u : User.t) :
  apply_update
    {| pu_name := None; pu_cigarettes_per_day := None;
       pu_cost_per_pack := None; pu_cigarettes_per_pack := None;
       pu_quit_date := None |} u = u.
Proof. destruct u. reflexivity. Qed.

(** X7. On a reachable users collection the profile update is stored for
    the caller and for no one else: looking the caller up by id afterwards
    gives the document the handler returned, every other account is still
    there, and an update that carries no field changes nothing at all. *)
Theorem update_profile_stored (new_StripeCheckout : string -> StripeCheckout)
    (profile_data : ProfileUpdate) (u : User.t) (users : list User.t) :
  accounts new_StripeCheckout users ->
  In u users ->
  let users' := fst (update_profile profile_data u users) in
  let u' := snd (update_profile profile_data u users) in
  find_one (fun x => (User.id x =? User.id u)%string) users' = Some u'
  /\ List.length users' = List.length users
  /\ (forall v, In v users -> User.id v <> User.id u -> In v users')
  /\ update_profile
       {| pu_name := None; pu_cigarettes_per_day := None;
          pu_cost_per_pack := None; pu_cigarettes_per_pack := None;
          pu_quit_date := None |} u users = (users, u).
Proof.
  intros Hacc Hin users' u'.
  destruct (accounts_invariant_holds _ _ Hacc) as (Hid & _).
  destruct (update_one_unique User.id (apply_update profile_data) users u
              Hid Hin ltac:(reflexivity)) as (Hfind & Hothers).
  split; [exact Hfind|]. split.
  - subst users'. cbn [fst update_profile].
    rewrite <- (length_map User.id), (update_one_map User.id), length_map
      by reflexivity.
    reflexivity.
  - split; [exact Hothers|].
    unfold update_profile.
    rewrite update_one_id by apply apply_update_nothing.
    rewrite apply_update_nothing. reflexivity.
Qed.

(** ** Further properties: subscriptions and insights *)

Lemma filter_all {A : Type} (f : A -> bool) (l : list A) :
  (forall x, In x l -> f x = true) -> filter f l = l.
Proof.
  induction l as [|x l IH]; cbn; intros H; [reflexivity|].
  rewrite (H x (or_introl eq_refl)), IH; [reflexivity|].
  intros y Hy. apply H. right. assumption.
Qed.

Lemma premium_insights (choice : nat) (u : User.t) :
  premium u = true -> insights (get_insights choice u) = MOCKED_INSIGHTS.
Proof.
  intros Hp. unfold get_insights. cbn [insights]. fold (premium u).
  rewrite Hp. apply filter_all. intros i _. apply orb_true_r.
Qed.

(** X8. Insights marked premium are served to the accounts whose stored
    [subscription_status] is [premium] and to no others; the other insights
    are served to everyone.  [subscription_end] is not looked at. *)
Theorem insights_paywall (choice : nat) (u : User.t) (i : Insight) :
  In i (insights (get_insights choice u))
  <-> In i MOCKED_INSIGHTS /\ (i_premium i = true -> premium u = true).
Proof.
  unfold get_insights. cbn [insights]. fold (premium u).
  rewrite filter_In. apply and_iff_compat_l.
  destruct (i_premium i), (premium u); cbn; intuition congruence.
Qed.

(** X9. No request takes premium away: after any request that writes the
    users collection, an account that was premium is still stored, still
    premium, and every insight is served to it. *)
Theorem premium_never_lapses
    (new_StripeCheckout : string -> StripeCheckout)
    (users users' : list User.t) (u : User.t) :
  step new_StripeCheckout users users' ->
  In u users ->
  premium u = true ->
  exists u',
    In u' users'
    /\ User.id u' = User.id u
    /\ premium u' = true
    /\ forall choice, insights (get_insights choice u') = MOCKED_INSIGHTS.
Proof.
  intros Hstep Hin Hp.
  assert (Hupd : forall query set,
            (forall d, User.id (set d) = User.id d) ->
            (forall d, premium d = true -> premium (set d) = true) ->
            exists u', In u' (update_one query set users)
                       /\ User.id u' = User.id u /\ premium u' = true).
  { intros query set H1 H2.
    destruct (update_one_In query set users u Hin) as [H | H].
    - exists u. auto.
    - exists (set u). auto. }
  assert (H : exists u', In u' users' /\ User.id u' = User.id u
                         /\ premium u' = true).
  { destruct Hstep as [ud uuid hashed t users' v Hfresh Hreg
                      | ad uuid t Hfresh | pd v Hv | sid t1 t2 v txs Hv].
    - unfold register in Hreg. destruct (find_one _ users); [discriminate|].
      injection Hreg as <- _. exists u. unfold insert_one.
      rewrite in_app_iff. auto.
    - unfold telegram_auth. destruct (find_one _ users); cbn [fst];
        exists u; unfold insert_one; rewrite ?in_app_iff; auto.
    - cbn [fst update_profile]. apply Hupd; [reflexivity|].
      intros d Hd. exact Hd.
    - destruct (status_users new_StripeCheckout sid t1 t2 v txs users)
        as [-> | (e & ->)]; [exists u; auto|].
      apply Hupd; reflexivity. }
  destruct H as (u' & Hin' & Hid & Hp'). exists u'.
  repeat split; try assumption.
  intros choice. apply premium_insights. assumption.
Qed.

Lemma find_one_update_one {A : Type} (query : A -> bool) (set : A -> A)
    (l : list A) (d : A) :
  find_one query l = Some d -> query (set d) = true ->
  find_one query (update_one query set l) = Some (set d).
Proof.
  unfold find_one. induction l as [|x l IH]; cbn; [discriminate|].
  destruct (query x) eqn:Hq.
  - intros [= ->] Hs. cbn. rewrite Hs. reflexivity.
  - intros Hf Hs. cbn. rewrite Hq. apply IH; assumption.
Qed.

Section SubscriptionFacts.

Variable new_StripeCheckout : string -> StripeCheckout.

(** X10. A status check fails in one way only: whatever goes wrong inside,
    the caller gets [400 Could not fetch payment status]; when it answers,
    the answer repeats what Stripe reported, the amount divided by 100. *)
Theorem get_checkout_status_outcome (session_id : string) (t1 t2 : Z)
    (user : User.t) (transactions : list Transaction.t)
    (users : list User.t) :
  match snd (get_checkout_status new_StripeCheckout session_id t1 t2 user
               transactions users) with
  | Return view =>
      exists status,
        get_checkout_status_of
          (new_StripeCheckout ("https://example.com" ++ STRIPE_WEBHOOK_PATH))
          session_id = Return status
        /\ sv_status view = cs_status status
        /\ sv_payment_status view = cs_payment_status status
        /\ (sv_amount view == inject_Z (amount_total status) / 100)%Q
        /\ sv_currency view = cs_currency status
  | Throw e => e = HTTP 400 "Could not fetch payment status"
  end.
Proof.
  unfold get_checkout_status. cbv zeta.
  destruct (get_checkout_status_of _ session_id) as [status|e] eqn:Hs;
    [|reflexivity].
  assert (Hv : exists status0,
            Return status = Return status0
            /\ cs_status status = cs_status status0
            /\ cs_payment_status status = cs_payment_status status0
            /\ (inject_Z (amount_total status) / 100
                == inject_Z (amount_total status0) / 100)%Q
            /\ cs_currency status = cs_currency status0).
  { exists status. repeat split; reflexivity. }
  destruct (find_one _ transactions) as [tx|]; [|exact Hv].
  destruct (_ && _); [|exact Hv].
  destruct (plus _ _); [exact Hv|reflexivity].
Qed.

(** X11. A paid session is redeemed at most once: after a status check in
    which Stripe reported the session as paid, any later status check of
    that session, by any caller and whatever Stripe then reports, changes
    neither collection. *)
Theorem paid_session_redeemed_once
    (new_StripeCheckout' : string -> StripeCheckout)
    (session_id : string) (t1 t2 t1' t2' : Z) (user user' : User.t)
    (transactions : list Transaction.t) (users : list User.t)
    (status : CheckoutStatusResponse) :
  get_checkout_status_of
    (new_StripeCheckout ("https://example.com" ++ STRIPE_WEBHOOK_PATH))
    session_id = Return status ->
  cs_payment_status status = "paid" ->
  let after :=
    fst (get_checkout_status new_StripeCheckout session_id t1 t2 user
           transactions users) in
  fst (get_checkout_status new_StripeCheckout' session_id t1' t2' user'
         (fst after) (snd after)) = after.
Proof.
  intros Hs Hpaid after.
  assert (Hstable : forall txs us,
            match find_one
                    (fun x => (Transaction.session_id x =? session_id)%string)
                    txs with
            | Some tx => Transaction.payment_status tx = Some "paid"
            | None => True
            end ->
            fst (get_checkout_status new_StripeCheckout' session_id t1' t2'
                   user' txs us) = (txs, us)).
  { intros txs us Hf. unfold get_checkout_status. cbv zeta.
    destruct (get_checkout_status_of (new_StripeCheckout' _) session_id);
      [|reflexivity].
    destruct (find_one _ txs) as [tx|]; [|reflexivity].
    rewrite Hf. cbn [get String.eqb]. reflexivity. }
  subst after. unfold get_checkout_status at 2 3 4. cbv zeta.
  rewrite Hs, Hpaid.
  destruct (find_one _ transactions) as [tx|] eqn:Hfind.
  - destruct (negb (get (Transaction.payment_status tx) "" =? "paid")%string)
      eqn:Hnp.
    + change ("paid" =? "paid")%string with true. cbn [andb].
      assert (Hf' : find_one
                (fun x => (Transaction.session_id x =? session_id)%string)
                (update_one
                   (fun x => (Transaction.session_id x =? session_id)%string)
                   (set_paid (isoformat (now_utc t1))) transactions)
              = Some (set_paid (isoformat (now_utc t1)) tx)).
      { apply find_one_update_one; [exact Hfind|].
        apply find_some in Hfind. exact (proj2 Hfind). }
      destruct (plus _ _); cbn [fst snd]; apply Hstable; rewrite Hf';
        reflexivity.
    + cbn [andb fst snd]. apply Hstable. rewrite Hfind.
      apply negb_false_iff, String.eqb_eq in Hnp.
      destruct (Transaction.payment_status tx) as [s|]; cbn [get] in Hnp;
        [congruence|discriminate].
  - cbn [fst snd]. apply Hstable. rewrite Hfind. exact I.
Qed.

End SubscriptionFacts.

Lemma plan_of_listed (k : string) (p : Plan) :
  plan_of SUBSCRIPTION_PLANS k = Some p ->
  (k = "premium_monthly" /\ contains "yearly" k = false)
  \/ (k = "premium_yearly" /\ contains "yearly" k = true).
Proof.
  cbn [plan_of SUBSCRIPTION_PLANS].
  destruct (String.eqb_spec "premium_monthly" k) as [<- | _];
    [intros _; left; split; reflexivity|].
  destruct (String.eqb_spec "premium_yearly" k) as [<- | _];
    [intros _; right; split; reflexivity|discriminate].
Qed.

Lemma find_one_none {A : Type} (query : A -> bool) (l : list A) :
  (forall x, In x l -> query x = false) -> find_one query l = None.
Proof.
  unfold find_one. induction l as [|x l IH]; cbn; intros H; [reflexivity|].
  rewrite (H x (or_introl eq_refl)). apply IH. intros y Hy. apply H. auto.
Qed.

(** X12. A checkout records a transaction only when Stripe returned a
    session: then exactly one transaction is appended, for the caller, with
    the session id, status [pending] and the price of the plan, which is one
    of the two listed plans.  When the checkout fails, nothing is recorded;
    an unknown plan fails with [400 Invalid plan] whatever Stripe would
    answer. *)
Theorem create_checkout_records
    (new_StripeCheckout : string -> StripeCheckout)
    (checkout_data : CheckoutCreate) (base_url uuid : string) (t : Z)
    (user : User.t) (transactions : list Transaction.t) :
  match create_checkout new_StripeCheckout checkout_data base_url uuid t user
          transactions with
  | (transactions', Return view) =>
      exists plan tx,
        plan_of SUBSCRIPTION_PLANS (cc_plan_id checkout_data) = Some plan
        /\ (cc_plan_id checkout_data = "premium_monthly"
            \/ cc_plan_id checkout_data = "premium_yearly")
        /\ transactions' = (transactions ++ [tx])%list
        /\ Transaction.session_id tx = cv_session_id view
        /\ Transaction.user_id tx = User.id user
        /\ Transaction.plan_id tx = Some (cc_plan_id checkout_data)
        /\ Transaction.payment_status tx = Some "pending"
        /\ Transaction.amount tx = price plan
  | (transactions', Throw e) =>
      transactions' = transactions
      /\ (plan_of SUBSCRIPTION_PLANS (cc_plan_id checkout_data) = None ->
          e = HTTP 400 "Invalid plan")
  end.
Proof.
  unfold create_checkout.
  destruct (plan_of SUBSCRIPTION_PLANS (cc_plan_id checkout_data))
    as [plan|] eqn:Hplan; [|split; reflexivity].
  cbv zeta.
  destruct (create_checkout_session _ _) as [session|e];
    [|split; [reflexivity|discriminate]].
  eexists plan, _. split; [reflexivity|]. split.
  { destruct (plan_of_listed _ _ Hplan) as [[H _] | [H _]]; auto. }
  split; [reflexivity|]. repeat split.
Qed.

(** X13. A purchase, end to end.  When [create_checkout] has recorded a
    transaction under a session id not used before and Stripe reports that
    session as paid, the first status check marks the transaction paid and
    stores its caller as premium, with a subscription end 365 days after
    the clock reading for the yearly plan and 30 days after it for the
    monthly plan.  The caller of the status check need not be the buyer:
    the transaction keeps the buyer's id, and a buyer with another id is
    left as stored. *)
Theorem purchase_grants_premium
    (new_StripeCheckout : string -> StripeCheckout)
    (checkout_data : CheckoutCreate) (base_url uuid : string) (t t1 t2 : Z)
    (buyer caller : User.t) (transactions transactions' : list Transaction.t)
    (users : list User.t) (view : CheckoutView)
    (status : CheckoutStatusResponse) :
  accounts new_StripeCheckout users ->
  In caller users ->
  create_checkout new_StripeCheckout checkout_data base_url uuid t buyer
    transactions = (transactions', Return view) ->
  (forall x, In x transactions ->
             Transaction.session_id x <> cv_session_id view) ->
  get_checkout_status_of
    (new_StripeCheckout ("https://example.com" ++ STRIPE_WEBHOOK_PATH))
    (cv_session_id view) = Return status ->
  cs_payment_status status = "paid" ->
  0 <= t2 ->
  t2 + 365 * US_PER_DAY < MAXORDINAL * US_PER_DAY ->
  let period :=
    if (cc_plan_id checkout_data =? "premium_yearly")%string
    then 365 else 30 in
  let after :=
    fst (get_checkout_status new_StripeCheckout (cv_session_id view) t1 t2
           caller transactions' users) in
  find_one (fun x => (User.id x =? User.id caller)%string) (snd after)
    = Some (set_premium (isoformat (now_utc (t2 + period * US_PER_DAY)))
              caller)
  /\ (In buyer users -> User.id buyer <> User.id caller ->
      In buyer (snd after))
  /\ exists tx,
       find_one
         (fun x => (Transaction.session_id x =? cv_session_id view)%string)
         (fst after) = Some tx
       /\ Transaction.payment_status tx = Some "paid"
       /\ Transaction.user_id tx = User.id buyer.
Proof.
  intros Hacc Hin Hco Hnew Hs Hpaid Ht2 Hmax period after.
  destruct (accounts_invariant_holds _ _ Hacc) as (Hid & _).
  unfold create_checkout in Hco.
  destruct (plan_of SUBSCRIPTION_PLANS (cc_plan_id checkout_data))
    as [plan|] eqn:Hplan; [|discriminate].
  cbv zeta in Hco.
  destruct (create_checkout_session _ _) as [session|e]; [|discriminate].
  injection Hco as <- <-. cbn [cv_session_id] in *.
  set (tx0 := Transaction.mk uuid (cs_session_id session) (User.id buyer)
                (Some (cc_plan_id checkout_data)) (price plan) "usd"
                (Some "pending") (isoformat (now_utc t)) None) in *.
  assert (Hfind : find_one
            (fun x => (Transaction.session_id x =? cs_session_id session)%string)
            (insert_one tx0 transactions) = Some tx0).
  { apply find_one_app_new; [|cbn; apply String.eqb_refl].
    apply find_one_none. intros x Hx. apply String.eqb_neq. auto. }
  assert (Hperiod :
            (if contains "yearly" (cc_plan_id checkout_data) then 365 else 30)
            = period).
  { subst period.
    destruct (plan_of_listed _ _ Hplan) as [[-> _] | [-> _]]; reflexivity. }
  assert (Hplus : plus (now_utc t2) (days period)
                  = Return (now_utc (t2 + period * US_PER_DAY))).
  { unfold plus, in_range, days, now_utc. cbn [wall tzinfo].
    assert (Hp : period = 365 \/ period = 30)
      by (subst period; destruct (_ =? _)%string; auto).
    destruct (Z.leb_spec 0 (t2 + period * US_PER_DAY));
      [|unfold US_PER_DAY in *; lia].
    destruct (Z.ltb_spec (t2 + period * US_PER_DAY)
                (MAXORDINAL * US_PER_DAY));
      [reflexivity|unfold US_PER_DAY, MAXORDINAL in *; lia]. }
  subst after. unfold get_checkout_status. cbv zeta.
  rewrite Hs, Hpaid, Hfind. cbn [Transaction.payment_status tx0 get].
  change (negb ("pending" =? "paid")%string && ("paid" =? "paid")%string)
    with true. cbv iota.
  cbn [Transaction.plan_id tx0 get]. rewrite Hperiod, Hplus.
  cbn [fst snd].
  destruct (update_one_unique User.id
              (set_premium (isoformat (now_utc (t2 + period * US_PER_DAY))))
              users caller Hid Hin ltac:(reflexivity)) as (Hf & Hothers).
  split; [exact Hf|]. split.
  - intros Hb Hne. apply Hothers; assumption.
  - exists (set_paid (isoformat (now_utc t1)) tx0). split.
    + apply find_one_update_one; [exact Hfind|].
      cbn. apply String.eqb_refl.
    + split; reflexivity.
Qed.

(** ** Further properties: events, triggers and statistics *)

Lemma start_of_window (days t : Z) :
  Z.abs days <= 999999999 ->
  0 <= t - days * US_PER_DAY < MAXORDINAL * US_PER_DAY ->
  (td <~ timedelta_days days ;; minus (now_utc t) td)
  = Return (now_utc (t - days * US_PER_DAY)).
Proof.
  intros Hd Hr. unfold timedelta_days.
  destruct (Z.leb_spec (Z.abs days) 999999999); [|lia].
  cbn [and_then]. unfold minus, in_range, sub_td, Py.days, now_utc.
  cbn [wall tzinfo].
  destruct (Z.leb_spec 0 (t - days * US_PER_DAY)); [|lia].
  destruct (Z.ltb_spec (t - days * US_PER_DAY) (MAXORDINAL * US_PER_DAY));
    [reflexivity|lia].
Qed.

Lemma start_of_window_inv (days t : Z) (start : datetime) :
  (td <~ timedelta_days days ;; minus (now_utc t) td) = Return start ->
  Z.abs days <= 999999999
  /\ 0 <= t - days * US_PER_DAY < MAXORDINAL * US_PER_DAY
  /\ start = now_utc (t - days * US_PER_DAY).
Proof.
  unfold timedelta_days.
  destruct (Z.leb_spec (Z.abs days) 999999999); [|discriminate].
  cbn [and_then]. unfold minus, in_range, sub_td, Py.days, now_utc.
  cbn [wall tzinfo].
  destruct (Z.leb_spec 0 (t - days * US_PER_DAY)); [|discriminate].
  destruct (Z.ltb_spec (t - days * US_PER_DAY) (MAXORDINAL * US_PER_DAY));
    [|discriminate].
  cbn [andb]. intros [= <-]. repeat split; assumption.
Qed.

Lemma start_of_window_throw (days t : Z) (e : exception) :
  (td <~ timedelta_days days ;; minus (now_utc t) td) = Throw e ->
  e = OverflowError.
Proof.
  unfold timedelta_days. destruct (_ <=? _); cbn [and_then].
  - unfold minus, in_range. destruct (_ && _); congruence.
  - congruence.
Qed.

(** X14. [get_events] fails only with an [OverflowError] that no handler
    catches, and it fails exactly when the [days] parameter is beyond the
    range of [timedelta] or puts the start of the window outside the years
    1 to 9999. *)
Theorem get_events_overflow (event_type : option string) (days t : Z)
    (user : User.t) (db_events : list Event.t) :
  (forall e,
     get_events event_type days t user db_events = Throw e ->
     e = OverflowError)
  /\ ((exists events,
         get_events event_type days t user db_events = Return events)
      <-> Z.abs days <= 999999999
          /\ 0 <= t - days * US_PER_DAY < MAXORDINAL * US_PER_DAY).
Proof.
  unfold get_events, and_then, timedelta_days, minus, in_range, sub_td,
    Py.days.
  cbn [wall tzinfo now_utc].
  destruct (Z.leb_spec (Z.abs days) 999999999);
    [destruct (Z.leb_spec 0 (t - days * US_PER_DAY));
     [destruct (Z.ltb_spec (t - days * US_PER_DAY)
                  (MAXORDINAL * US_PER_DAY))|]|];
    cbn [andb]; (split; [congruence|]); split;
    try (intros (events & Hev); discriminate);
    try (intros _; eexists; reflexivity);
    try (intros _; lia); try (intros (Hd & Hr); exfalso; lia).
Qed.

Lemma firstn_incl {A : Type} (n : nat) (l : list A) (x : A) :
  In x (firstn n l) -> In x l.
Proof.
  revert l. induction n as [|n IH]; intros [|y l]; cbn; try tauto.
  intros [-> | H]; [left; reflexivity|right; apply IH, H].
Qed.

Lemma firstn_sorted {A : Type} (R : A -> A -> Prop) (n : nat) (l : list A) :
  StronglySorted R l -> StronglySorted R (firstn n l).
Proof.
  intros Hs. revert n. induction Hs as [|x l Hs IH Hx]; intros [|n]; cbn;
    try constructor.
  - apply IH.
  - rewrite Forall_forall in *. intros y Hy. apply Hx.
    apply (firstn_incl n l y Hy).
Qed.

(** What a sorted, capped query returns. *)
Lemma query_result {A : Type} (key : A -> string) (query : A -> bool)
    (coll : list A) :
  let r := to_list 1000 (sort_desc key (find query coll)) in
  (forall x, In x r -> In x coll /\ query x = true)
  /\ StronglySorted (ge_key key) r
  /\ (List.length r <= 1000)%nat
  /\ ((List.length (filter query coll) <= 1000)%nat ->
      forall x, In x coll -> query x = true -> In x r).
Proof.
  unfold to_list, find. cbv zeta. repeat split.
  - apply firstn_incl in H.
    apply (Permutation_in _ (sort_desc_perm key _)) in H.
    apply filter_In in H. tauto.
  - apply firstn_incl in H.
    apply (Permutation_in _ (sort_desc_perm key _)) in H.
    apply filter_In in H. tauto.
  - apply firstn_sorted, sort_desc_sorted.
  - apply firstn_le_length.
  - intros Hcap x Hx Hq. rewrite firstn_all2.
    + apply (Permutation_in _ (Permutation_sym (sort_desc_perm key _))).
      apply filter_In. auto.
    + rewrite (Permutation_length (sort_desc_perm key _)). exact Hcap.
Qed.

Lemma filter_length_le {A : Type} (f g : A -> bool) (l : list A) :
  (forall x, f x = true -> g x = true) ->
  (List.length (filter f l) <= List.length (filter g l))%nat.
Proof.
  intros H. induction l as [|x l IH]; cbn; [lia|].
  destruct (f x) eqn:Hf.
  - rewrite (H x Hf). cbn. lia.
  - destruct (g x); cbn; lia.
Qed.

Lemma now_utc_datetime (t : Z) :
  0 <= t < MAXORDINAL * US_PER_DAY -> utc_datetime (now_utc t).
Proof. intros H. split; [reflexivity|exact H]. Qed.

Lemma event_log_clock (db_events : list Event.t) (e : Event.t) :
  event_log db_events -> In e db_events ->
  exists t0, 0 <= t0 < MAXORDINAL * US_PER_DAY
             /\ Event.created_at e = isoformat (now_utc t0).
Proof.
  induction 1 as [|ed uuid t u events Hlog IH Ht]; intros He.
  - destruct He.
  - cbn [fst create_event insert_one] in He. apply in_app_or in He.
    destruct He as [He | [<- | []]]; [apply IH, He|].
    exists t. split; [exact Ht|reflexivity].
Qed.

Lemma type_filter_spec (event_type : option string) (ty : string) :
  (if truthy event_type then (ty =? get event_type "")%string else true)
  = true
  <-> (truthy event_type = true -> Some ty = event_type).
Proof.
  destruct event_type as [s|]; cbn [truthy get].
  - destruct (negb (s =? "")%string); [|split; [discriminate|reflexivity]].
    rewrite String.eqb_eq. split.
    + intros -> _. reflexivity.
    + intros H. specialize (H eq_refl). congruence.
  - split; [discriminate|reflexivity].
Qed.

(** X15. On a log that [create_event] has built, with the start of the
    window inside the range of dates, [get_events] returns events of the
    caller written at or after the clock reading minus [days] days, of the
    requested type when one is given (an empty [event_type] asks for none),
    newest first and at most 1000 of them; when the caller has logged at
    most 1000 events, every such event is returned. *)
Theorem get_events_window (event_type : option string) (days t : Z)
    (user : User.t) (db_events : list Event.t) :
  event_log db_events ->
  Z.abs days <= 999999999 ->
  0 <= t - days * US_PER_DAY < MAXORDINAL * US_PER_DAY ->
  exists events,
    get_events event_type days t user db_events = Return events
    /\ (forall e, In e events ->
          In e db_events
          /\ listed event_type (t - days * US_PER_DAY) user e)
    /\ StronglySorted (ge_key Event.created_at) events
    /\ (List.length events <= 1000)%nat
    /\ (count_documents (fun e => (Event.user_id e =? User.id user)%string)
          db_events <= 1000 ->
        forall e, In e db_events ->
                  listed event_type (t - days * US_PER_DAY) user e ->
                  In e events).
Proof.
  intros Hlog Hd Hr. unfold get_events.
  pose proof (start_of_window days t Hd Hr) as Hs.
  unfold and_then in Hs |- *.
  destruct (timedelta_days days) as [td|]; [|discriminate].
  rewrite Hs. cbv zeta. eexists. split; [reflexivity|].
  set (lo := t - days * US_PER_DAY) in *.
  assert (Hq : forall e, In e db_events ->
            ((Event.user_id e =? User.id user)%string
             && (isoformat (now_utc lo) <=? Event.created_at e)%string
             && (if truthy event_type
                 then (Event.event_type e =? get event_type "")%string
                 else true) = true
             <-> listed event_type lo user e)).
  { intros e He.
    destruct (event_log_clock _ _ Hlog He) as (t0 & Ht0 & Hc).
    unfold listed. rewrite Hc.
    rewrite isoformat_leb by (apply now_utc_datetime; assumption).
    rewrite !andb_true_iff, String.eqb_eq, type_filter_spec.
    cbn [wall now_utc]. rewrite Z.leb_le. split.
    - intros ((Hu & Hlo) & Hty). repeat split; try assumption.
      exists t0. repeat split; try assumption; lia.
    - intros (Hu & (t1 & Ht1 & Hlo & Hc1) & Hty).
      repeat split; try assumption.
      assert (Heq : isoformat (now_utc t1) = isoformat (now_utc t0))
        by congruence.
      assert (Hw : wall (now_utc t1) = wall (now_utc t0)).
      { apply Z.compare_eq.
        rewrite <- isoformat_order by (apply now_utc_datetime; assumption).
        rewrite Heq. apply str_compare_refl. }
      cbn in Hw. lia. }
  destruct (query_result Event.created_at
              (fun e => (Event.user_id e =? User.id user)%string
                        && (isoformat (now_utc lo) <=? Event.created_at e)%string
                        && (if truthy event_type
                            then (Event.event_type e =? get event_type "")%string
                            else true)) db_events)
    as (Hin & Hsorted & Hlen & Hall).
  repeat split; try assumption.
  - apply (Hin e H).
  - apply Hq; apply (Hin e H).
  - apply Hq; apply (Hin e H).
  - apply Hq; apply (Hin e H).
  - intros Hcap e He Hl. apply Hall; [|exact He|apply Hq; assumption].
    unfold count_documents in Hcap.
    pose proof (filter_length_le
      (fun e => (Event.user_id e =? User.id user)%string
                && (isoformat (now_utc lo) <=? Event.created_at e)%string
                && (if truthy event_type
                    then (Event.event_type e =? get event_type "")%string
                    else true))
      (fun e => (Event.user_id e =? User.id user)%string) db_events) as Hle.
    cbv beta in Hle.
    assert ((List.length
               (filter (fun e => (Event.user_id e =? User.id user)%string)
                  db_events) <= 1000)%nat) by lia.
    etransitivity; [apply Hle|assumption].
    intros x Hx. apply andb_true_iff in Hx. destruct Hx as (Hx & _).
    apply andb_true_iff in Hx. tauto.
Qed.

Lemma sort_desc_newest {A : Type} (key : A -> string) (l : list A) (x : A) :
  (forall y, In y l -> (key x <=? key y)%string = false) ->
  sort_desc key (l ++ [x]) = x :: sort_desc key l.
Proof.
  unfold sort_desc. induction l as [|y l IH]; intros H; [reflexivity|].
  cbn [app fold_right]. rewrite IH by (intros z Hz; apply H; right; exact Hz).
  cbn [insert_desc]. rewrite (H y (or_introl eq_refl)). reflexivity.
Qed.

Lemma event_log_until_clock (t : Z) (db_events : list Event.t) (e : Event.t) :
  event_log_until t db_events -> In e db_events ->
  exists t0, 0 <= t0 <= t /\ Event.created_at e = isoformat (now_utc t0).
Proof.
  induction 1 as [|ed uuid t0 u events Hlog IH Ht]; intros He.
  - destruct He.
  - cbn [fst create_event insert_one] in He. apply in_app_or in He.
    destruct He as [He | [<- | []]]; [apply IH, He|].
    exists t0. split; [exact Ht|reflexivity].
Qed.

Lemma get_events_return (event_type : option string) (days t : Z)
    (user : User.t) (db_events : list Event.t) :
  Z.abs days <= 999999999 ->
  0 <= t - days * US_PER_DAY < MAXORDINAL * US_PER_DAY ->
  get_events event_type days t user db_events
  = Return
      (to_list 1000
         (sort_desc Event.created_at
            (find
               (events_query event_type
                  (isoformat (now_utc (t - days * US_PER_DAY))) user)
               db_events))).
Proof.
  intros Hd Hr. unfold get_events.
  pose proof (start_of_window days t Hd Hr) as Hs.
  unfold and_then in Hs |- *.
  destruct (timedelta_days days) as [td|]; [|discriminate].
  rewrite Hs. reflexivity.
Qed.

(** X16. An event logged after every other one heads the listing: when
    all stored events were written before the clock reading [t0] of a
    [create_event], any later [get_events] of the same user whose window
    starts at or before [t0], and which asks for no type or for the type of
    the new event, returns the new event first. *)
Theorem logged_event_listed_first (event_data : EventCreate) (uuid : string)
    (t0 : Z) (user : User.t) (events : list Event.t)
    (event_type : option string) (days t : Z) :
  event_log_until (t0 - 1) events ->
  t0 < MAXORDINAL * US_PER_DAY ->
  Z.abs days <= 999999999 ->
  0 <= t - days * US_PER_DAY <= t0 ->
  (truthy event_type = true ->
   event_type = Some (ec_event_type event_data)) ->
  let created := create_event event_data uuid t0 user events in
  exists rest,
    get_events event_type days t user (fst created)
    = Return (snd created :: rest).
Proof.
  intros Hlog Ht0 Hd Hr Hty created.
  rewrite get_events_return by lia.
  subst created. cbn [fst snd create_event insert_one].
  set (new := Event.mk _ _ _ _ _ _).
  set (query := events_query _ _ _).
  assert (Hnew : query new = true).
  { subst query new. unfold events_query.
    cbn [Event.user_id Event.created_at Event.event_type].
    rewrite String.eqb_refl.
    rewrite isoformat_leb by (apply now_utc_datetime; lia).
    cbn [wall now_utc andb].
    destruct (Z.leb_spec (t - days * US_PER_DAY) t0); [|lia].
    apply type_filter_spec. intros Htr. symmetry. apply Hty, Htr. }
  unfold find, insert_one. rewrite filter_app. cbn [filter]. rewrite Hnew.
  rewrite sort_desc_newest.
  - unfold to_list. cbn [firstn]. eexists. reflexivity.
  - intros y Hy. apply filter_In in Hy. destruct Hy as (Hy & _).
    destruct (event_log_until_clock _ _ _ Hlog Hy) as (t1 & Ht1 & ->).
    subst new. cbn [Event.created_at].
    rewrite isoformat_leb by (apply now_utc_datetime; lia).
    cbn [wall now_utc]. apply Z.leb_gt. lia.
Qed.

Lemma day_of_today (t : Z) : day_of (now_utc t) 6 = now_utc t.
Proof.
  unfold day_of, sub_td, days, now_utc. cbn [wall tzinfo].
  change ((6 - 6) * US_PER_DAY) with 0. rewrite Z.sub_0_r. reflexivity.
Qed.

(** X17. The counts of [get_today_stats] are those of the last bucket of
    [get_weekly_progress]: on a log whose events were written up to the
    clock reading, both routes, asked at that reading, report the same
    numbers of cigarettes, urges and resisted urges for the current day. *)
Theorem today_is_last_weekly_bucket (t : Z) (user : User.t)
    (db_events : list Event.t) :
  event_log_until t db_events ->
  clock_ok 6 t ->
  let stats := get_today_stats t user db_events in
  exists bucket,
    nth_error (get_weekly_progress t user db_events) 6 = Some bucket
    /\ List.length (get_weekly_progress t user db_events) = 7%nat
    /\ date bucket = strftime_Ymd (now_utc t)
    /\ d_cigarettes bucket = cigarettes_today stats
    /\ d_urges bucket = urges_today stats
    /\ d_resisted bucket = resisted_today stats.
Proof.
  intros Hlog Ht stats.
  exists (day_bucket (now_utc t) user db_events 6).
  split; [reflexivity|]. split; [reflexivity|].
  assert (Hev :
    events_between user
      (isoformat (replace_midnight (day_of (now_utc t) 6)))
      (isoformat (replace_end_of_day (day_of (now_utc t) 6))) db_events
    = to_list 1000
        (find (fun e => (Event.user_id e =? User.id user)%string
                        && (isoformat (replace_midnight (now_utc t))
                            <=? Event.created_at e)%string)
           db_events)).
  { unfold events_between, find. f_equal. apply filter_ext_in.
    intros e He. f_equal. unfold gte_lte.
    destruct (event_log_until_clock _ _ _ Hlog He) as (t0 & Ht0 & ->).
    pose proof (day_hi_utc t 6 Ht ltac:(lia)) as Hhi.
    pose proof (day_hi_wall t 6) as Hw.
    rewrite day_of_today in *.
    rewrite (isoformat_leb (now_utc t0)); [|apply now_utc_datetime|exact Hhi].
    - rewrite Hw. cbn [wall now_utc].
      replace (t0 <=? _) with true; [apply andb_true_r|].
      symmetry. apply Z.leb_le.
      pose proof (Z_div_mod_eq_full t US_PER_DAY).
      pose proof (Z.mod_pos_bound t US_PER_DAY ltac:(unfold US_PER_DAY; lia)).
      lia.
    - unfold clock_ok in Ht. lia. }
  subst stats. unfold day_bucket, get_today_stats. cbv zeta.
  cbn [date d_cigarettes d_urges d_resisted cigarettes_today urges_today
       resisted_today].
  rewrite Hev, day_of_today. repeat split.
Qed.

(** X18. When [get_today_stats] counts a cigarette today, the
    [last_cigarette] it reports is the [created_at] of a cigarette event of
    the caller that is not before the start of the day and not before any
    other of the caller's cigarette events; the stored [quit_date] is
    reported only when the caller has no cigarette event at all. *)
Theorem today_last_cigarette (t : Z) (user : User.t)
    (db_events : list Event.t) :
  let stats := get_today_stats t user db_events in
  (0 < cigarettes_today stats ->
   exists e,
     In e db_events
     /\ is_cigarette_of user e = true
     /\ last_cigarette stats = Some (Event.created_at e)
     /\ (isoformat (replace_midnight (now_utc t))
         <=? Event.created_at e)%string = true
     /\ forall e', In e' db_events -> is_cigarette_of user e' = true ->
                   (Event.created_at e' <=? Event.created_at e)%string = true)
  /\ ((forall e, In e db_events -> is_cigarette_of user e = false) ->
      last_cigarette stats = User.quit_date user).
Proof.
  cbv zeta. unfold get_today_stats. cbv zeta.
  cbn [cigarettes_today last_cigarette]. unfold find.
  change (filter (fun e => (Event.user_id e =? User.id user)%string
                           && (Event.event_type e =? "cigarette")%string)
            db_events)
    with (filter (is_cigarette_of user) db_events).
  split.
  - rewrite count_type_tally. unfold tally, to_list. intros Hpos.
    destruct (filter (has_type "cigarette") _) as [|e0 l0] eqn:Hf;
      [cbn in Hpos; lia|].
    assert (Hin0 : In e0 (filter (has_type "cigarette")
                            (firstn 1000
                               (filter
                                  (fun e =>
                                     (Event.user_id e =? User.id user)%string
                                     && (isoformat
                                           (replace_midnight (now_utc t))
                                         <=? Event.created_at e)%string)
                                  db_events))))
      by (rewrite Hf; left; reflexivity).
    apply filter_In in Hin0. destruct Hin0 as (Hin0 & Hty0).
    apply firstn_incl, filter_In in Hin0. destruct Hin0 as (Hin0 & Hq0).
    apply andb_true_iff in Hq0. destruct Hq0 as (Hu0 & Hlo0).
    assert (Hc0 : is_cigarette_of user e0 = true).
    { unfold is_cigarette_of. rewrite Hu0. exact Hty0. }
    destruct (sort_desc Event.created_at
                (filter (is_cigarette_of user) db_events)) as [|e l] eqn:Hs.
    + apply sort_desc_nil in Hs.
      assert (In e0 (filter (is_cigarette_of user) db_events))
        by (apply filter_In; split; assumption).
      rewrite Hs in *. contradiction.
    + destruct (sort_desc_head _ _ _ _ Hs) as (Hin & Hmax).
      apply filter_In in Hin. destruct Hin as (Hin & Hc).
      assert (Hle0 : (Event.created_at e0 <=? Event.created_at e)%string
                     = true)
        by (apply Hmax, filter_In; split; assumption).
      exists e. cbn [hd_error]. repeat split; try assumption.
      * exact (str_leb_trans _ _ _ Hlo0 Hle0).
      * intros e' He' Hc'. apply Hmax, filter_In. split; assumption.
  - intros Hnone.
    assert (Hf : filter (is_cigarette_of user) db_events = []).
    { destruct (filter (is_cigarette_of user) db_events) as [|x l] eqn:Hf;
        [reflexivity|].
      assert (Hin : In x (filter (is_cigarette_of user) db_events))
        by (rewrite Hf; left; reflexivity).
      apply filter_In in Hin. destruct Hin as (Hin & Hc).
      rewrite (Hnone x Hin) in Hc. discriminate. }
    rewrite Hf. reflexivity.
Qed.

Lemma count_documents_insert {A : Type} (query : A -> bool) (doc : A)
    (coll : list A) :
  count_documents query (insert_one doc coll)
  = count_documents query coll + (if query doc then 1 else 0).
Proof.
  unfold count_documents, insert_one. rewrite filter_app, length_app.
  cbn [filter]. destruct (query doc); cbn [List.length]; lia.
Qed.

(** X19. The totals of [get_profile_stats] follow the writes: a
    [create_event] of a user raises that user's [total_events_logged] by
    one and a [create_trigger] raises that user's [total_triggers_logged] by
    one, and neither changes the totals reported to a user with another
    id. *)
Theorem profile_stats_count_writes (event_data : EventCreate)
    (trigger_data : TriggerCreate) (uuid uuid' : string) (t t' : Z)
    (writer reader : User.t) (db_events : list Event.t)
    (db_triggers : list Trigger.t) :
  let events' := fst (create_event event_data uuid t writer db_events) in
  let triggers' :=
    fst (create_trigger trigger_data uuid' t' writer db_triggers) in
  let bump := if (User.id writer =? User.id reader)%string then 1 else 0 in
  total_events_logged (get_profile_stats reader events' db_triggers)
  = total_events_logged (get_profile_stats reader db_events db_triggers)
    + bump
  /\ total_triggers_logged (get_profile_stats reader db_events triggers')
     = total_triggers_logged (get_profile_stats reader db_events db_triggers)
       + bump.
Proof.
  cbv zeta. unfold get_profile_stats.
  cbn [total_events_logged total_triggers_logged fst create_event
       create_trigger].
  rewrite !count_documents_insert.
  cbn [Event.user_id Trigger.user_id]. split; reflexivity.
Qed.

(** X20. [get_trigger_patterns] and [get_profile_stats] count the same
    triggers, the first at most 1000 of them: its [total_triggers] is the
    smaller of 1000 and the [total_triggers_logged] of the second, so the
    two routes disagree as soon as a user has logged more than 1000
    triggers. *)
Theorem patterns_total_capped (user : User.t) (db_events : list Event.t)
    (db_triggers : list Trigger.t) :
  total_triggers (get_trigger_patterns user db_triggers)
  = Z.min 1000
      (total_triggers_logged (get_profile_stats user db_events db_triggers)).
Proof.
  unfold get_trigger_patterns, get_profile_stats, count_documents, to_list,
    find.
  cbn [total_triggers total_triggers_logged].
  rewrite length_firstn. lia.
Qed.

Lemma trigger_log_clock (db_triggers : list Trigger.t) (x : Trigger.t) :
  trigger_log db_triggers -> In x db_triggers ->
  exists t0, 0 <= t0 < MAXORDINAL * US_PER_DAY
             /\ Trigger.created_at x = isoformat (now_utc t0).
Proof.
  induction 1 as [|td uuid t u triggers Hlog IH Ht]; intros Hx.
  - destruct Hx.
  - cbn [fst create_trigger insert_one] in Hx. apply in_app_or in Hx.
    destruct Hx as [Hx | [<- | []]]; [apply IH, Hx|].
    exists t. split; [exact Ht|reflexivity].
Qed.

(** X21. [get_triggers] fails only with [OverflowError], under the same
    conditions on [days] as [get_events]; otherwise, on a collection that
    [create_trigger] has built, it returns triggers of the caller written at
    or after the clock reading minus [days] days, newest first and at most
    1000 of them, and all of them when the caller has logged at most 1000
    triggers. *)
Theorem get_triggers_window (days t : Z) (user : User.t)
    (db_triggers : list Trigger.t) :
  trigger_log db_triggers ->
  match get_triggers days t user db_triggers with
  | Throw e =>
      e = OverflowError
      /\ ~ (Z.abs days <= 999999999
            /\ 0 <= t - days * US_PER_DAY < MAXORDINAL * US_PER_DAY)
  | Return triggers =>
      Z.abs days <= 999999999
      /\ 0 <= t - days * US_PER_DAY < MAXORDINAL * US_PER_DAY
      /\ (forall x, In x triggers ->
            In x db_triggers
            /\ listed_trigger (t - days * US_PER_DAY) user x)
      /\ StronglySorted (ge_key Trigger.created_at) triggers
      /\ (List.length triggers <= 1000)%nat
      /\ (count_documents
            (fun x => (Trigger.user_id x =? User.id user)%string)
            db_triggers <= 1000 ->
          forall x, In x db_triggers ->
                    listed_trigger (t - days * US_PER_DAY) user x ->
                    In x triggers)
  end.
Proof.
  intros Hlog. unfold get_triggers.
  destruct (td <~ timedelta_days days ;; minus (now_utc t) td)
    as [start|e0] eqn:Hs.
  - destruct (start_of_window_inv _ _ _ Hs) as (Hd & Hr & ->).
    unfold and_then in Hs |- *.
    destruct (timedelta_days days) as [td|]; [|discriminate].
    rewrite Hs. cbv zeta.
    set (lo := t - days * US_PER_DAY) in *.
    set (query := fun x : Trigger.t => _).
    assert (Hq : forall x, In x db_triggers ->
              (query x = true <-> listed_trigger lo user x)).
    { intros x Hx. subst query. cbv beta.
      destruct (trigger_log_clock _ _ Hlog Hx) as (t0 & Ht0 & Hc).
      unfold listed_trigger. rewrite Hc.
      rewrite isoformat_leb by (apply now_utc_datetime; assumption).
      rewrite andb_true_iff, String.eqb_eq.
      cbn [wall now_utc]. rewrite Z.leb_le. split.
      - intros (Hu & Hlo). split; [assumption|].
        exists t0. repeat split; try assumption; lia.
      - intros (Hu & (t1 & Ht1 & Hlo & Hc1)). split; [assumption|].
        assert (Heq : isoformat (now_utc t1) = isoformat (now_utc t0))
          by congruence.
        assert (Hw : wall (now_utc t1) = wall (now_utc t0)).
        { apply Z.compare_eq.
          rewrite <- isoformat_order
            by (apply now_utc_datetime; assumption).
          rewrite Heq. apply str_compare_refl. }
        cbn in Hw. lia. }
    destruct (query_result Trigger.created_at query db_triggers)
      as (Hin & Hsorted & Hlen & Hall).
    split; [exact Hd|]. split; [exact Hr|]. split; [|split; [|split]].
    + intros x Hx. destruct (Hin x Hx) as (Hx' & Hqx).
      split; [exact Hx'|]. apply Hq; assumption.
    + exact Hsorted.
    + exact Hlen.
    + intros Hcap x Hx Hl. apply Hall; [|exact Hx|apply Hq; assumption].
      unfold count_documents in Hcap.
      pose proof (filter_length_le query
        (fun x => (Trigger.user_id x =? User.id user)%string) db_triggers)
        as Hle.
      cbv beta in Hle.
      assert ((List.length
                 (filter (fun x => (Trigger.user_id x =? User.id user)%string)
                    db_triggers) <= 1000)%nat) by lia.
      etransitivity; [apply Hle|assumption].
      intros y Hy. subst query. cbv beta in Hy.
      apply andb_true_iff in Hy. tauto.
  - pose proof (start_of_window_throw _ _ _ Hs) as ->.
    assert (Hno : ~ (Z.abs days <= 999999999
                     /\ 0 <= t - days * US_PER_DAY < MAXORDINAL * US_PER_DAY)).
    { intros (Hd & Hr). rewrite (start_of_window days t Hd Hr) in Hs.
      discriminate. }
    unfold and_then in Hs |- *.
    destruct (timedelta_days days) as [td|].
    + rewrite Hs. split; [reflexivity|exact Hno].
    + injection Hs as <-. split; [reflexivity|exact Hno].
Qed.

(** ** Further properties: stored profiles *)

Lemma step_complete (new_StripeCheckout : string -> StripeCheckout)
    (users users' : list User.t) :
  step new_StripeCheckout users users' ->
  Forall complete users -> Forall complete users'.
Proof.
  intros Hstep Hall.
  destruct Hstep as [ud uuid hashed t users' u Hfresh Hreg
                    | ad uuid t Hfresh | pd u Hin | sid t1 t2 u txs Hin].
  - unfold register in Hreg.
    destruct (find_one _ users); [discriminate|].
    injection Hreg as <- <-. apply Forall_app. split; [assumption|].
    constructor; [|constructor]. unfold complete. cbn.
    repeat split; try discriminate. left. split; reflexivity.
  - unfold telegram_auth.
    destruct (find_one _ users); cbn [fst]; [assumption|].
    apply Forall_app. split; [assumption|].
    constructor; [|constructor]. unfold complete. cbn.
    repeat split; try discriminate. left. split; reflexivity.
  - cbn [fst update_profile]. apply update_one_Forall; [|assumption].
    intros d (H1 & H2 & H3 & H4 & H5). unfold complete, apply_update. cbn.
    repeat split; try assumption.
    + destruct (pu_cigarettes_per_day pd); [discriminate|assumption].
    + destruct (pu_cost_per_pack pd); [discriminate|assumption].
    + destruct (pu_cigarettes_per_pack pd); [discriminate|assumption].
    + destruct (pu_quit_date pd); [discriminate|assumption].
  - destruct (status_users new_StripeCheckout sid t1 t2 u txs users)
      as [-> | (e & ->)]; [assumption|].
    apply update_one_Forall; [|assumption].
    intros d (H1 & H2 & H3 & H4 & H5). unfold complete, set_premium. cbn.
    repeat split; try assumption. right. split; [reflexivity|discriminate].
Qed.

(** X22. Every account the routes have stored is complete: the three
    smoking numbers and a quit date are present, so the defaults the
    handlers pass to [get] are never used for it, and it is either free
    without a subscription end or premium with one; [get_insights] treats
    it as premium exactly when a subscription end is stored, and
    [get_profile_stats] reports the stored status. *)
Theorem accounts_complete (new_StripeCheckout : string -> StripeCheckout)
    (users : list User.t) (u : User.t) (choice : nat)
    (db_events : list Event.t) (db_triggers : list Trigger.t) :
  accounts new_StripeCheckout users ->
  In u users ->
  complete u
  /\ is_premium (get_insights choice u)
     = match User.subscription_end u with
       | Some _ => true
       | None => false
       end
  /\ Some (ps_subscription_status
             (get_profile_stats u db_events db_triggers))
     = User.subscription_status u.
Proof.
  intros Hacc Hin.
  assert (Hall : Forall complete users).
  { clear Hin. induction Hacc as [|users users' _ IH Hstep];
      [constructor|].
    exact (step_complete new_StripeCheckout users users' Hstep IH). }
  rewrite Forall_forall in Hall. specialize (Hall u Hin).
  split; [exact Hall|].
  destruct Hall as (_ & _ & _ & _ & [(Hs & He) | (Hs & He)]);
    unfold get_insights, get_profile_stats;
    cbn [is_premium ps_subscription_status]; rewrite Hs; cbn [get].
  - rewrite He. split; reflexivity.
  - destruct (User.subscription_end u); [split; reflexivity|contradiction].
Qed.

(** ** Sample runs *)

Lemma demo_accounts : accounts Demo.stripe Demo.users.
Proof.
  apply (accounts_step Demo.stripe [] Demo.users (accounts_empty Demo.stripe)).
  apply (step_register Demo.stripe [] (Sample.signup None) "u1"
           "$2b$12$hash" Sample.clock Demo.users Sample.registered).
  - intros u [].
  - reflexivity.
Qed.

Lemma demo_log_until (t : Z) :
  Sample.clock - 1 <= t -> event_log_until t Demo.log.
Proof.
  intros Ht. unfold Demo.log.
  assert (0 <= Sample.clock - 2 * US_PER_DAY) by (vm_compute; discriminate).
  assert (Sample.clock - 2 * US_PER_DAY <= Sample.clock - 1)
    by (vm_compute; discriminate).
  assert (0 <= Sample.clock - 3600 * 1000000) by (vm_compute; discriminate).
  assert (Sample.clock - 3600 * 1000000 <= Sample.clock - 1)
    by (vm_compute; discriminate).
  apply log_until_create; [apply log_until_create; [constructor|]|]; lia.
Qed.

Lemma demo_event_log : event_log Demo.log.
Proof.
  unfold Demo.log.
  apply log_create; [apply log_create; [constructor|]|];
    vm_compute; split; (discriminate || reflexivity).
Qed.

Lemma demo_trigger_log : trigger_log Demo.triggers.
Proof.
  unfold Demo.triggers.
  apply trigger_log_create; [constructor|].
  vm_compute; split; (discriminate || reflexivity).
Qed.

Lemma accounts_keys_identify_witness :
  find_one (fun x => (User.id x =? User.id Sample.registered)%string)
    Demo.users = Some Sample.registered
  /\ (forall e, User.email Sample.registered = Some e ->
        User.password_hash Sample.registered <> None
        /\ find_one (fun x => match User.email x with
                              | Some e' => (e' =? e)%string
                              | None => false
                              end) Demo.users = Some Sample.registered)
  /\ (forall n, User.telegram_id Sample.registered = Some n ->
        find_one (fun x => match User.telegram_id x with
                           | Some i => i =? n
                           | None => false
                           end) Demo.users = Some Sample.registered).
Proof.
  exact (accounts_keys_identify Demo.stripe Demo.users Sample.registered
           demo_accounts (or_introl eq_refl)).
Defined.



Lemma telegram_auth_again_witness :
  telegram_auth (Demo.telegram "Anna") "u3" (Sample.clock + 1)
    (fst (telegram_auth (Demo.telegram "Ann") "u2" Sample.clock Demo.users))
  = telegram_auth (Demo.telegram "Ann") "u2" Sample.clock Demo.users.
Proof.
  exact (telegram_auth_again (Demo.telegram "Ann") (Demo.telegram "Anna")
           "u2" "u3" Sample.clock (Sample.clock + 1) Demo.users eq_refl).
Defined.

Lemma update_profile_stored_witness :
  let users' := fst (update_profile Demo.rename Sample.registered Demo.users) in
  let u' := snd (update_profile Demo.rename Sample.registered Demo.users) in
  find_one (fun x => (User.id x =? User.id Sample.registered)%string) users'
  = Some u'
  /\ List.length users' = List.length Demo.users
  /\ (forall v, In v Demo.users -> User.id v <> User.id Sample.registered ->
                In v users')
  /\ update_profile
       {| pu_name := None; pu_cigarettes_per_day := None;
          pu_cost_per_pack := None; pu_cigarettes_per_pack := None;
          pu_quit_date := None |} Sample.registered Demo.users
     = (Demo.users, Sample.registered).
Proof.
  exact (update_profile_stored Demo.stripe Demo.rename Sample.registered
           Demo.users demo_accounts (or_introl eq_refl)).
Defined.

Lemma premium_never_lapses_witness :
  exists u',
    In u' (fst (update_profile Demo.rename Demo.subscriber [Demo.subscriber]))
    /\ User.id u' = User.id Demo.subscriber
    /\ premium u' = true
    /\ forall choice, insights (get_insights choice u') = MOCKED_INSIGHTS.
Proof.
  exact (premium_never_lapses Demo.stripe [Demo.subscriber]
           (fst (update_profile Demo.rename Demo.subscriber [Demo.subscriber]))
           Demo.subscriber
           (step_update Demo.stripe [Demo.subscriber] Demo.rename
              Demo.subscriber (or_introl eq_refl))
           (or_introl eq_refl) eq_refl).
Defined.

Lemma paid_session_redeemed_once_witness :
  let after :=
    fst (get_checkout_status Demo.stripe "cs_1" (Sample.clock + 60)
           (Sample.clock + 61) Sample.registered Demo.pending Demo.users) in
  fst (get_checkout_status Demo.stripe "cs_1" (Sample.clock + 120)
         (Sample.clock + 121) Sample.registered (fst after) (snd after))
  = after.
Proof.
  exact (paid_session_redeemed_once Demo.stripe Demo.stripe "cs_1"
           (Sample.clock + 60) (Sample.clock + 61) (Sample.clock + 120)
           (Sample.clock + 121) Sample.registered Sample.registered
           Demo.pending Demo.users Demo.paid eq_refl eq_refl).
Defined.

Lemma purchase_grants_premium_witness :
  let after :=
    fst (get_checkout_status Demo.stripe "cs_1" (Sample.clock + 60)
           (Sample.clock + 61) Sample.registered Demo.pending Demo.users) in
  find_one (fun x => (User.id x =? User.id Sample.registered)%string)
    (snd after)
  = Some (set_premium
            (isoformat (now_utc (Sample.clock + 61 + 365 * US_PER_DAY)))
            Sample.registered)
  /\ (In Sample.registered Demo.users ->
      User.id Sample.registered <> User.id Sample.registered ->
      In Sample.registered (snd after))
  /\ exists tx,
       find_one (fun x => (Transaction.session_id x =? "cs_1")%string)
         (fst after) = Some tx
       /\ Transaction.payment_status tx = Some "paid"
       /\ Transaction.user_id tx = User.id Sample.registered.
Proof.
  apply (purchase_grants_premium Demo.stripe Demo.yearly
           "https://api.example.org/" "tx1" Sample.clock (Sample.clock + 60)
           (Sample.clock + 61) Sample.registered Sample.registered []
           Demo.pending Demo.users
           {| checkout_url := "https://checkout.stripe.com/c/pay/cs_1";
              cv_session_id := "cs_1" |} Demo.paid).
  - exact demo_accounts.
  - left. reflexivity.
  - reflexivity.
  - intros x [].
  - reflexivity.
  - reflexivity.
  - vm_compute. discriminate.
  - vm_compute. reflexivity.
Defined.

Lemma get_events_window_witness :
  exists events,
    get_events None 7 Sample.clock Sample.registered Demo.log = Return events
    /\ (forall e, In e events ->
          In e Demo.log
          /\ listed None (Sample.clock - 7 * US_PER_DAY) Sample.registered e)
    /\ StronglySorted (ge_key Event.created_at) events
    /\ (List.length events <= 1000)%nat
    /\ (count_documents
          (fun e => (Event.user_id e =? User.id Sample.registered)%string)
          Demo.log <= 1000 ->
        forall e, In e Demo.log ->
                  listed None (Sample.clock - 7 * US_PER_DAY)
                    Sample.registered e ->
                  In e events).
Proof.
  apply (get_events_window None 7 Sample.clock Sample.registered Demo.log).
  - exact demo_event_log.
  - vm_compute. discriminate.
  - vm_compute. split; [discriminate|reflexivity].
Defined.

Lemma logged_event_listed_first_witness :
  let created :=
    create_event (Demo.logged "resisted") "e3" Sample.clock Sample.registered
      Demo.log in
  exists rest,
    get_events (Some "resisted") 1 (Sample.clock + 5) Sample.registered
      (fst created)
    = Return (snd created :: rest).
Proof.
  apply (logged_event_listed_first (Demo.logged "resisted") "e3" Sample.clock
           Sample.registered Demo.log (Some "resisted") 1 (Sample.clock + 5)).
  - apply demo_log_until. lia.
  - vm_compute. reflexivity.
  - vm_compute. discriminate.
  - vm_compute. split; discriminate.
  - reflexivity.
Defined.

Lemma today_is_last_weekly_bucket_witness :
  let stats := get_today_stats Sample.clock Sample.registered Demo.log in
  exists bucket,
    nth_error (get_weekly_progress Sample.clock Sample.registered Demo.log) 6
    = Some bucket
    /\ List.length
         (get_weekly_progress Sample.clock Sample.registered Demo.log)
       = 7%nat
    /\ date bucket = strftime_Ymd (now_utc Sample.clock)
    /\ d_cigarettes bucket = cigarettes_today stats
    /\ d_urges bucket = urges_today stats
    /\ d_resisted bucket = resisted_today stats.
Proof.
  apply (today_is_last_weekly_bucket Sample.clock Sample.registered Demo.log).
  - apply demo_log_until. lia.
  - vm_compute. split; [discriminate|reflexivity].
Defined.

Lemma get_triggers_window_witness :
  match get_triggers 30 Sample.clock Sample.registered Demo.triggers with
  | Throw e =>
      e = OverflowError
      /\ ~ (Z.abs 30 <= 999999999
            /\ 0 <= Sample.clock - 30 * US_PER_DAY < MAXORDINAL * US_PER_DAY)
  | Return triggers =>
      Z.abs 30 <= 999999999
      /\ 0 <= Sample.clock - 30 * US_PER_DAY < MAXORDINAL * US_PER_DAY
      /\ (forall x, In x triggers ->
            In x Demo.triggers
            /\ listed_trigger (Sample.clock - 30 * US_PER_DAY)
                 Sample.registered x)
      /\ StronglySorted (ge_key Trigger.created_at) triggers
      /\ (List.length triggers <= 1000)%nat
      /\ (count_documents
            (fun x => (Trigger.user_id x =? User.id Sample.registered)%string)
            Demo.triggers <= 1000 ->
          forall x, In x Demo.triggers ->
                    listed_trigger (Sample.clock - 30 * US_PER_DAY)
                      Sample.registered x ->
                    In x triggers)
  end.
Proof.
  exact (get_triggers_window 30 Sample.clock Sample.registered Demo.triggers
           demo_trigger_log).
Defined.

Lemma accounts_complete_witness :
  complete Sample.registered
  /\ is_premium (get_insights 0 Sample.registered)
     = match User.subscription_end Sample.registered with
       | Some _ => true
       | None => false
       end
  /\ Some (ps_subscription_status
             (get_profile_stats Sample.registered Demo.log Demo.triggers))
     = User.subscription_status Sample.registered.
Proof.
  exact (accounts_complete Demo.stripe Demo.users Sample.registered 0
           Demo.log Demo.triggers demo_accounts (or_introl eq_refl)).
Defined.
